(** * Finly (SpendGuard): transaction queries, statistics, category suggestion

    A shallow embedding of the parts of the Express/Mongoose backend that the
    specification talks about:

    - [backend/models/Transaction.js]  (schema hooks, [getUserTransactions],
      [getTransactionStats]),
    - [backend/models/Category.js]     ([incrementUsage], the parent hook),
    - [backend/controllers/transactionController.js] and
      [categoryController.js]          (the request handlers),
    - [backend/controllers/ocrController.js] ([suggestCategoryFromMerchant]).

    MongoDB collections are finite maps from [_id] to documents; a handler is
    a function from the store (and the request) to a result or a thrown
    error.  JavaScript numbers are exact rationals extended with [NaN] and the
    infinities: rounding of doubles is not represented. *)

From Stdlib Require Import Ascii QArith Qround.
From stdpp Require Import gmap strings list fin_maps pretty.

Open Scope Z_scope.

(** ** JavaScript values *)

Module Js.

(** A JavaScript number. *)
Inductive num :=
| NaN
| PInf
| NInf
| Fin (q : Q).

(** Truthiness of a string: every string but the empty one. *)
Definition truthy_str (s : string) : bool :=
  match s with
  | EmptyString => false
  | String _ _ => true
  end.

(** Truthiness of a number: every number but [0] and [NaN]. *)
Definition truthy_num (n : num) : bool :=
  match n with
  | NaN => false
  | PInf | NInf => true
  | Fin q => negb (Qeq_bool q 0)
  end.

(** Truthiness of a possibly [undefined] value. *)
Definition truthy_opt {A} (truthy : A -> bool) (o : option A) : bool :=
  match o with
  | Some a => truthy a
  | None => false
  end.

(** [x >= y] and [x <= y] on numbers; every comparison with [NaN] fails. *)
Definition geb (x y : num) : bool :=
  match x, y with
  | NaN, _ | _, NaN => false
  | PInf, _ => true
  | _, NInf => true
  | NInf, _ => false
  | _, PInf => false
  | Fin a, Fin b => Qle_bool b a
  end.

Definition leb (x y : num) : bool := geb y x.

(** [x < y]. *)
Definition ltb (x y : num) : bool :=
  match x, y with
  | NaN, _ | _, NaN => false
  | _, NInf => false
  | NInf, _ => true
  | PInf, _ => false
  | _, PInf => true
  | Fin a, Fin b => negb (Qle_bool b a)
  end.

Definition ofZ (z : Z) : num := Fin (inject_Z z).

(** [a / b] for two integers: a division by zero gives an infinity, or
    [NaN] for [0 / 0]. *)
Definition divZ (a b : Z) : num :=
  if b =? 0 then (if a =? 0 then NaN else if 0 <? a then PInf else NInf)
  else Fin (inject_Z a / inject_Z b).

(** [Math.ceil]. *)
Definition ceil (x : num) : num :=
  match x with
  | Fin q => Fin (inject_Z (Qceiling q))
  | _ => x
  end.

(** [String.prototype.toLowerCase], on the ASCII letters: exact on a string
    of ASCII characters. A character outside ASCII is left as it is, where
    JavaScript may map it (U+0130, U+212A), so the statements that depend on
    the lower-cased text ask for an ASCII string. *)
Definition lower_ascii (a : ascii) : ascii :=
  let n := nat_of_ascii a in
  if ((65 <=? n) && (n <=? 90))%nat then ascii_of_nat (n + 32) else a.

Fixpoint toLowerCase (s : string) : string :=
  match s with
  | EmptyString => EmptyString
  | String a r => String (lower_ascii a) (toLowerCase r)
  end.

(** [s.includes(pat)]: [pat] occurs in [s] as a contiguous substring. *)
Fixpoint includes (s pat : string) : bool :=
  String.prefix pat s ||
  match s with
  | EmptyString => false
  | String _ r => includes r pat
  end.

(** [s.split(sep)] for a one-character separator. *)
Fixpoint split (sep : ascii) (s : string) : list string :=
  match s with
  | EmptyString => [EmptyString]
  | String a r =>
      if Ascii.eqb a sep then EmptyString :: split sep r
      else match split sep r with
           | [] => [String a EmptyString]
           | h :: t => String a h :: t
           end
  end.

(** *** [parseFloat] *)

Definition digit (a : ascii) : option Z :=
  let n := Z.of_nat (nat_of_ascii a) in
  if (48 <=? n) && (n <=? 57) then Some (n - 48) else None.

(** Reads the longest run of decimal digits: its value, its length and the
    rest of the text. *)
Fixpoint digits (s : string) (acc : Z) (n : nat) : Z * nat * string :=
  match s with
  | EmptyString => (acc, n, s)
  | String a r =>
      match digit a with
      | Some d => digits r (10 * acc + d) (S n)
      | None => (acc, n, s)
      end
  end.

Definition is_space (a : ascii) : bool :=
  let n := nat_of_ascii a in
  ((n =? 32) || ((9 <=? n) && (n <=? 13)))%nat.

Fixpoint trimStart (s : string) : string :=
  match s with
  | String a r => if is_space a then trimStart r else s
  | EmptyString => s
  end.

(** An optional sign: [true] for a minus. *)
Definition sign (s : string) : bool * string :=
  match s with
  | String "-" r => (true, r)
  | String "+" r => (false, r)
  | _ => (false, s)
  end.

(** The exponent part, [0] when there is none or it has no digit. *)
Definition exponent (s : string) : Z :=
  match s with
  | String c r =>
      if Ascii.eqb c "e" || Ascii.eqb c "E" then
        let '(neg, r') := sign r in
        let '(e, n, _) := digits r' 0 0%nat in
        if (n =? 0)%nat then 0 else if neg then - e else e
      else 0
  | EmptyString => 0
  end.

(** [parseFloat(s)]: leading white space is skipped, the longest prefix
    that is a decimal literal is read, the rest is ignored; [NaN] when
    there is no such prefix. The result is the number the literal denotes,
    not its nearest double: a literal below the least positive double reads
    as [0] in JavaScript and as itself here, so the statements that depend
    on the truthiness of a parsed bound ask for a magnitude that no rounding
    takes to [0]. *)
Definition parseFloat (s : string) : num :=
  let '(neg, s1) := sign (trimStart s) in
  if String.prefix "Infinity" s1 then (if neg then NInf else PInf) else
  let '(ip, ni, s2) := digits s1 0 0%nat in
  let '(fp, nf, s3) :=
    match s2 with
    | String "." r => digits r 0 0%nat
    | _ => (0, 0%nat, s2)
    end in
  if (ni + nf =? 0)%nat then NaN else
  let m := (inject_Z ip + inject_Z fp / inject_Z (10 ^ Z.of_nat nf))%Q in
  let v := (m * Qpower (10 # 1) (exponent s3))%Q in
  Fin (if neg then Qopp v else v).

End Js.

(** ** Documents and collections *)

Definition ObjectId := string.

(** A stored document together with its [_id]. *)
Definition Doc (A : Type) : Type := (ObjectId * A)%type.

(** [models/Category.js]: the fields of the schema that the handlers below
    read or write. [c_userId = None] is the [null] owner of a system-wide
    category. *)
Record Category := mkCategory {
  c_name : string;
  c_type : string;
  c_userId : option ObjectId;
  c_isActive : bool;
  c_isDefault : bool;
  c_usageCount : Z;
  c_lastUsed : option Z;
  c_parentCategory : option ObjectId
}.

(** [models/Transaction.js]. Dates are milliseconds since the epoch. *)
Record Transaction := mkTransaction {
  t_title : string;
  t_description : option string;
  t_amount : Q;
  t_type : string;
  t_category : ObjectId;
  t_date : Z;
  t_userId : ObjectId;
  t_paymentMethod : string;
  t_locationName : option string;
  t_tags : list string
}.

Record Store := mkStore {
  categories : gmap ObjectId Category;
  transactions : gmap ObjectId Transaction
}.

(** [Model.find(filter)]: the matching documents, in the collection's natural
    order. *)
Definition find {A} (filter : Doc A -> bool) (coll : gmap ObjectId A)
  : list (Doc A) :=
  List.filter filter (map_to_list coll).

(** [Model.findOne(filter)]: the first matching document, or [null]. *)
Definition findOne {A} (filter : Doc A -> bool) (coll : gmap ObjectId A)
  : option (Doc A) :=
  List.find filter (map_to_list coll).

(** [Model.countDocuments(filter)]. *)
Definition countDocuments {A} (filter : Doc A -> bool) (coll : gmap ObjectId A)
  : Z :=
  Z.of_nat (length (find filter coll)).

(** [Model.findById(id)]. *)
Definition findById {A} (id : ObjectId) (coll : gmap ObjectId A) : option A :=
  coll !! id.

(** [doc.userId.equals(userId)] for a non-null owner, and the query clause
    [{ userId: userId }]. *)
Definition ownedBy (userId : ObjectId) (owner : option ObjectId) : bool :=
  match owner with
  | Some o => String.eqb o userId
  | None => false
  end.

(** ** Thrown errors *)

Inductive Exn :=
| AppError (message : string) (statusCode : Z)
| Error (message : string)
| ValidationError (message : string)
| MongoServerError (message : string)
| TypeError (message : string).

Inductive result (A : Type) :=
| Ok (a : A)
| Throw (e : Exn).

Arguments Ok {A} a.
Arguments Throw {A} e.

Definition bind {A B} (r : result A) (k : A -> result B) : result B :=
  match r with
  | Ok a => k a
  | Throw e => Throw e
  end.

Notation "'let!' x ':=' r 'in' k" := (bind r (fun x => k))
  (at level 10, x pattern, r at level 100, k at level 200).

(** Whether a value is neither [undefined] nor [null]. *)
Definition defined {A} (o : option A) : bool :=
  match o with
  | Some _ => true
  | None => false
  end.

(** The double quote, for the messages that quote a name. *)
Definition quote : string := String (ascii_of_nat 34) EmptyString.

(** [if (c) throw e;] *)
Definition throwIf (c : bool) (e : Exn) : result unit :=
  if c then Throw e else Ok tt.

(** ** [models/Category.js] *)

Module CategoryModel.

(** [categorySchema.pre('save')]: the parent of a subcategory exists, is not a
    subcategory itself and belongs to the same user. *)
Definition preSave (cats : gmap ObjectId Category) (this : Category)
  : result unit :=
  match c_parentCategory this with
  | None => Ok tt
  | Some parentId =>
      match findById parentId cats with
      | None => Throw (Error "Parent category does not exist")
      | Some parentCategory =>
          let! _ := throwIf (defined (c_parentCategory parentCategory))
                      (Error "Cannot create subcategory of a subcategory") in
          throwIf
            match c_userId parentCategory, c_userId this with
            | Some p, Some o => negb (String.eqb p o)
            | _, _ => false
            end
            (Error "Parent category must belong to the same user")
      end
  end.

(** [categorySchema.methods.incrementUsage], on the category stored under
    [id]: [this.usageCount += 1; this.lastUsed = new Date(); this.save()].
    [save] validates the changed paths ([usageCount] has [min: 0]), runs the
    hook above and writes the document back. *)
Definition incrementUsage (cats : gmap ObjectId Category) (id : ObjectId)
  (this : Category) (now : Z) : result (gmap ObjectId Category) :=
  let this' :=
    {| c_name := c_name this;
       c_type := c_type this;
       c_userId := c_userId this;
       c_isActive := c_isActive this;
       c_isDefault := c_isDefault this;
       c_usageCount := c_usageCount this + 1;
       c_lastUsed := Some now;
       c_parentCategory := c_parentCategory this |} in
  let! _ := throwIf (c_usageCount this' <? 0)
              (ValidationError "Usage count cannot be negative") in
  let! _ := preSave cats this' in
  Ok (<[id := this']> cats).

End CategoryModel.

(** ** The transaction query builder ([models/Transaction.js]) *)

Module TransactionModel.

(** A [{ $gte, $lte }] condition; each bound may be missing. *)
Record Range (A : Type) := mkRange {
  r_gte : option A;
  r_lte : option A
}.

Arguments mkRange {A} r_gte r_lte.
Arguments r_gte {A} r.
Arguments r_lte {A} r.

(** The filter object both [getUserTransactions] and [getTransactions] build;
    a key that was not assigned is [None]. [q_or] is the search text of the
    [$or] of three [$regex] clauses. *)
Record Query := mkQuery {
  q_userId : ObjectId;
  q_type : option string;
  q_category : option string;
  q_paymentMethod : option string;
  q_date : option (Range Z);
  q_amount : option (Range Js.num);
  q_tags : option (list string);
  q_or : option string
}.

(** The [options] argument of [getUserTransactions]. Dates are the instants
    [new Date(..)] denotes. *)
Record Options := mkOptions {
  o_page : option Z;
  o_limit : option Z;
  o_type : option string;
  o_category : option string;
  o_startDate : option Z;
  o_endDate : option Z;
  o_minAmount : option Js.num;
  o_maxAmount : option Js.num;
  o_paymentMethod : option string;
  o_tags : option (list string);
  o_search : option string;
  o_sortBy : option string;
  o_sortOrder : option string
}.

(** [if (v) query.k = v] *)
Definition whenTruthy {A} (truthy : A -> bool) (v : option A) : option A :=
  if Js.truthy_opt truthy v then v else None.

(** A [Date] object is always truthy. *)
Definition truthy_date (_ : Z) : bool := true.

(** [if (lo || hi) { q = {}; if (lo) q.$gte = lo; if (hi) q.$lte = hi }] *)
Definition rangeOf {A} (truthy : A -> bool) (lo hi : option A)
  : option (Range A) :=
  if Js.truthy_opt truthy lo || Js.truthy_opt truthy hi
  then Some (mkRange (whenTruthy truthy lo) (whenTruthy truthy hi))
  else None.

(** The "Build query" block of [getUserTransactions]. *)
Definition buildQuery (userId : ObjectId) (o : Options) : Query :=
  {| q_userId := userId;
     q_type := whenTruthy Js.truthy_str (o_type o);
     q_category := whenTruthy Js.truthy_str (o_category o);
     q_paymentMethod := whenTruthy Js.truthy_str (o_paymentMethod o);
     q_date := rangeOf truthy_date (o_startDate o) (o_endDate o);
     q_amount := rangeOf Js.truthy_num (o_minAmount o) (o_maxAmount o);
     q_tags := whenTruthy (fun tags => (0 <? length tags)%nat) (o_tags o);
     q_or := whenTruthy Js.truthy_str (o_search o) |}.

(** A condition on a key holds when the key is not in the filter. *)
Definition holds {A} (test : A -> bool) (cond : option A) : bool :=
  match cond with
  | Some c => test c
  | None => true
  end.

(** [{ $gte: lo, $lte: hi }] on a value. A condition object without any
    operator compares the value with the empty document, and fails. *)
Definition inRange {A} (ge le : A -> A -> bool) (x : A) (r : Range A) : bool :=
  match r_gte r, r_lte r with
  | None, None => false
  | lo, hi => holds (ge x) lo && holds (le x) hi
  end.

Section Matching.

(** MongoDB's [{ $regex: pattern, $options: 'i' }] on a string: the regular
    expression engine of the server. *)
Variable regexTest : string -> string -> bool.

Definition regexField (pattern : string) (field : option string) : bool :=
  match field with
  | Some s => regexTest pattern s
  | None => false
  end.

(** Whether a stored transaction satisfies the filter. *)
Definition matches (q : Query) (d : Doc Transaction) : bool :=
  let t := d.2 in
  String.eqb (t_userId t) (q_userId q)
  && holds (String.eqb (t_type t)) (q_type q)
  && holds (String.eqb (t_category t)) (q_category q)
  && holds (String.eqb (t_paymentMethod t)) (q_paymentMethod q)
  && holds (inRange Z.geb Z.leb (t_date t)) (q_date q)
  && holds (inRange Js.geb Js.leb (Js.Fin (t_amount t))) (q_amount q)
  && holds (fun wanted =>
              existsb (fun tag => existsb (String.eqb tag) wanted) (t_tags t))
           (q_tags q)
  && holds (fun search =>
              regexTest search (t_title t)
              || regexField search (t_description t)
              || regexField search (t_locationName t))
           (q_or q).

(** *** Sorting, skipping, limiting *)

(** The order of two documents on one field: the four fields that
    [validateQueryFilters] admits for [sortBy]. On any other name the
    documents compare equal here. *)
Definition compareField (field : string) (a b : Doc Transaction)
  : comparison :=
  if String.eqb field "date" then Z.compare (t_date a.2) (t_date b.2)
  else if String.eqb field "amount" then Qcompare (t_amount a.2) (t_amount b.2)
  else if String.eqb field "title" then String.compare (t_title a.2) (t_title b.2)
  else if String.eqb field "category"
       then String.compare (t_category a.2) (t_category b.2)
  else Eq.

(** [{ [field]: direction }], direction [1] or [-1]. *)
Definition inOrder (sort : string * Z) (a b : Doc Transaction) : bool :=
  match compareField sort.1 a b with
  | Eq => true
  | Lt => 0 <? sort.2
  | Gt => sort.2 <? 0
  end.

Fixpoint insertDoc (sort : string * Z) (x : Doc Transaction)
  (l : list (Doc Transaction)) : list (Doc Transaction) :=
  match l with
  | [] => [x]
  | y :: r => if inOrder sort x y then x :: l else y :: insertDoc sort x r
  end.

(** [.sort(sort)]: a stable sort, so that the result is a function of the
    collection. *)
Definition sortDocs (sort : string * Z) (l : list (Doc Transaction))
  : list (Doc Transaction) :=
  foldr (insertDoc sort) [] l.

(** [.limit(n)]: [0] is no limit; a negative [n] limits to [-n]. *)
Definition limitDocs {A} (n : Z) (l : list A) : list A :=
  if n =? 0 then l else take (Z.to_nat (Z.abs n)) l.

(** [this.find(query).sort(sort).skip(skip).limit(limit)], executed. The
    server refuses a negative skip. [populate] only replaces the two
    references by the documents they name and is left out. *)
Definition execFind (coll : gmap ObjectId Transaction) (query : Query)
  (sort : string * Z) (skip limit : Z) : result (list (Doc Transaction)) :=
  let! _ := throwIf (skip <? 0)
              (MongoServerError "Skip value must be non-negative") in
  Ok (limitDocs limit
        (drop (Z.to_nat skip) (sortDocs sort (find (matches query) coll)))).

(** [transactionSchema.statics.getUserTransactions] *)
Definition getUserTransactions (coll : gmap ObjectId Transaction)
  (userId : ObjectId) (o : Options) : result (list (Doc Transaction)) :=
  let page := default 1 (o_page o) in
  let limit := default 10 (o_limit o) in
  let sortBy := default "date"%string (o_sortBy o) in
  let sortOrder := default "desc"%string (o_sortOrder o) in
  let query := buildQuery userId o in
  let sort := (sortBy, if String.eqb sortOrder "desc" then -1 else 1) in
  let skip := (page - 1) * limit in
  execFind coll query sort skip limit.

End Matching.

(** *** Saving a transaction *)

(** The fields a request may give for a transaction ([req.body], the
    [transactionData] of the OCR route); a missing key is [None]. *)
Record TxData := mkTxData {
  d_title : option string;
  d_description : option string;
  d_amount : option Q;
  d_type : option string;
  d_category : option ObjectId;
  d_date : option Z;
  d_paymentMethod : option string;
  d_locationName : option string;
  d_tags : option (list string)
}.

Definition paymentMethods : list string :=
  ["cash"; "credit_card"; "debit_card"; "bank_transfer"; "check";
   "digital_wallet"; "other"].

Definition isIn (s : string) (values : list string) : bool :=
  existsb (String.eqb s) values.

(** [maxlength: n]. *)
Definition maxlength (n : nat) (s : string) : bool :=
  (String.length s <=? n)%nat.

(** The validators of the schema on the paths that are present. *)
Definition validatePaths (now : Z) (d : TxData) : result unit :=
  let! _ := throwIf (negb (holds (maxlength 100) (d_title d)))
              (ValidationError "Title cannot exceed 100 characters") in
  let! _ := throwIf (negb (holds (maxlength 500) (d_description d)))
              (ValidationError "Description cannot exceed 500 characters") in
  let! _ := throwIf (negb (holds (Qle_bool (1 # 100)) (d_amount d)))
              (ValidationError "Amount must be greater than 0") in
  let! _ := throwIf (negb (holds (fun s => isIn s ["income"; "expense"])
                                 (d_type d)))
              (ValidationError
                 "Transaction type must be either income or expense") in
  let! _ := throwIf (negb (holds (fun date => date <=? now) (d_date d)))
              (ValidationError "Transaction date cannot be in the future") in
  let! _ := throwIf (negb (holds (fun s => isIn s paymentMethods)
                                 (d_paymentMethod d)))
              (ValidationError "Invalid payment method") in
  let! _ := throwIf (negb (holds (maxlength 100) (d_locationName d)))
              (ValidationError "Location name cannot exceed 100 characters") in
  throwIf (negb (holds (forallb (maxlength 30)) (d_tags d)))
    (ValidationError "Tag cannot exceed 30 characters").

(** A required path: present, and not the empty string. *)
Definition required {A} (what : string) (v : option A) : result A :=
  match v with
  | Some a => Ok a
  | None => Throw (ValidationError what)
  end.

Definition requiredStr (what : string) (v : option string) : result string :=
  required what (whenTruthy Js.truthy_str v).

(** [new Transaction(data)] followed by the validation [save] starts with:
    the document with the defaults of the schema, or the first error. *)
Definition validateNew (now : Z) (userId : ObjectId) (d : TxData)
  : result Transaction :=
  let! title := requiredStr "Transaction title is required" (d_title d) in
  let! amount := required "Amount is required" (d_amount d) in
  let! type := requiredStr "Transaction type is required" (d_type d) in
  let! category := requiredStr "Category is required" (d_category d) in
  let! date := required "Transaction date is required" (d_date d) in
  let! _ := validatePaths now d in
  Ok {| t_title := title;
        t_description := d_description d;
        t_amount := amount;
        t_type := type;
        t_category := category;
        t_date := date;
        t_userId := userId;
        t_paymentMethod := default "cash"%string (d_paymentMethod d);
        t_locationName := d_locationName d;
        t_tags := default [] (d_tags d) |}.

(** [transactionSchema.pre('save')]. [modified] is
    [this.isModified('category') || this.isModified('type')]. The hook leaves
    the categories as [incrementUsage] saved them. *)
Definition preSave (cats : gmap ObjectId Category) (now : Z) (modified : bool)
  (this : Transaction) : result (gmap ObjectId Category) :=
  if modified then
    match findById (t_category this) cats with
    | None => Throw (Error "Category does not exist")
    | Some category =>
        let! _ :=
          throwIf (negb (String.eqb (c_type category) "both")
                   && negb (String.eqb (c_type category) (t_type this)))
            (Error ("Category " ++ quote ++ c_name category ++ quote
                    ++ " cannot be used for " ++ t_type this
                    ++ " transactions")) in
        CategoryModel.incrementUsage cats (t_category this) category now
    end
  else Ok cats.

(** [Transaction.create(data)]: validation, the hook, then the insertion
    under the fresh [_id]. Both paths are set on a new document, so the hook
    sees them as modified. *)
Definition create (st : Store) (now : Z) (newId userId : ObjectId)
  (d : TxData) : result (Store * Doc Transaction) :=
  let! this := validateNew now userId d in
  let! cats := preSave (categories st) now true this in
  let! _ := throwIf (defined (transactions st !! newId))
              (MongoServerError "E11000 duplicate key error") in
  Ok ({| categories := cats;
         transactions := <[newId := this]> (transactions st) |},
      (newId, this)).

(** The [$set] of [findByIdAndUpdate(id, req.body)]: every path of the body
    replaces the stored one. *)
Definition assign (d : TxData) (t : Transaction) : Transaction :=
  {| t_title := default (t_title t) (d_title d);
     t_description :=
       match d_description d with Some s => Some s | None => t_description t end;
     t_amount := default (t_amount t) (d_amount d);
     t_type := default (t_type t) (d_type d);
     t_category := default (t_category t) (d_category d);
     t_date := default (t_date t) (d_date d);
     t_userId := t_userId t;
     t_paymentMethod := default (t_paymentMethod t) (d_paymentMethod d);
     t_locationName :=
       match d_locationName d with Some s => Some s | None => t_locationName t end;
     t_tags := default (t_tags t) (d_tags d) |}.

(** [Transaction.findByIdAndUpdate(id, body, { new: true, runValidators: true })]:
    the validators of the updated paths run; the [save] hooks do not, the
    update is sent to the server as it is. The updated document, or [null]. *)
Definition findByIdAndUpdate (coll : gmap ObjectId Transaction) (now : Z)
  (id : ObjectId) (d : TxData)
  : result (gmap ObjectId Transaction * option (Doc Transaction)) :=
  let! _ := validatePaths now d in
  match coll !! id with
  | None => Ok (coll, None)
  | Some t => Ok (<[id := assign d t]> coll, Some (id, assign d t))
  end.

End TransactionModel.

(** *** Aggregation ([transactionSchema.statics.getTransactionStats]) *)

Module Aggregation.

(** One group of the first [$group] stage, keyed by [type]. *)
Record TypeStat := mkTypeStat {
  ts_type : string;
  ts_totalAmount : Q;
  ts_count : Z;
  ts_avgAmount : Q
}.

(** The document of the second [$group] stage ([_id: null]). *)
Record Overall := mkOverall {
  ov_stats : list TypeStat;
  ov_totalTransactions : Z
}.

(** The [options] of the statistics: the instants of [startDate], [endDate]. *)
Record StatOptions := mkStatOptions {
  so_startDate : option Z;
  so_endDate : option Z
}.

(** [{ $match: { userId, date? } }] *)
Definition matchStage (userId : ObjectId) (o : StatOptions)
  (d : Doc Transaction) : bool :=
  String.eqb (t_userId d.2) userId
  && TransactionModel.holds
       (TransactionModel.inRange Z.geb Z.leb (t_date d.2))
       (TransactionModel.rangeOf TransactionModel.truthy_date
          (so_startDate o) (so_endDate o)).

(** Adds one document to the running groups [(type, sum, count)]. *)
Fixpoint accumulate (type : string) (amount : Q) (groups : list (string * Q * Z))
  : list (string * Q * Z) :=
  match groups with
  | [] => [(type, (0 + amount)%Q, 1)]
  | (k, sum, count) :: rest =>
      if String.eqb k type then (k, (sum + amount)%Q, count + 1) :: rest
      else (k, sum, count) :: accumulate type amount rest
  end.

(** The fold of the first [$group] stage over one document. *)
Definition addDoc (groups : list (string * Q * Z)) (d : Doc Transaction)
  : list (string * Q * Z) :=
  accumulate (t_type d.2) (t_amount d.2) groups.

(** The group a key ends with; [$avg] is the sum over the count. *)
Definition finishGroup (g : string * Q * Z) : TypeStat :=
  let '(k, sum, count) := g in
  mkTypeStat k sum count (sum / inject_Z count)%Q.

(** [{ $group: { _id: '$type', totalAmount: { $sum: '$amount' },
                 count: { $sum: 1 }, avgAmount: { $avg: '$amount' } } }],
    groups in the order their types are first met. *)
Definition groupByType (docs : list (Doc Transaction)) : list TypeStat :=
  map finishGroup (foldl addDoc [] docs).

(** [{ $group: { _id: null, stats: { $push: .. },
                 totalTransactions: { $sum: '$count' } } }]: one document,
    none when the stage has no input. *)
Definition groupAll (groups : list TypeStat) : list Overall :=
  match groups with
  | [] => []
  | _ => [mkOverall groups (foldl (fun n g => n + ts_count g) 0 groups)]
  end.

Definition getTransactionStats (coll : gmap ObjectId Transaction)
  (userId : ObjectId) (o : StatOptions) : list Overall :=
  groupAll (groupByType (find (matchStage userId o) coll)).

End Aggregation.

(** ** [controllers/transactionController.js] *)

Module TransactionController.

Import TransactionModel.

(** [req.query] of [GET /api/transactions], behind [validateQueryFilters]:
    [page] and [limit] are decimal integers and are held as the integers
    [parseInt] reads; [startDate] and [endDate] are the [Date]s that
    [toDate()] left; the other parameters are the strings of the URL. *)
Record ListQuery := mkListQuery {
  rq_page : option Z;
  rq_limit : option Z;
  rq_type : option string;
  rq_category : option string;
  rq_startDate : option Z;
  rq_endDate : option Z;
  rq_minAmount : option string;
  rq_maxAmount : option string;
  rq_paymentMethod : option string;
  rq_tags : option string;
  rq_search : option string;
  rq_sortBy : option string;
  rq_sortOrder : option string
}.

(** [v ? f(v) : undefined], and [if (v) target = f(v)], on a string [v]. *)
Definition mapTruthy {A} (f : string -> A) (v : option string) : option A :=
  match v with
  | Some s => if Js.truthy_str s then Some (f s) else None
  | None => None
  end.

(** The "Build filter options" block of [getTransactions]. *)
Definition listOptions (rq : ListQuery) : Options :=
  {| o_page := Some (default 1 (rq_page rq));
     o_limit := Some (default 10 (rq_limit rq));
     o_type := rq_type rq;
     o_category := rq_category rq;
     o_startDate := rq_startDate rq;
     o_endDate := rq_endDate rq;
     o_minAmount := mapTruthy Js.parseFloat (rq_minAmount rq);
     o_maxAmount := mapTruthy Js.parseFloat (rq_maxAmount rq);
     o_paymentMethod := rq_paymentMethod rq;
     o_tags := mapTruthy (Js.split ",") (rq_tags rq);
     o_search := rq_search rq;
     o_sortBy := Some (default "date"%string (rq_sortBy rq));
     o_sortOrder := Some (default "desc"%string (rq_sortOrder rq)) |}.

(** The query [getTransactions] builds inline for [countDocuments]. The
    amount bounds are tested as the strings of the URL. *)
Definition countQuery (userId : ObjectId) (rq : ListQuery) : Query :=
  {| q_userId := userId;
     q_type := whenTruthy Js.truthy_str (rq_type rq);
     q_category := whenTruthy Js.truthy_str (rq_category rq);
     q_date := rangeOf truthy_date (rq_startDate rq) (rq_endDate rq);
     q_amount :=
       if Js.truthy_opt Js.truthy_str (rq_minAmount rq)
          || Js.truthy_opt Js.truthy_str (rq_maxAmount rq)
       then Some (mkRange (mapTruthy Js.parseFloat (rq_minAmount rq))
                          (mapTruthy Js.parseFloat (rq_maxAmount rq)))
       else None;
     q_paymentMethod := whenTruthy Js.truthy_str (rq_paymentMethod rq);
     q_tags := mapTruthy (Js.split ",") (rq_tags rq);
     q_or := whenTruthy Js.truthy_str (rq_search rq) |}.

Record Pagination := mkPagination {
  currentPage : Z;
  totalPages : Js.num;
  totalTransactions : Z;
  hasNext : bool;
  hasPrev : bool
}.

(** The statistics object of [getTransactionStats], without the category
    breakdown and the monthly trends, which come from two other pipelines
    and do not enter the totals. *)
Record Stats := mkStats {
  st_totalTransactions : Z;
  st_totalIncome : Q;
  st_totalExpenses : Q;
  st_netIncome : Q;
  st_avgTransactionAmount : Q
}.

(** [x || 0] on a number. *)
Definition orZero (x : Q) : Q := if Qeq_bool x 0 then 0%Q else x.

(** The body of [statData.stats?.forEach(stat => ...)], on the pair
    [(totalIncome, totalExpenses)]. *)
Definition eachStat (acc : Q * Q) (stat : Aggregation.TypeStat) : Q * Q :=
  if String.eqb (Aggregation.ts_type stat) "income"
  then (orZero (Aggregation.ts_totalAmount stat), acc.2)
  else if String.eqb (Aggregation.ts_type stat) "expense"
  then (acc.1, orZero (Aggregation.ts_totalAmount stat))
  else acc.

(** The handler of [GET /api/transactions/stats], on the result of
    [Transaction.getTransactionStats]. On the count, [x || 0] is [x]. *)
Definition statsOf (overallStats : list Aggregation.Overall) : Stats :=
  match overallStats with
  | [] => mkStats 0 0 0 0 0
  | statData :: _ =>
      let total := Aggregation.ov_totalTransactions statData in
      let '(totalIncome, totalExpenses) :=
        foldl eachStat (0%Q, 0%Q) (Aggregation.ov_stats statData) in
      mkStats total totalIncome totalExpenses
        (totalIncome - totalExpenses)%Q
        (if 0 <? total then ((totalIncome + totalExpenses) / inject_Z total)%Q
         else 0%Q)
  end.

Definition getTransactionStats (st : Store) (userId : ObjectId)
  (o : Aggregation.StatOptions) : Stats :=
  statsOf (Aggregation.getTransactionStats (transactions st) userId o).

(** *** Creating, updating, deleting *)

(** [category.userId && !category.userId.equals(userId) && !category.isDefault] *)
Definition foreignCategory (userId : ObjectId) (category : Category) : bool :=
  defined (c_userId category)
  && negb (ownedBy userId (c_userId category))
  && negb (c_isDefault category).

(** [Category.findById(req.body.category)], [null] without the key. *)
Definition findCategory (st : Store) (category : option ObjectId)
  : option Category :=
  match category with
  | Some id => findById id (categories st)
  | None => None
  end.

(** [createTransaction] *)
Definition createTransaction (st : Store) (now : Z) (newId userId : ObjectId)
  (body : TxData) : result (Store * Doc Transaction) :=
  match findCategory st (d_category body) with
  | None => Throw (AppError "Category not found" 404)
  | Some category =>
      let! _ := throwIf (foreignCategory userId category)
                  (AppError
                     "You can only use your own categories or default categories"
                     403) in
      create st now newId userId body
  end.

(** [Transaction.findOne({ _id: id, userId })] *)
Definition findOwn (st : Store) (userId id : ObjectId) : option Transaction :=
  match transactions st !! id with
  | Some t => if String.eqb (t_userId t) userId then Some t else None
  | None => None
  end.

(** [updateTransaction] *)
Definition updateTransaction (st : Store) (now : Z) (userId id : ObjectId)
  (body : TxData) : result (Store * option (Doc Transaction)) :=
  match findOwn st userId id with
  | None => Throw (AppError "Transaction not found" 404)
  | Some existingTransaction =>
      let! _ :=
        if Js.truthy_opt Js.truthy_str (d_category body) then
          match findCategory st (d_category body) with
          | None => Throw (AppError "Category not found" 404)
          | Some category =>
              throwIf (foreignCategory userId category)
                (AppError
                   "You can only use your own categories or default categories"
                   403)
          end
        else Ok tt in
      let! (coll, transaction) :=
        findByIdAndUpdate (transactions st) now id body in
      Ok ({| categories := categories st; transactions := coll |}, transaction)
  end.

(** [deleteTransaction]: [findOneAndDelete({ _id: id, userId })]. *)
Definition deleteTransaction (st : Store) (userId id : ObjectId)
  : result Store :=
  match findOwn st userId id with
  | None => Throw (AppError "Transaction not found" 404)
  | Some _ =>
      Ok {| categories := categories st;
            transactions := delete id (transactions st) |}
  end.

(** *** The PDF report *)

(** The account of [req.user]. *)
Record User := mkUser {
  u_id : ObjectId;
  u_fullName : string;
  u_email : string
}.

(** [req.query] of [GET /api/transactions/export]; the two dates are held as
    the instants [new Date(..)] reads from them. *)
Record ExportQuery := mkExportQuery {
  xq_startDate : option Z;
  xq_endDate : option Z;
  xq_type : option string;
  xq_category : option string
}.

(** What a [doc.text] call prints; numbers and dates are kept as values, not
    as the text [toFixed] and [toLocaleDateString] make of them. *)
Inductive Content :=
| Literal (s : string)
| GeneratedFor (fullName : string)
| Email (email : string)
| GeneratedOn (now : Z)
| DateRange (startDate endDate : option Z)
| TotalTransactions (n : nat)
| TotalIncome (amount : Q)
| TotalExpenses (amount : Q)
| NetIncome (amount : Q)
| DateCell (date : Z)
| Money (amount : Q).

(** What the handler sends to the response and to the PDF document. *)
Inductive Output :=
| SetContentType (value : string)
| SetContentDisposition (now : Z)
| Pipe
| FontSize (size : Z)
| Text (content : Content) (x : Z) (y : option Z)
| MoveDown (lines : Z)
| Rule (x1 y x2 : Z)
| AddPage
| Fill (x y w h : Z) (color : string)
| EndDocument.

Definition col1X : Z := 50.
Definition col2X : Z := 150.
Definition col3X : Z := 250.
Definition col4X : Z := 350.
Definition col5X : Z := 450.

(** The five column titles and the line under them, at height [y]. *)
Definition tableHeaders (y : Z) : list Output :=
  [ FontSize 10;
    Text (Literal "Date") col1X (Some y);
    Text (Literal "Title") col2X (Some y);
    Text (Literal "Category") col3X (Some y);
    Text (Literal "Type") col4X (Some y);
    Text (Literal "Amount") col5X (Some y);
    Rule col1X (y + 15) 550 ].

(** [transactions.forEach((transaction, index) => ...)]: the output of the
    rows from [index] on, and how the loop ends. [transaction.category] is
    the populated category, [null] when the reference dangles; reading its
    name then throws. *)
Fixpoint tableRows (cats : gmap ObjectId Category)
  (rows : list (Doc Transaction)) (index : nat) (yPosition : Z)
  : list Output * result unit :=
  match rows with
  | [] => ([], Ok tt)
  | transaction :: rest =>
      let newPage := 700 <? yPosition in
      let y := if newPage then 50 + 25 else yPosition in
      let first :=
        (if newPage then AddPage :: tableHeaders 50 else [])
        ++ [ FontSize 9;
             Text (DateCell (t_date transaction.2)) col1X (Some y);
             Text (Literal (String.substring 0 15 (t_title transaction.2)))
                  col2X (Some y) ] in
      match findById (t_category transaction.2) cats with
      | None =>
          (first,
           Throw (TypeError "Cannot read properties of null (reading 'name')"))
      | Some category =>
          let row :=
            first
            ++ [ Text (Literal (String.substring 0 15 (c_name category)))
                      col3X (Some y);
                 Text (Literal (t_type transaction.2)) col4X (Some y);
                 Text (Money (t_amount transaction.2)) col5X (Some y) ]
            ++ (if Nat.even index
                then [Fill (col1X - 5) (y + 20 - 18) 520 18 "#f5f5f5"]
                else []) in
          let '(more, outcome) := tableRows cats rest (S index) (y + 20) in
          (row ++ more, outcome)
      end
  end.

(** [transactions.filter(t => t.type === type)
                 .reduce((sum, t) => sum + t.amount, 0)] *)
Definition totalOf (type : string) (rows : list (Doc Transaction)) : Q :=
  foldl (fun sum t => (sum + t_amount t.2)%Q) 0%Q
    (List.filter (fun t => String.eqb (t_type t.2) type) rows).

(** Everything [exportTransactionsPDF] does once the list is not empty.
    [tableTop] is [doc.y], the cursor of the PDF library under the summary. *)
Definition writeReport (cats : gmap ObjectId Category) (user : User)
  (rq : ExportQuery) (now tableTop : Z) (rows : list (Doc Transaction))
  : list Output * result unit :=
  let totalIncome := totalOf "income" rows in
  let totalExpenses := totalOf "expense" rows in
  let head :=
    [ SetContentType "application/pdf";
      SetContentDisposition now;
      Pipe;
      FontSize 20;
      Text (Literal "Transaction History Report") 50 (Some 50);
      FontSize 12;
      Text (GeneratedFor (u_fullName user)) 50 (Some 80);
      Text (Email (u_email user)) 50 (Some 95);
      Text (GeneratedOn now) 50 (Some 110) ]
    ++ (if defined (xq_startDate rq) || defined (xq_endDate rq)
        then [Text (DateRange (xq_startDate rq) (xq_endDate rq)) 50 (Some 125)]
        else [])
    ++ [ MoveDown 2;
         FontSize 14;
         Text (Literal "Summary:") 50 None;
         FontSize 12;
         Text (TotalTransactions (length rows)) 70 None;
         Text (TotalIncome totalIncome) 70 None;
         Text (TotalExpenses totalExpenses) 70 None;
         Text (NetIncome (totalIncome - totalExpenses)%Q) 70 None;
         MoveDown 2 ]
    ++ tableHeaders tableTop in
  let '(body, outcome) := tableRows cats rows 0 (tableTop + 25) in
  match outcome with
  | Ok _ => (head ++ body ++ [EndDocument], Ok tt)
  | Throw e => (head ++ body, Throw e)
  end.

(** The "Build filter options" block of [exportTransactionsPDF]. *)
Definition exportOptions (rq : ExportQuery) : Options :=
  {| o_page := Some 1;
     o_limit := Some 1000;
     o_type := xq_type rq;
     o_category := xq_category rq;
     o_startDate := xq_startDate rq;
     o_endDate := xq_endDate rq;
     o_minAmount := None;
     o_maxAmount := None;
     o_paymentMethod := None;
     o_tags := None;
     o_search := None;
     o_sortBy := Some "date"%string;
     o_sortOrder := Some "desc"%string |}.

Section Handlers.

Variable regexTest : string -> string -> bool.

(** [getTransactions]: the page of transactions and the pagination block. *)
Definition getTransactions (st : Store) (userId : ObjectId) (rq : ListQuery)
  : result (list (Doc Transaction) * Pagination) :=
  let options := listOptions rq in
  let! found := getUserTransactions regexTest (transactions st) userId options in
  let query := countQuery userId rq in
  let total := countDocuments (matches regexTest query) (transactions st) in
  let page := default 1 (o_page options) in
  let limit := default 10 (o_limit options) in
  let pages := Js.ceil (Js.divZ total limit) in
  Ok (found,
      {| currentPage := page;
         totalPages := pages;
         totalTransactions := total;
         hasNext := Js.ltb (Js.ofZ page) pages;
         hasPrev := 1 <? page |}).

(** [exportTransactionsPDF]: what was written to the response, and how the
    handler ends. *)
Definition exportTransactionsPDF (st : Store) (user : User) (rq : ExportQuery)
  (now tableTop : Z) : list Output * result unit :=
  let options := exportOptions rq in
  match getUserTransactions regexTest (transactions st) (u_id user) options with
  | Throw e => ([], Throw e)
  | Ok found =>
      if (length found =? 0)%nat
      then ([], Throw (AppError
                         "No transactions found for the specified criteria" 404))
      else writeReport (categories st) user rq now tableTop found
  end.

End Handlers.

End TransactionController.

(** ** [controllers/categoryController.js] *)

Module CategoryController.

(** The fields of [req.body] that [updateCategory] reads or that change how
    a category is used; a missing key is [None]. *)
Record CatData := mkCatData {
  cd_name : option string;
  cd_type : option string;
  cd_parentCategory : option ObjectId
}.

(** [{ name, _id: { $ne: id }, $or: [{ userId }, { isDefault: true }] }] *)
Definition nameTaken (userId id : ObjectId) (name : string)
  (d : Doc Category) : bool :=
  String.eqb (c_name d.2) name
  && negb (String.eqb d.1 id)
  && (ownedBy userId (c_userId d.2) || c_isDefault d.2).

(** The [$set] of [Category.findByIdAndUpdate(id, req.body)]. *)
Definition assign (d : CatData) (c : Category) : Category :=
  {| c_name := default (c_name c) (cd_name d);
     c_type := default (c_type c) (cd_type d);
     c_userId := c_userId c;
     c_isActive := c_isActive c;
     c_isDefault := c_isDefault c;
     c_usageCount := c_usageCount c;
     c_lastUsed := c_lastUsed c;
     c_parentCategory :=
       match cd_parentCategory d with
       | Some parent => Some parent
       | None => c_parentCategory c
       end |}.

(** The validators of the category schema on the updated paths. *)
Definition validatePaths (d : CatData) : result unit :=
  let! _ := throwIf (negb (TransactionModel.holds
                             (TransactionModel.maxlength 50) (cd_name d)))
              (ValidationError "Category name cannot exceed 50 characters") in
  throwIf (negb (TransactionModel.holds
                   (fun s => TransactionModel.isIn s ["income"; "expense"; "both"])
                   (cd_type d)))
    (ValidationError "Category type must be either income, expense, or both").

(** [updateCategory] *)
Definition updateCategory (st : Store) (userId id : ObjectId) (body : CatData)
  : result (Store * Doc Category) :=
  match findById id (categories st) with
  | None => Throw (AppError "Category not found" 404)
  | Some category =>
      let! _ := throwIf (negb (ownedBy userId (c_userId category)))
                  (AppError "You can only update your own categories" 403) in
      let! _ :=
        match TransactionModel.whenTruthy Js.truthy_str (cd_parentCategory body) with
        | None => Ok tt
        | Some parentId =>
            match findById parentId (categories st) with
            | None => Throw (AppError "Parent category not found" 404)
            | Some parentCategory =>
                let! _ :=
                  throwIf
                    (TransactionController.foreignCategory userId parentCategory)
                    (AppError
                       "You can only use your own categories or default categories as parent"
                       403) in
                throwIf (String.eqb parentId id)
                  (AppError "A category cannot be its own parent" 400)
            end
        end in
      let! _ :=
        match TransactionModel.whenTruthy Js.truthy_str (cd_name body) with
        | None => Ok tt
        | Some name =>
            throwIf (negb (String.eqb name (c_name category))
                     && defined (findOne (nameTaken userId id name)
                                   (categories st)))
              (AppError "A category with this name already exists" 400)
        end in
      let! _ := validatePaths body in
      Ok ({| categories := <[id := assign body category]> (categories st);
             transactions := transactions st |},
          (id, assign body category))
  end.

(** [deleteCategory] *)
Definition deleteCategory (st : Store) (userId id : ObjectId) : result Store :=
  match findById id (categories st) with
  | None => Throw (AppError "Category not found" 404)
  | Some category =>
      let! _ := throwIf (negb (ownedBy userId (c_userId category))
                         || c_isDefault category)
                  (AppError "You can only delete your own custom categories" 403) in
      let transactionCount :=
        countDocuments (fun t : Doc Transaction => String.eqb (t_category t.2) id)
          (transactions st) in
      let! _ := throwIf (0 <? transactionCount)
                  (AppError ("Cannot delete category. It is being used in "
                            ++ pretty transactionCount ++ " transaction(s)")
                     400) in
      let subcategoryCount :=
        countDocuments
          (fun c : Doc Category =>
             match c_parentCategory c.2 with
             | Some parent => String.eqb parent id
             | None => false
             end)
          (categories st) in
      let! _ := throwIf (0 <? subcategoryCount)
                  (AppError ("Cannot delete category. It has "
                            ++ pretty subcategoryCount ++ " subcategory(ies)")
                     400) in
      Ok {| categories := delete id (categories st);
            transactions := transactions st |}
  end.

(** [{ _id: { $in: categoryIds }, userId: userId, isDefault: false }] *)
Definition ownCustomIn (userId : ObjectId) (categoryIds : list ObjectId)
  (d : Doc Category) : bool :=
  existsb (String.eqb d.1) categoryIds
  && ownedBy userId (c_userId d.2)
  && negb (c_isDefault d.2).

(** [Category.deleteMany(filter)]: the collection without the matching
    documents, and their number. *)
Definition deleteMany (filter : Doc Category -> bool)
  (coll : gmap ObjectId Category) : gmap ObjectId Category * Z :=
  (base.filter (fun d : Doc Category => filter d = false) coll,
   countDocuments filter coll).

(** [bulkDeleteCategories]; [categoryIds] is [None] when the body has no
    array under that key. *)
Definition bulkDeleteCategories (st : Store) (userId : ObjectId)
  (categoryIds : option (list ObjectId)) : result (Store * Z) :=
  match categoryIds with
  | None | Some [] => Throw (AppError "Category IDs are required" 400)
  | Some ids =>
      let found := find (ownCustomIn userId ids) (categories st) in
      let! _ := throwIf (negb (length found =? length ids)%nat)
                  (AppError "Some categories not found or cannot be deleted" 400) in
      let transactionCount :=
        countDocuments
          (fun t : Doc Transaction => existsb (String.eqb (t_category t.2)) ids)
          (transactions st) in
      let! _ := throwIf (0 <? transactionCount)
                  (AppError
                     "Cannot delete categories that are being used in transactions"
                     400) in
      let '(cats, deletedCount) :=
        deleteMany (ownCustomIn userId ids) (categories st) in
      Ok ({| categories := cats; transactions := transactions st |},
          deletedCount)
  end.

End CategoryController.

(** ** [controllers/ocrController.js] *)

Module OcrController.

(** The merchant patterns, in the order [Object.entries] enumerates them. *)
Definition categoryPatterns : list (string * list string) :=
  [ ("Food & Dining",
     ["restaurant"; "cafe"; "pizza"; "burger"; "food"; "kitchen"; "diner";
      "grill"; "bar"; "pub"; "starbucks"; "mcdonald"; "subway"; "domino"]);
    ("Transportation",
     ["gas"; "fuel"; "station"; "shell"; "exxon"; "chevron"; "bp"; "uber";
      "lyft"; "taxi"; "metro"; "bus"]);
    ("Shopping",
     ["store"; "shop"; "mall"; "walmart"; "target"; "amazon"; "ebay";
      "retail"; "boutique"]);
    ("Healthcare",
     ["pharmacy"; "hospital"; "clinic"; "medical"; "health"; "doctor";
      "cvs"; "walgreens"]);
    ("Bills & Utilities",
     ["electric"; "water"; "phone"; "internet"; "cable"; "utility"; "bill";
      "payment"]);
    ("Entertainment",
     ["movie"; "theater"; "cinema"; "game"; "entertainment"; "netflix";
      "spotify"]) ].

(** [{ name: categoryName, $or: [{ userId }, { isDefault: true }],
       isActive: true }] *)
Definition activeByName (userId : ObjectId) (categoryName : string)
  (d : Doc Category) : bool :=
  String.eqb (c_name d.2) categoryName
  && (ownedBy userId (c_userId d.2) || c_isDefault d.2)
  && c_isActive d.2.

(** [{ name: 'Other Expense', isDefault: true, isActive: true }] *)
Definition otherExpense (d : Doc Category) : bool :=
  String.eqb (c_name d.2) "Other Expense" && c_isDefault d.2 && c_isActive d.2.

(** The inner loop, over the keywords of one table entry. *)
Fixpoint tryPatterns (cats : gmap ObjectId Category) (userId : ObjectId)
  (merchant categoryName : string) (patterns : list string)
  : option (Doc Category) :=
  match patterns with
  | [] => None
  | pattern :: rest =>
      if Js.includes merchant pattern then
        match findOne (activeByName userId categoryName) cats with
        | Some category => Some category
        | None => tryPatterns cats userId merchant categoryName rest
        end
      else tryPatterns cats userId merchant categoryName rest
  end.

(** The outer loop, over the entries of the table. *)
Fixpoint tryEntries (cats : gmap ObjectId Category) (userId : ObjectId)
  (merchant : string) (entries : list (string * list string))
  : option (Doc Category) :=
  match entries with
  | [] => None
  | (categoryName, patterns) :: rest =>
      match tryPatterns cats userId merchant categoryName patterns with
      | Some category => Some category
      | None => tryEntries cats userId merchant rest
      end
  end.

(** [suggestCategoryFromMerchant(userId, merchantName)]; [None] is [null]. *)
Definition suggestCategoryFromMerchant (cats : gmap ObjectId Category)
  (userId : ObjectId) (merchantName : option string)
  : option (Doc Category) :=
  if negb (Js.truthy_opt Js.truthy_str merchantName) then None else
  let merchant := Js.toLowerCase (default EmptyString merchantName) in
  match tryEntries cats userId merchant categoryPatterns with
  | Some category => Some category
  | None => findOne otherExpense cats
  end.

(** The suggestion step of [processReceipt]:
    [let suggestedCategory = null;
     if (ocrData.extractedMerchant) suggestedCategory = await suggest...]. *)
Definition processReceipt_suggestedCategory (cats : gmap ObjectId Category)
  (userId : ObjectId) (extractedMerchant : option string)
  : option (Doc Category) :=
  if Js.truthy_opt Js.truthy_str extractedMerchant
  then suggestCategoryFromMerchant cats userId extractedMerchant
  else None.

(** [createTransactionFromOCR]: [transactionData] with a title and an amount,
    then [Transaction.create]. The [ocrData] and the attachment are stored
    with the transaction and read by nothing here. *)
Definition createTransactionFromOCR (st : Store) (now : Z)
  (newId userId : ObjectId) (transactionData : option TransactionModel.TxData)
  : result (Store * Doc Transaction) :=
  match transactionData with
  | Some data =>
      let! _ :=
        throwIf
          (negb (Js.truthy_opt Js.truthy_str (TransactionModel.d_title data))
           || negb (Js.truthy_opt (fun q => Js.truthy_num (Js.Fin q))
                      (TransactionModel.d_amount data)))
          (AppError "Transaction title and amount are required" 400) in
      TransactionModel.create st now newId userId data
  | None => Throw (AppError "Transaction title and amount are required" 400)
  end.

End OcrController.

(** *** The merchant name as the OCR service sends it

    [ocrData.extractedMerchant] is a value of the JSON answer of the OCR
    service, and nothing checks that it is a string. *)

Module MerchantValue.

(** A JSON value, as far as [!v] and [v.toLowerCase()] tell values apart;
    [JNull] is [null] and also [undefined], a missing key. *)
Inductive Json :=
| JNull
| JBool (b : bool)
| JNumber (n : Js.num)
| JString (s : string)
| JArray
| JObject.

Definition truthy (v : Json) : bool :=
  match v with
  | JNull => false
  | JBool b => b
  | JNumber n => Js.truthy_num n
  | JString s => Js.truthy_str s
  | JArray | JObject => true
  end.

(** [v.toLowerCase()] on a value that is neither [null] nor [undefined]:
    only a string has the method. *)
Definition toLowerCase (v : Json) : result string :=
  match v with
  | JString s => Ok (Js.toLowerCase s)
  | _ => Throw (TypeError "merchantName.toLowerCase is not a function")
  end.

(** [suggestCategoryFromMerchant(userId, merchantName)] on any value. *)
Definition suggestCategoryFromMerchant (cats : gmap ObjectId Category)
  (userId : ObjectId) (merchantName : Json) : result (option (Doc Category)) :=
  if negb (truthy merchantName) then Ok None else
  let! merchant := toLowerCase merchantName in
  match OcrController.tryEntries cats userId merchant
          OcrController.categoryPatterns with
  | Some category => Ok (Some category)
  | None => Ok (findOne OcrController.otherExpense cats)
  end.

(** The suggestion step of [processReceipt]. *)
Definition processReceipt_suggestedCategory (cats : gmap ObjectId Category)
  (userId : ObjectId) (extractedMerchant : Json)
  : result (option (Doc Category)) :=
  if truthy extractedMerchant
  then suggestCategoryFromMerchant cats userId extractedMerchant
  else Ok None.

End MerchantValue.

(** ** Notions the statements below use *)

(** A transaction's type fits its category: the category takes both types,
    or the two types are the same. *)
Definition typeCompatible (st : Store) : Prop :=
  forall id t c,
    transactions st !! id = Some t ->
    categories st !! t_category t = Some c ->
    c_type c = "both"%string \/ t_type t = c_type c.

(** The merchant has a keyword of the table entry, and the entry's category
    is in the directory for this user. *)
Definition resolves (cats : gmap ObjectId Category) (userId : ObjectId)
  (merchant : string) (entry : string * list string) : bool :=
  existsb (Js.includes merchant) entry.2
  && defined (findOne (OcrController.activeByName userId entry.1) cats).


(** A number that is not [NaN] and whose magnitude is at least 2^-1074, the
    least positive double: its nearest double is not [0], so [parseFloat] of
    a text that denotes it is truthy in JavaScript as it is here. *)
Definition nonZeroDouble (n : Js.num) : bool :=
  match n with
  | Js.NaN => false
  | Js.PInf | Js.NInf => true
  | Js.Fin q =>
      Qle_bool (1 # 2 ^ 1074) q || Qle_bool q (- (1 # 2 ^ 1074))
  end.

(** The request with another page, or other amount bounds. *)
Definition withPage (page : option Z) (rq : TransactionController.ListQuery)
  : TransactionController.ListQuery :=
  let 'TransactionController.mkListQuery _ l t c s e lo hi p g f b o := rq in
  TransactionController.mkListQuery page l t c s e lo hi p g f b o.


Definition withMaxAmountText (v : option string)
  (rq : TransactionController.ListQuery) : TransactionController.ListQuery :=
  let 'TransactionController.mkListQuery pg l t c s e lo _ p g f b o := rq in
  TransactionController.mkListQuery pg l t c s e lo v p g f b o.



(** The options without a limit: [limit(0)] returns every match. *)
Definition unlimited (o : TransactionModel.Options) : TransactionModel.Options :=
  let 'TransactionModel.mkOptions pg _ t c s e lo hi p g f b r := o in
  TransactionModel.mkOptions pg (Some 0) t c s e lo hi p g f b r.

(** ** Sample data *)

Module Sample.

(** A regular-expression engine for patterns without metacharacters: the
    pattern occurs in the text, letter case apart. *)
Definition literalTest (pattern text : string) : bool :=
  Js.includes (Js.toLowerCase text) (Js.toLowerCase pattern).

Definition defaultCategory (name type : string) : Category :=
  {| c_name := name; c_type := type; c_userId := None; c_isActive := true;
     c_isDefault := true; c_usageCount := 0; c_lastUsed := None;
     c_parentCategory := None |}.

Definition ownCategory (userId : ObjectId) (name type : string) : Category :=
  {| c_name := name; c_type := type; c_userId := Some userId;
     c_isActive := true; c_isDefault := false; c_usageCount := 0;
     c_lastUsed := None; c_parentCategory := None |}.

Definition salary : Category := defaultCategory "Salary" "income".
Definition shopping : Category := defaultCategory "Shopping" "expense".
Definition otherExpense : Category := defaultCategory "Other Expense" "expense".
Definition hobbies : Category := ownCategory "u1" "Hobbies" "expense".

(** A directory without "Food & Dining". *)
Definition directory : gmap ObjectId Category :=
  <["c20" := hobbies]>
    (<["c14" := otherExpense]> (<["c07" := shopping]> (<["c01" := salary]> ∅))).

Definition lunch : Transaction :=
  {| t_title := "Lunch"; t_description := None; t_amount := 50 # 1;
     t_type := "expense"; t_category := "c07"; t_date := 1000;
     t_userId := "u1"; t_paymentMethod := "cash"; t_locationName := None;
     t_tags := [] |}.

Definition pay : Transaction :=
  {| t_title := "Pay"; t_description := None; t_amount := 500 # 1;
     t_type := "income"; t_category := "c01"; t_date := 2000;
     t_userId := "u1"; t_paymentMethod := "bank_transfer";
     t_locationName := None; t_tags := ["work"%string] |}.

Definition store : Store :=
  {| categories := directory;
     transactions := <["t2" := pay]> (<["t1" := lunch]> ∅) |}.

(** [GET /api/transactions] without any parameter. *)
Definition noFilter : TransactionController.ListQuery :=
  TransactionController.mkListQuery
    None None None None None None None None None None None None None.

(** The body of a [POST /api/transactions]: a book, under "Shopping". *)
Definition book : TransactionModel.TxData :=
  {| TransactionModel.d_title := Some "Book"%string;
     TransactionModel.d_description := None;
     TransactionModel.d_amount := Some (20 # 1);
     TransactionModel.d_type := Some "expense"%string;
     TransactionModel.d_category := Some "c07"%string;
     TransactionModel.d_date := Some 500;
     TransactionModel.d_paymentMethod := None;
     TransactionModel.d_locationName := None;
     TransactionModel.d_tags := None |}.

(** The transaction it is saved as, and the store after it, at time 5000
    and under the fresh [_id] "t9". *)
Definition bookSaved : Transaction :=
  {| t_title := "Book"; t_description := None; t_amount := 20 # 1;
     t_type := "expense"; t_category := "c07"; t_date := 500;
     t_userId := "u1"; t_paymentMethod := "cash"; t_locationName := None;
     t_tags := [] |}.

Definition afterBook : Store :=
  {| categories :=
       <["c07" := {| c_name := "Shopping"; c_type := "expense";
                     c_userId := None; c_isActive := true;
                     c_isDefault := true; c_usageCount := 1;
                     c_lastUsed := Some 5000; c_parentCategory := None |}]>
         directory;
     transactions := <["t9" := bookSaved]> (transactions store) |}.

(** The body of a [PUT /api/transactions/t1] that keeps the lunch under
    "Shopping" and makes it an income. *)
Definition lunchAsIncome : TransactionModel.TxData :=
  {| TransactionModel.d_title := Some "Lunch"%string;
     TransactionModel.d_description := None;
     TransactionModel.d_amount := Some (50 # 1);
     TransactionModel.d_type := Some "income"%string;
     TransactionModel.d_category := Some "c07"%string;
     TransactionModel.d_date := Some 1000;
     TransactionModel.d_paymentMethod := None;
     TransactionModel.d_locationName := None;
     TransactionModel.d_tags := None |}.

(** The sample store with an expense under the owner's "Hobbies". *)
Definition paint : Transaction :=
  {| t_title := "Paint"; t_description := None; t_amount := 12 # 1;
     t_type := "expense"; t_category := "c20"; t_date := 1500;
     t_userId := "u1"; t_paymentMethod := "cash"; t_locationName := None;
     t_tags := [] |}.

Definition hobbyStore : Store :=
  {| categories := directory;
     transactions := <["t3" := paint]> (transactions store) |}.

(** The body of a [PUT /api/categories/c20] that makes "Hobbies" an income
    category. *)
Definition hobbiesAsIncome : CategoryController.CatData :=
  {| CategoryController.cd_name := Some "Hobbies"%string;
     CategoryController.cd_type := Some "income"%string;
     CategoryController.cd_parentCategory := None |}.

(** [GET /api/transactions?limit=1]. *)
Definition onePerPage : TransactionController.ListQuery :=
  TransactionController.mkListQuery
    None (Some 1) None None None None None None None None None None None.

End Sample.

(** * Categories, single transactions, spending, errors and routes

    The parts of the backend around the ones above: the statics of
    [models/Category.js] and the handlers of [categoryController.js] that
    list, read, create, archive and seed categories; [getTransaction] and
    [bulkDeleteTransactions]; [getSpendingByCategory]; the error handler of
    [middleware/errorHandler.js]; and the route tables of [routes/]. Ids
    are taken to be well-formed [ObjectId]s throughout. *)

(** ** Sorting a cursor *)

Module Cursor.

(** [.sort(spec)] on any documents: a stable insertion sort by the order
    [le] that [spec] gives. *)
Fixpoint insertBy {A} (le : A -> A -> bool) (x : A) (l : list A) : list A :=
  match l with
  | [] => [x]
  | y :: r => if le x y then x :: l else y :: insertBy le x r
  end.

Definition sortBy {A} (le : A -> A -> bool) (l : list A) : list A :=
  foldr (insertBy le) [] l.

End Cursor.

(** ** The rest of [models/Category.js] *)

Module CategoryQueries.

(** [String.prototype.trimEnd] and [trim], on the white space of ASCII; the
    [trim: true] of a schema path applies [trim] to the value it is given. *)
Fixpoint trimEnd (s : string) : string :=
  match s with
  | EmptyString => EmptyString
  | String a r =>
      match trimEnd r with
      | EmptyString =>
          if Js.is_space a then EmptyString else String a EmptyString
      | r' => String a r'
      end
  end.

Definition trim (s : string) : string := trimEnd (Js.trimStart s).

(** [{ usageCount: -1, name: 1 }]: more used first, then by name. *)
Definition byUsageThenName (a b : Doc Category) : bool :=
  match Z.compare (c_usageCount a.2) (c_usageCount b.2) with
  | Gt => true
  | Lt => false
  | Eq =>
      match String.compare (c_name a.2) (c_name b.2) with
      | Gt => false
      | _ => true
      end
  end.

(** [{ usageCount: -1 }] *)
Definition byUsage (a b : Doc Category) : bool :=
  match Z.compare (c_usageCount a.2) (c_usageCount b.2) with
  | Lt => false
  | _ => true
  end.

(** [categorySchema.statics.getDefaultCategories]:
    [this.find({ isDefault: true, isActive: true })]. *)
Definition getDefaultCategories (cats : gmap ObjectId Category)
  : list (Doc Category) :=
  find (fun d : Doc Category => c_isDefault d.2 && c_isActive d.2) cats.

(** The query of [getUserCategories]:
    [{ $or: [{ userId }, { isDefault: true }], isActive: true }], with
    [type: { $in: [type, 'both'] }] added [if (type && type !== 'both')]. *)
Definition userCategoriesQuery (userId : ObjectId) (type : option string)
  (d : Doc Category) : bool :=
  (ownedBy userId (c_userId d.2) || c_isDefault d.2)
  && c_isActive d.2
  && match type with
     | Some t =>
         if Js.truthy_str t && negb (String.eqb t "both")
         then String.eqb (c_type d.2) t || String.eqb (c_type d.2) "both"
         else true
     | None => true
     end.

(** [categorySchema.statics.getUserCategories(userId, type = null)]; the
    [populate('parentCategory')] only replaces the reference by the document
    it names and is left out. *)
Definition getUserCategories (cats : gmap ObjectId Category)
  (userId : ObjectId) (type : option string) : list (Doc Category) :=
  Cursor.sortBy byUsageThenName (find (userCategoriesQuery userId type) cats).

(** A category as [new Category(fields)] fills it: no owner, active, not a
    default, never used, no parent, unless the fields say so. *)
Definition seed (name type : string) : Category :=
  {| c_name := name;
     c_type := type;
     c_userId := None;
     c_isActive := true;
     c_isDefault := true;
     c_usageCount := 0;
     c_lastUsed := None;
     c_parentCategory := None |}.

(** The [defaultCategories] of [createDefaultCategories]; colours and icons
    are not held by the record. *)
Definition defaultCategories : list Category :=
  [ seed "Salary" "income";
    seed "Freelance" "income";
    seed "Investment" "income";
    seed "Other Income" "income";
    seed "Food & Dining" "expense";
    seed "Transportation" "expense";
    seed "Shopping" "expense";
    seed "Entertainment" "expense";
    seed "Bills & Utilities" "expense";
    seed "Healthcare" "expense";
    seed "Education" "expense";
    seed "Travel" "expense";
    seed "Insurance" "expense";
    seed "Other Expense" "expense" ].

(** The unique index [{ name: 1, userId: 1 }]: whether a document with this
    name and this owner is stored already. *)
Definition indexTaken (name : string) (userId : option ObjectId)
  (cats : gmap ObjectId Category) : bool :=
  defined (findOne (fun d : Doc Category =>
                      String.eqb (c_name d.2) name
                      && bool_decide (c_userId d.2 = userId))
                   cats).

(** One insertion: refused when the [_id] or the indexed pair is taken. *)
Definition insertOne (id : ObjectId) (doc : Category)
  (cats : gmap ObjectId Category) : result (gmap ObjectId Category) :=
  let! _ := throwIf (defined (cats !! id)
                     || indexTaken (c_name doc) (c_userId doc) cats)
              (MongoServerError "E11000 duplicate key error") in
  Ok (<[id := doc]> cats).

(** [this.insertMany(docs)], ordered: the documents are inserted one after
    the other and the first refusal stops the run, leaving what was inserted
    before it. [newId n] is the [_id] generated for the document at position
    [n]. The collection after the run, and how it ends. *)
Fixpoint insertMany (docs : list Category) (newId : nat -> ObjectId)
  (n : nat) (cats : gmap ObjectId Category)
  : gmap ObjectId Category * result unit :=
  match docs with
  | [] => (cats, Ok tt)
  | doc :: rest =>
      match insertOne (newId n) doc cats with
      | Ok cats' => insertMany rest newId (S n) cats'
      | Throw e => (cats, Throw e)
      end
  end.

(** [categorySchema.statics.createDefaultCategories]: the defaults are
    inserted only if no default category exists; an error of the insertion
    is caught and logged. The collection it leaves. *)
Definition createDefaultCategories (cats : gmap ObjectId Category)
  (newId : nat -> ObjectId) : gmap ObjectId Category :=
  let existingCount :=
    countDocuments (fun d : Doc Category => c_isDefault d.2) cats in
  if existingCount =? 0
  then (insertMany defaultCategories newId 0 cats).1
  else cats.

End CategoryQueries.

(** ** The rest of [controllers/categoryController.js] *)

Module CategoryHandlers.

(** [getCategories]: [Category.getUserCategories(userId, req.query.type)]. *)
Definition getCategories (st : Store) (userId : ObjectId)
  (type : option string) : list (Doc Category) :=
  CategoryQueries.getUserCategories (categories st) userId type.

(** [getCategory] *)
Definition getCategory (st : Store) (userId id : ObjectId)
  : result (Doc Category) :=
  match findById id (categories st) with
  | None => Throw (AppError "Category not found" 404)
  | Some category =>
      let! _ :=
        throwIf (TransactionController.foreignCategory userId category)
          (AppError
             "You can only access your own categories or default categories"
             403) in
      Ok (id, category)
  end.

(** [req.body] of [POST /api/categories], behind [validateCategory], which
    wants a name and a type: the paths of the schema that the record holds.
    The middleware does not remove the keys it does not name, so the body
    may give [userId], [isActive], [isDefault], [usageCount] and [lastUsed]
    too. *)
Record NewCategory := mkNewCategory {
  nc_name : string;
  nc_type : string;
  nc_userId : option ObjectId;
  nc_parentCategory : option ObjectId;
  nc_isActive : option bool;
  nc_isDefault : option bool;
  nc_usageCount : option Z;
  nc_lastUsed : option Z
}.

(** [{ ...req.body, userId }]: the caller's id replaces a [userId] of the
    body; every other key is kept. *)
Definition categoryData (userId : ObjectId) (body : NewCategory)
  : NewCategory :=
  {| nc_name := nc_name body;
     nc_type := nc_type body;
     nc_userId := Some userId;
     nc_parentCategory := nc_parentCategory body;
     nc_isActive := nc_isActive body;
     nc_isDefault := nc_isDefault body;
     nc_usageCount := nc_usageCount body;
     nc_lastUsed := nc_lastUsed body |}.

(** [new Category(data)]: the name trimmed, and the defaults of the schema
    for the keys that are missing. *)
Definition newCategory (data : NewCategory) : Category :=
  {| c_name := CategoryQueries.trim (nc_name data);
     c_type := nc_type data;
     c_userId := nc_userId data;
     c_isActive := default true (nc_isActive data);
     c_isDefault := default false (nc_isDefault data);
     c_usageCount := default 0 (nc_usageCount data);
     c_lastUsed := nc_lastUsed data;
     c_parentCategory := nc_parentCategory data |}.

(** The validators of the category schema on a new document. *)
Definition validateNew (this : Category) : result unit :=
  let! _ := throwIf (negb (Js.truthy_str (c_name this)))
              (ValidationError "Category name is required") in
  let! _ := throwIf (negb (TransactionModel.maxlength 50 (c_name this)))
              (ValidationError "Category name cannot exceed 50 characters") in
  let! _ := throwIf (negb (Js.truthy_str (c_type this)))
              (ValidationError "Category type is required") in
  let! _ := throwIf (negb (TransactionModel.isIn (c_type this)
                             ["income"; "expense"; "both"]))
              (ValidationError
                 "Category type must be either income, expense, or both") in
  throwIf (c_usageCount this <? 0)
    (ValidationError "Usage count cannot be negative").

(** [Category.create(data)]: the new document is validated, the hook of
    [save] runs, then it is inserted under the fresh [_id]. *)
Definition create (cats : gmap ObjectId Category) (newId : ObjectId)
  (data : NewCategory) : result (gmap ObjectId Category * Doc Category) :=
  let this := newCategory data in
  let! _ := validateNew this in
  let! _ := CategoryModel.preSave cats this in
  let! cats' := CategoryQueries.insertOne newId this cats in
  Ok (cats', (newId, this)).

(** [{ name: req.body.name, $or: [{ userId }, { isDefault: true }] }] *)
Definition nameInUse (userId : ObjectId) (name : string)
  (d : Doc Category) : bool :=
  String.eqb (c_name d.2) name
  && (ownedBy userId (c_userId d.2) || c_isDefault d.2).

(** [createCategory] *)
Definition createCategory (st : Store) (newId userId : ObjectId)
  (body : NewCategory) : result (Store * Doc Category) :=
  let! _ :=
    match TransactionModel.whenTruthy Js.truthy_str (nc_parentCategory body) with
    | None => Ok tt
    | Some parentId =>
        match findById parentId (categories st) with
        | None => Throw (AppError "Parent category not found" 404)
        | Some parentCategory =>
            throwIf
              (TransactionController.foreignCategory userId parentCategory)
              (AppError
                 "You can only use your own categories or default categories as parent"
                 403)
        end
    end in
  let! _ :=
    throwIf (defined (findOne (nameInUse userId (nc_name body))
                        (categories st)))
      (AppError "A category with this name already exists" 400) in
  let! (cats, category) :=
    create (categories st) newId (categoryData userId body) in
  Ok ({| categories := cats; transactions := transactions st |}, category).

(** The category with another [isActive]: the [$set] of
    [findByIdAndUpdate(id, { isActive })]. *)
Definition setActive (active : bool) (c : Category) : Category :=
  {| c_name := c_name c;
     c_type := c_type c;
     c_userId := c_userId c;
     c_isActive := active;
     c_isDefault := c_isDefault c;
     c_usageCount := c_usageCount c;
     c_lastUsed := c_lastUsed c;
     c_parentCategory := c_parentCategory c |}.

(** [timestamps: true] of the category schema: beside the fields of the
    record every category has an [updatedAt], which [findByIdAndUpdate]
    sets to the time of the call. The [updatedAt] of the categories, by
    [_id]. *)
Definition UpdatedAt : Type := gmap ObjectId Z.

(** What [archiveCategory] and [restoreCategory] share: the category must
    exist and be the caller's, then [findByIdAndUpdate] sets [isActive],
    and [updatedAt] to [now]. *)
Definition setCategoryActive (active : bool) (refusal : string) (st : Store)
  (updatedAt : UpdatedAt) (now : Z) (userId id : ObjectId)
  : result (Store * UpdatedAt * Doc Category) :=
  match findById id (categories st) with
  | None => Throw (AppError "Category not found" 404)
  | Some category =>
      let! _ := throwIf (negb (ownedBy userId (c_userId category)))
                  (AppError refusal 403) in
      Ok ({| categories := <[id := setActive active category]> (categories st);
             transactions := transactions st |},
          <[id := now]> updatedAt,
          (id, setActive active category))
  end.

(** [archiveCategory] *)
Definition archiveCategory : Store -> UpdatedAt -> Z -> ObjectId -> ObjectId
                             -> result (Store * UpdatedAt * Doc Category) :=
  setCategoryActive false "You can only archive your own categories".

(** [restoreCategory] *)
Definition restoreCategory : Store -> UpdatedAt -> Z -> ObjectId -> ObjectId
                             -> result (Store * UpdatedAt * Doc Category) :=
  setCategoryActive true "You can only restore your own categories".

(** [initializeDefaultCategories] *)
Definition initializeDefaultCategories (st : Store) (newId : nat -> ObjectId)
  : Store :=
  {| categories := CategoryQueries.createDefaultCategories (categories st) newId;
     transactions := transactions st |}.

(** The [mostUsedCategories] of [getCategoryStats]: the active categories
    the caller sees, [.sort({ usageCount: -1 }).limit(10)]. *)
Definition mostUsedCategories (st : Store) (userId : ObjectId)
  : list (Doc Category) :=
  take 10 (Cursor.sortBy CategoryQueries.byUsage
             (find (CategoryQueries.userCategoriesQuery userId None)
                   (categories st))).

End CategoryHandlers.

(** ** The rest of [controllers/transactionController.js] *)

Module TransactionHandlers.

(** [getTransaction]: [Transaction.findOne({ _id: id, userId })]; the two
    [populate] calls are left out, as in the listing. *)
Definition getTransaction (st : Store) (userId id : ObjectId)
  : result (Doc Transaction) :=
  match TransactionController.findOwn st userId id with
  | None => Throw (AppError "Transaction not found" 404)
  | Some transaction => Ok (id, transaction)
  end.

(** [{ _id: { $in: transactionIds }, userId }] *)
Definition ownIn (userId : ObjectId) (transactionIds : list ObjectId)
  (d : Doc Transaction) : bool :=
  existsb (String.eqb d.1) transactionIds
  && String.eqb (t_userId d.2) userId.

(** [Transaction.deleteMany(filter)]: the collection without the matching
    documents, and their number. *)
Definition deleteMany (filter : Doc Transaction -> bool)
  (coll : gmap ObjectId Transaction) : gmap ObjectId Transaction * Z :=
  (base.filter (fun d : Doc Transaction => filter d = false) coll,
   countDocuments filter coll).

(** [bulkDeleteTransactions]; [transactionIds] is [None] when the body has
    no array under that key. *)
Definition bulkDeleteTransactions (st : Store) (userId : ObjectId)
  (transactionIds : option (list ObjectId)) : result (Store * Z) :=
  match transactionIds with
  | None | Some [] => Throw (AppError "Transaction IDs are required" 400)
  | Some ids =>
      let '(coll, deletedCount) :=
        deleteMany (ownIn userId ids) (transactions st) in
      Ok ({| categories := categories st; transactions := coll |},
          deletedCount)
  end.

End TransactionHandlers.

(** *** Spending by category
        ([transactionSchema.statics.getSpendingByCategory]) *)

Module Spending.

(** One group of the [$group] stage, keyed by the category. *)
Record CategoryStat := mkCategoryStat {
  cs_id : ObjectId;
  cs_categoryName : string;
  cs_totalAmount : Q;
  cs_count : Z;
  cs_avgAmount : Q
}.

(** The [options]: the two instants and the type, [None] for a missing
    key. *)
Record SpendingOptions := mkSpendingOptions {
  sp_startDate : option Z;
  sp_endDate : option Z;
  sp_type : option string
}.

(** [{ $match: { userId, type, date? } }], with [type = 'expense'] when the
    options give none. *)
Definition matchStage (userId : ObjectId) (o : SpendingOptions)
  (d : Doc Transaction) : bool :=
  Aggregation.matchStage userId
    (Aggregation.mkStatOptions (sp_startDate o) (sp_endDate o)) d
  && String.eqb (t_type d.2) (default "expense"%string (sp_type o)).

(** [$lookup] into the categories on [category = _id], then [$unwind]: the
    transaction beside its category, and nothing for a transaction whose
    category is not stored. *)
Definition lookupCategory (cats : gmap ObjectId Category)
  (d : Doc Transaction) : list (Doc Transaction * Category) :=
  match cats !! t_category d.2 with
  | Some categoryInfo => [(d, categoryInfo)]
  | None => []
  end.

(** Adds one joined document to the running groups
    [(category, name, sum, count)]; the name is the [$first] one. *)
Fixpoint accumulate (category : ObjectId) (name : string) (amount : Q)
  (groups : list (ObjectId * string * Q * Z))
  : list (ObjectId * string * Q * Z) :=
  match groups with
  | [] => [(category, name, (0 + amount)%Q, 1)]
  | (k, n, sum, count) :: rest =>
      if String.eqb k category
      then (k, n, (sum + amount)%Q, count + 1) :: rest
      else (k, n, sum, count) :: accumulate category name amount rest
  end.

Definition addRow (groups : list (ObjectId * string * Q * Z))
  (r : Doc Transaction * Category) : list (ObjectId * string * Q * Z) :=
  accumulate (t_category r.1.2) (c_name r.2) (t_amount r.1.2) groups.

Definition finishGroup (g : ObjectId * string * Q * Z) : CategoryStat :=
  let '(k, n, sum, count) := g in
  mkCategoryStat k n sum count (sum / inject_Z count)%Q.

(** [{ $sort: { totalAmount: -1 } }] *)
Definition byTotal (a b : CategoryStat) : bool :=
  Qle_bool (cs_totalAmount b) (cs_totalAmount a).

Definition getSpendingByCategory (cats : gmap ObjectId Category)
  (coll : gmap ObjectId Transaction) (userId : ObjectId)
  (o : SpendingOptions) : list CategoryStat :=
  Cursor.sortBy byTotal
    (map finishGroup
       (foldl addRow []
          (flat_map (lookupCategory cats) (find (matchStage userId o) coll)))).

End Spending.

(** ** [middleware/errorHandler.js] *)

Module ErrorHandler.

(** [error.code]: a number for the database driver, a string for the
    upload library. *)
Inductive Code :=
| NumCode (n : Z)
| StrCode (s : string).

(** The properties of a thrown object that [errorHandler] reads. A missing
    property is [None]; [e_path] and [e_value] are the texts the two
    properties are printed as; [e_errors] and [e_keyValue] hold the keys of
    the two objects. *)
Record JsError := mkJsError {
  e_name : string;
  e_message : string;
  e_code : option Code;
  e_isOperational : bool;
  e_statusCode : option Z;
  e_path : string;
  e_value : string;
  e_errors : option (list string);
  e_keyValue : option (list string)
}.

(** [new AppError(message, statusCode)]: an [Error] with the two extra
    properties; the class gives no [name] of its own. *)
Definition appError (message : string) (statusCode : Z) : JsError :=
  {| e_name := "Error"; e_message := message; e_code := None;
     e_isOperational := true; e_statusCode := Some statusCode;
     e_path := "undefined"; e_value := "undefined";
     e_errors := None; e_keyValue := None |}.

(** [new Error(message)] *)
Definition plainError (message : string) : JsError :=
  {| e_name := "Error"; e_message := message; e_code := None;
     e_isOperational := false; e_statusCode := None;
     e_path := "undefined"; e_value := "undefined";
     e_errors := None; e_keyValue := None |}.

(** What is sent: [res.status(statusCode).json({ message, ... })], and
    whether the body has an [errors] list. *)
Record Response := mkResponse {
  r_statusCode : Z;
  r_message : string;
  r_hasErrors : bool
}.

Definition codeIs (c : Code) (code : option Code) : bool :=
  match code, c with
  | Some (NumCode n), NumCode m => n =? m
  | Some (StrCode s), StrCode t => String.eqb s t
  | _, _ => false
  end.

(** One [if (test) { ... }] of the handler, on the running
    [(statusCode, message, errors)]. *)
Definition when (test : bool) (set : Response -> result Response)
  (r : Response) : result Response :=
  if test then set r else Ok r.

(** [errorHandler], outside development mode: the tests run in the order of
    the source, a later one overwriting what an earlier one set. Reading the
    keys of a missing [errors] or [keyValue] throws. *)
Definition errorHandler (error : JsError) : result Response :=
  let! r := Ok (mkResponse 500 "Internal server error" false) in
  let! r :=
    when (String.eqb (e_name error) "ValidationError")
      (fun _ =>
         match e_errors error with
         | Some _ => Ok (mkResponse 400 "Validation failed" true)
         | None =>
             Throw (TypeError "Cannot convert undefined or null to object")
         end) r in
  let! r :=
    when (String.eqb (e_name error) "CastError")
      (fun r => Ok (mkResponse 400
                      ("Invalid " ++ e_path error ++ ": " ++ e_value error)
                      (r_hasErrors r))) r in
  let! r :=
    when (codeIs (NumCode 11000) (e_code error))
      (fun _ =>
         match e_keyValue error with
         | Some keys =>
             Ok (mkResponse 400
                   (default "undefined"%string (head keys) ++ " already exists")
                   true)
         | None =>
             Throw (TypeError "Cannot convert undefined or null to object")
         end) r in
  let! r :=
    when (String.eqb (e_name error) "JsonWebTokenError")
      (fun r => Ok (mkResponse 401 "Invalid token" (r_hasErrors r))) r in
  let! r :=
    when (String.eqb (e_name error) "TokenExpiredError")
      (fun r => Ok (mkResponse 401 "Token expired" (r_hasErrors r))) r in
  let! r :=
    when (e_isOperational error)
      (fun r =>
         Ok (mkResponse
               (match e_statusCode error with
                | Some s => if s =? 0 then 400 else s
                | None => 400
                end)
               (e_message error) (r_hasErrors r))) r in
  let! r :=
    when (codeIs (StrCode "LIMIT_FILE_SIZE") (e_code error))
      (fun r => Ok (mkResponse 400 "File size too large" (r_hasErrors r))) r in
  let! r :=
    when (codeIs (StrCode "LIMIT_FILE_COUNT") (e_code error))
      (fun r => Ok (mkResponse 400 "Too many files uploaded"
                      (r_hasErrors r))) r in
  when (codeIs (StrCode "LIMIT_UNEXPECTED_FILE") (e_code error))
    (fun r => Ok (mkResponse 400 "Unexpected file field" (r_hasErrors r))) r.

End ErrorHandler.

(** ** The route tables ([routes/*.js]) *)

Module Router.

Inductive Method := GET | POST | PUT | DELETE.

(** A segment of a route path: a literal, or a parameter [:name]. *)
Inductive Segment :=
| Lit (s : string)
| Param (name : string).

Inductive Middleware :=
| AuthenticateToken
| ValidateTransaction
| ValidateCategory
| ValidateObjectId
| ValidateQueryFilters.

Inductive Handler :=
| GetTransactions
| GetTransactionStats
| ExportTransactionsPDF
| GetTransaction
| CreateTransaction
| UpdateTransaction
| DeleteTransaction
| BulkDeleteTransactions
| GetDefaultCategories
| InitializeDefaultCategories
| GetCategoryStats
| GetCategories
| GetCategory
| CreateCategory
| UpdateCategory
| ArchiveCategory
| RestoreCategory
| DeleteCategory
| BulkDeleteCategories
| GetOCRInfo
| GetOCRHistory
| ProcessReceipt
| CreateTransactionFromOCR
| ReprocessReceipt.

(** [router.METHOD(path, ...middleware, handler)] *)
Record Route := mkRoute {
  rt_method : Method;
  rt_path : list Segment;
  rt_middleware : list Middleware;
  rt_handler : Handler
}.

(** [routes/transactionRoutes.js], in the order of registration. *)
Definition transactionRoutes : list Route :=
  [ mkRoute GET [] [AuthenticateToken; ValidateQueryFilters] GetTransactions;
    mkRoute GET [Lit "stats"] [AuthenticateToken] GetTransactionStats;
    mkRoute GET [Lit "export"] [AuthenticateToken] ExportTransactionsPDF;
    mkRoute GET [Param "id"] [AuthenticateToken; ValidateObjectId]
      GetTransaction;
    mkRoute POST [] [AuthenticateToken; ValidateTransaction] CreateTransaction;
    mkRoute PUT [Param "id"]
      [AuthenticateToken; ValidateObjectId; ValidateTransaction]
      UpdateTransaction;
    mkRoute DELETE [Param "id"] [AuthenticateToken; ValidateObjectId]
      DeleteTransaction;
    mkRoute DELETE [Lit "bulk"] [AuthenticateToken] BulkDeleteTransactions ].

(** [routes/categoryRoutes.js] *)
Definition categoryRoutes : list Route :=
  [ mkRoute GET [Lit "defaults"] [] GetDefaultCategories;
    mkRoute POST [Lit "init-defaults"] [AuthenticateToken]
      InitializeDefaultCategories;
    mkRoute GET [Lit "stats"] [AuthenticateToken] GetCategoryStats;
    mkRoute GET [] [AuthenticateToken] GetCategories;
    mkRoute GET [Param "id"] [AuthenticateToken; ValidateObjectId] GetCategory;
    mkRoute POST [] [AuthenticateToken; ValidateCategory] CreateCategory;
    mkRoute PUT [Param "id"]
      [AuthenticateToken; ValidateObjectId; ValidateCategory] UpdateCategory;
    mkRoute PUT [Param "id"; Lit "archive"]
      [AuthenticateToken; ValidateObjectId] ArchiveCategory;
    mkRoute PUT [Param "id"; Lit "restore"]
      [AuthenticateToken; ValidateObjectId] RestoreCategory;
    mkRoute DELETE [Param "id"] [AuthenticateToken; ValidateObjectId]
      DeleteCategory;
    mkRoute DELETE [Lit "bulk"] [AuthenticateToken] BulkDeleteCategories ].

(** [routes/ocrRoutes.js] *)
Definition ocrRoutes : list Route :=
  [ mkRoute GET [Lit "info"] [AuthenticateToken] GetOCRInfo;
    mkRoute GET [Lit "history"] [AuthenticateToken] GetOCRHistory;
    mkRoute POST [Lit "process"] [AuthenticateToken] ProcessReceipt;
    mkRoute POST [Lit "create-transaction"] [AuthenticateToken]
      CreateTransactionFromOCR;
    mkRoute POST [Lit "reprocess"; Param "transactionId"]
      [AuthenticateToken; ValidateObjectId] ReprocessReceipt ].

Definition sameMethod (a b : Method) : bool :=
  match a, b with
  | GET, GET | POST, POST | PUT, PUT | DELETE, DELETE => true
  | _, _ => false
  end.

(** Whether the path of a request, cut at its slashes, fits the path of a
    route, and the parameters it then gives. A literal is compared without
    regard to letter case; a parameter takes one segment that is not
    empty. *)
Fixpoint matchPath (pattern : list Segment) (path : list string)
  : option (list (string * string)) :=
  match pattern, path with
  | [], [] => Some []
  | Lit s :: pattern', x :: path' =>
      if String.eqb (Js.toLowerCase x) (Js.toLowerCase s)
      then matchPath pattern' path'
      else None
  | Param name :: pattern', x :: path' =>
      if Js.truthy_str x
      then match matchPath pattern' path' with
           | Some params => Some ((name, x) :: params)
           | None => None
           end
      else None
  | _, _ => None
  end.

(** The router hands a request to the first route, in the order of
    registration, whose method and path fit. *)
Fixpoint dispatch (routes : list Route) (method : Method)
  (path : list string) : option (Route * list (string * string)) :=
  match routes with
  | [] => None
  | route :: rest =>
      match (if sameMethod (rt_method route) method
             then matchPath (rt_path route) path else None) with
      | Some params => Some (route, params)
      | None => dispatch rest method path
      end
  end.

(** [req.params[name]] *)
Definition param (name : string) (params : list (string * string))
  : option string :=
  match List.find (fun p : string * string => String.eqb p.1 name) params with
  | Some p => Some p.2
  | None => None
  end.

(** How a request ends in a router: no route, a middleware that answers
    instead of calling [next], or the handler. *)
Inductive Outcome :=
| NoRoute
| Stopped (by_ : Middleware)
| Runs (handler : Handler) (params : list (string * string)).

Section Serving.

(** [isMongoId] of the validator library. *)
Variable isMongoId : string -> bool.

(** Whether a middleware lets this request through, for the middlewares
    that look at the token, the body or the query. *)
Variable passes : Middleware -> bool.

(** [validateObjectId] is [param('id').isMongoId()]: a parameter that the
    route does not have is validated as the empty string. *)
Definition admits (params : list (string * string)) (m : Middleware) : bool :=
  match m with
  | ValidateObjectId => isMongoId (default EmptyString (param "id" params))
  | _ => passes m
  end.

(** The middlewares of the route run in their order; none of the handlers
    calls [next], so no later route sees the request. *)
Definition serve (routes : list Route) (method : Method) (path : list string)
  : Outcome :=
  match dispatch routes method path with
  | None => NoRoute
  | Some (route, params) =>
      match List.find (fun m => negb (admits params m)) (rt_middleware route) with
      | Some m => Stopped m
      | None => Runs (rt_handler route) params
      end
  end.

End Serving.

End Router.

(** ** Further notions the statements use *)

(** A list in the order [le]: each element before all the later ones. *)
Fixpoint sortedBy {A} (le : A -> A -> bool) (l : list A) : Prop :=
  match l with
  | [] => True
  | x :: r => (forall y, y ∈ r -> le x y = true) /\ sortedBy le r
  end.

(** The category is one that [userId] may see and use: their own or a
    default. *)
Definition visibleTo (userId : ObjectId) (c : Category) : Prop :=
  c_userId c = Some userId \/ c_isDefault c = true.

(** The type filter of a category listing lets the category through. *)
Definition typeAdmits (type : option string) (c : Category) : Prop :=
  forall t, type = Some t -> t <> EmptyString -> t <> "both"%string ->
    c_type c = t \/ c_type c = "both"%string.

(** Subcategories are one level deep: the parent of a category is stored and
    has no parent itself. *)
Definition wellNested (cats : gmap ObjectId Category) : Prop :=
  forall id c p,
    cats !! id = Some c -> c_parentCategory c = Some p ->
    exists pc, cats !! p = Some pc /\ c_parentCategory pc = None.

(** No two of the categories that [userId] sees carry the same name. *)
Definition namesDistinctFor (userId : ObjectId)
  (cats : gmap ObjectId Category) : Prop :=
  forall id1 id2 c1 c2,
    cats !! id1 = Some c1 -> cats !! id2 = Some c2 ->
    visibleTo userId c1 -> visibleTo userId c2 ->
    c_name c1 = c_name c2 -> id1 = id2.

(** The transactions of a list that are filed under a category, and the sum
    of their amounts, added in the order of the list. *)
Definition filedUnder (category : ObjectId) (docs : list (Doc Transaction))
  : list (Doc Transaction) :=
  List.filter (fun d : Doc Transaction => String.eqb (t_category d.2) category)
    docs.

Definition totalUnder (category : ObjectId) (docs : list (Doc Transaction))
  : Q :=
  foldl (fun sum d => (sum + t_amount d.2)%Q) 0%Q (filedUnder category docs).

(** The heights at which the rows of a report are printed: the [y] of each
    date cell, in the order of printing. *)
Definition rowHeights (out : list TransactionController.Output) : list Z :=
  omap (fun o =>
          match o with
          | TransactionController.Text
              (TransactionController.DateCell _) _ (Some y) => Some y
          | _ => None
          end) out.

#[global] Instance Handler_eq_dec : EqDecision Router.Handler.
Proof. solve_decision. Defined.

(** Whether the request ends in the handler. *)
Definition reaches (o : Router.Outcome) (h : Router.Handler) : bool :=
  match o with
  | Router.Runs handler _ => bool_decide (handler = h)
  | _ => false
  end.

(** ** Further sample data *)

Module Cases.

(** The ids that a seeding generates: "d0", "d1", ... *)
Definition newIds (n : nat) : ObjectId := "d" +:+ pretty n.

(** A collection with one category, of user "u1". *)
Definition ownDirectory : gmap ObjectId Category :=
  <["c20" := Sample.hobbies]> ∅.

(** The body of a [POST /api/categories]: "Books", under "Shopping". *)
Definition books : CategoryHandlers.NewCategory :=
  {| CategoryHandlers.nc_name := "Books";
     CategoryHandlers.nc_type := "expense";
     CategoryHandlers.nc_userId := Some "u2"%string;
     CategoryHandlers.nc_parentCategory := Some "c07"%string;
     CategoryHandlers.nc_isActive := None;
     CategoryHandlers.nc_isDefault := None;
     CategoryHandlers.nc_usageCount := None;
     CategoryHandlers.nc_lastUsed := None |}.

Definition booksSaved : Category :=
  {| c_name := "Books"; c_type := "expense"; c_userId := Some "u1"%string;
     c_isActive := true; c_isDefault := false; c_usageCount := 0;
     c_lastUsed := None; c_parentCategory := Some "c07"%string |}.

Definition afterBooks : Store :=
  {| categories := <["c30" := booksSaved]> Sample.directory;
     transactions := transactions Sample.store |}.

(** The same body with [isDefault: true] and no parent. *)
Definition sharedBooks : CategoryHandlers.NewCategory :=
  {| CategoryHandlers.nc_name := "Books";
     CategoryHandlers.nc_type := "expense";
     CategoryHandlers.nc_userId := None;
     CategoryHandlers.nc_parentCategory := None;
     CategoryHandlers.nc_isActive := None;
     CategoryHandlers.nc_isDefault := Some true;
     CategoryHandlers.nc_usageCount := None;
     CategoryHandlers.nc_lastUsed := None |}.

Definition sharedBooksSaved : Category :=
  {| c_name := "Books"; c_type := "expense"; c_userId := Some "u1"%string;
     c_isActive := true; c_isDefault := true; c_usageCount := 0;
     c_lastUsed := None; c_parentCategory := None |}.

Definition afterSharedBooks : Store :=
  {| categories := <["c30" := sharedBooksSaved]> Sample.directory;
     transactions := transactions Sample.store |}.

(** "Hobbies", archived. *)
Definition hobbiesArchived : Category :=
  {| c_name := "Hobbies"; c_type := "expense"; c_userId := Some "u1"%string;
     c_isActive := false; c_isDefault := false; c_usageCount := 0;
     c_lastUsed := None; c_parentCategory := None |}.

(** The [updatedAt] of the categories of the sample directory. *)
Definition stamps : CategoryHandlers.UpdatedAt :=
  <["c20" := 100]> (<["c14" := 0]> (<["c07" := 0]> (<["c01" := 0]> ∅))).

Definition afterArchive : Store :=
  {| categories := <["c20" := hobbiesArchived]> Sample.directory;
     transactions := transactions Sample.store |}.

(** The options of a listing: none, and every transaction since 1500. *)
Definition noOptions : TransactionModel.Options :=
  TransactionModel.mkOptions
    None None None None None None None None None None None None None.

Definition since1500 : TransactionModel.Options :=
  TransactionModel.mkOptions
    None None None None (Some 1500) None None None None None None None None.

(** The sample store without the lunch. *)
Definition afterLunchDeleted : Store :=
  {| categories := Sample.directory;
     transactions := delete "t1"%string (transactions Sample.store) |}.

(** The lunch as the income that the body [Sample.lunchAsIncome] asks
    for. *)
Definition lunchIncome : Transaction :=
  {| t_title := "Lunch"; t_description := None; t_amount := 50 # 1;
     t_type := "income"; t_category := "c07"; t_date := 1000;
     t_userId := "u1"; t_paymentMethod := "cash"; t_locationName := None;
     t_tags := [] |}.

(** An [isMongoId]: twenty-four hexadecimal digits. *)
Definition isHexDigit (a : ascii) : bool :=
  let n := nat_of_ascii a in
  ((48 <=? n) && (n <=? 57) || (65 <=? n) && (n <=? 70)
   || (97 <=? n) && (n <=? 102))%nat.

Fixpoint allHex (s : string) : bool :=
  match s with
  | EmptyString => true
  | String a r => isHexDigit a && allHex r
  end.

Definition isMongoId (s : string) : bool :=
  allHex s && (String.length s =? 24)%nat.

End Cases.

(** * Properties *)

(** ** Collections *)

Lemma find_elem {A} (filter : Doc A -> bool) (coll : gmap ObjectId A) id a :
  (id, a) ∈ find filter coll <-> coll !! id = Some a /\ filter (id, a) = true.
Proof.
  unfold find. rewrite list_elem_of_In, filter_In, <- list_elem_of_In,
    elem_of_map_to_list. reflexivity.
Qed.

Lemma find_nil {A} (filter : Doc A -> bool) (coll : gmap ObjectId A) :
  find filter coll = [] <->
  forall id a, coll !! id = Some a -> filter (id, a) = false.
Proof.
  split.
  - intros E id a Hl. destruct (filter (id, a)) eqn:F; [|reflexivity].
    assert ((id, a) ∈ find filter coll) as Hin by (apply find_elem; auto).
    rewrite E in Hin. inversion Hin.
  - intros H. destruct (find filter coll) as [|[id a] l] eqn:E; [reflexivity|].
    assert ((id, a) ∈ find filter coll) as Hin by (rewrite E; left).
    apply find_elem in Hin as [Hl F]. rewrite (H _ _ Hl) in F. discriminate.
Qed.

Lemma findOne_Some {A} (filter : Doc A -> bool) (coll : gmap ObjectId A) d :
  findOne filter coll = Some d -> coll !! d.1 = Some d.2 /\ filter d = true.
Proof.
  unfold findOne. intros H. apply find_some in H as [Hin F].
  split; [|exact F]. apply elem_of_map_to_list.
  destruct d; apply list_elem_of_In; exact Hin.
Qed.

Lemma findOne_None {A} (filter : Doc A -> bool) (coll : gmap ObjectId A) :
  findOne filter coll = None <->
  forall id a, coll !! id = Some a -> filter (id, a) = false.
Proof.
  unfold findOne. split.
  - intros H id a Hl. apply (find_none _ _ H).
    apply list_elem_of_In, elem_of_map_to_list, Hl.
  - intros H. destruct (List.find filter (map_to_list coll)) as [[id a]|] eqn:E;
      [|reflexivity].
    apply find_some in E as [Hin F].
    apply list_elem_of_In, elem_of_map_to_list in Hin.
    rewrite (H _ _ Hin) in F. discriminate.
Qed.

Lemma findOne_is_Some {A} (filter : Doc A -> bool) (coll : gmap ObjectId A) id a :
  coll !! id = Some a -> filter (id, a) = true ->
  exists d, findOne filter coll = Some d.
Proof.
  intros Hl F. destruct (findOne filter coll) as [d|] eqn:E; [eauto|].
  rewrite (proj1 (findOne_None _ _) E _ _ Hl) in F. discriminate.
Qed.

(** ** Category suggestion *)

Section Suggestion.

Import OcrController.

Variable cats : gmap ObjectId Category.
Variable userId : ObjectId.

(** The inner loop asks the directory once a keyword occurs. *)
Lemma tryPatterns_spec merchant categoryName patterns :
  tryPatterns cats userId merchant categoryName patterns =
  if existsb (Js.includes merchant) patterns
  then findOne (activeByName userId categoryName) cats
  else None.
Proof.
  induction patterns as [|pattern rest IH]; simpl; [reflexivity|].
  destruct (Js.includes merchant pattern); simpl; [|exact IH].
  destruct (findOne (activeByName userId categoryName) cats) eqn:E;
    [reflexivity|].
  rewrite IH. destruct (existsb _ rest); reflexivity.
Qed.

(** The outer loop returns the category of the first entry that resolves. *)
Lemma tryEntries_spec merchant entries :
  tryEntries cats userId merchant entries =
  match List.find (resolves cats userId merchant) entries with
  | Some entry => findOne (activeByName userId entry.1) cats
  | None => None
  end.
Proof.
  induction entries as [|[categoryName patterns] rest IH]; simpl;
    [reflexivity|].
  rewrite tryPatterns_spec. unfold resolves at 1. simpl.
  destruct (existsb (Js.includes merchant) patterns); simpl; [|exact IH].
  destruct (findOne (activeByName userId categoryName) cats) eqn:E; simpl;
    [rewrite E; reflexivity|exact IH].
Qed.







End Suggestion.

(** The example of the specification: "Swiggy Bangalore" has no keyword of
    the table and gets the fallback. *)
Example suggest_swiggy :
  OcrController.suggestCategoryFromMerchant Sample.directory "u1"
    (Some "Swiggy Bangalore"%string)
  = Some ("c14"%string, Sample.otherExpense).
Proof. vm_compute. reflexivity. Qed.






(** ** The query builder *)

Section Queries.

Import TransactionModel TransactionController.

Variable regexTest : string -> string -> bool.

Lemma split_nonempty sep s : (0 <? length (Js.split sep s))%nat = true.
Proof.
  destruct s as [|a r]; simpl; [reflexivity|].
  destruct (Ascii.eqb a sep); [reflexivity|].
  destruct (Js.split sep r); reflexivity.
Qed.

Lemma whenTruthy_mapTruthy {A} (f : string -> A) (truthy : A -> bool) v :
  (forall s, v = Some s -> Js.truthy_str s = true -> truthy (f s) = true) ->
  whenTruthy truthy (mapTruthy f v) = mapTruthy f v.
Proof.
  intros H. destruct v as [s|]; [|reflexivity]. unfold mapTruthy, whenTruthy.
  destruct (Js.truthy_str s) eqn:T; [|reflexivity]. simpl.
  rewrite (H s eq_refl T). reflexivity.
Qed.

Lemma truthy_mapTruthy {A} (f : string -> A) (truthy : A -> bool) v :
  (forall s, v = Some s -> Js.truthy_str s = true -> truthy (f s) = true) ->
  Js.truthy_opt truthy (mapTruthy f v) = Js.truthy_opt Js.truthy_str v.
Proof.
  intros H. destruct v as [s|]; [|reflexivity]. unfold mapTruthy. simpl.
  destruct (Js.truthy_str s) eqn:T; [|reflexivity]. simpl.
  exact (H s eq_refl T).
Qed.

(** The two builders agree as long as no amount bound reads as [0] or as
    [NaN]: then the inline query of [getTransactions] is the query of
    [getUserTransactions] on the options the handler passes. *)
Lemma countQuery_buildQuery userId rq :
  (forall s, rq_minAmount rq = Some s -> Js.truthy_str s = true ->
             Js.truthy_num (Js.parseFloat s) = true) ->
  (forall s, rq_maxAmount rq = Some s -> Js.truthy_str s = true ->
             Js.truthy_num (Js.parseFloat s) = true) ->
  countQuery userId rq = buildQuery userId (listOptions rq).
Proof.
  intros Hlo Hhi. unfold countQuery, buildQuery, listOptions. simpl.
  f_equal.
  - unfold rangeOf.
    rewrite !truthy_mapTruthy, !whenTruthy_mapTruthy by assumption.
    reflexivity.
  - symmetry. apply whenTruthy_mapTruthy. intros s _ _. apply split_nonempty.
Qed.








End Queries.



(** C1, at the failing input [?maxAmount=0] on the sample store, whose owner
    has two transactions: [getTransactions] returns both of them, and counts
    none. The handler tests the text "0", which is truthy, and bounds the
    count by [$lte: 0]; [getUserTransactions] tests the number [0], which is
    not, and leaves the amount out of its query. *)
Theorem count_differs_from_find_at_zero_maxAmount
  (regexTest : string -> string -> bool) :
  TransactionController.getTransactions regexTest Sample.store "u1"
    (withMaxAmountText (Some "0"%string) Sample.noFilter)
  = Ok ([("t2"%string, Sample.pay); ("t1"%string, Sample.lunch)],
        {| TransactionController.currentPage := 1;
           TransactionController.totalPages := Js.Fin 0;
           TransactionController.totalTransactions := 0;
           TransactionController.hasNext := false;
           TransactionController.hasPrev := false |}).
Proof. vm_compute. reflexivity. Qed.

(** ** Pagination *)

Section Pagination.

Import TransactionModel TransactionController.

Variable regexTest : string -> string -> bool.

Lemma insertDoc_perm sort x l : insertDoc sort x l ≡ₚ x :: l.
Proof.
  induction l as [|y r IH]; simpl; [reflexivity|].
  destruct (inOrder sort x y); [reflexivity|].
  rewrite IH. apply Permutation_swap.
Qed.

Lemma sortDocs_perm sort l : sortDocs sort l ≡ₚ l.
Proof.
  unfold sortDocs. induction l as [|x l IH]; simpl; [reflexivity|].
  rewrite insertDoc_perm, IH. reflexivity.
Qed.

(** The documents a query finds have pairwise different [_id]s. *)
Lemma find_ids_NoDup {A} (filter : Doc A -> bool) (coll : gmap ObjectId A) :
  NoDup (find filter coll).*1.
Proof.
  unfold find. pose proof (NoDup_fst_map_to_list coll) as H.
  induction (map_to_list coll) as [|d l IH]; simpl; [constructor|].
  inversion H as [|? ? Hnot Hl]; subst.
  destruct (filter d); [|exact (IH Hl)].
  simpl. constructor; [|exact (IH Hl)].
  intros Hin. apply Hnot.
  apply list_elem_of_fmap in Hin as (d' & -> & Hin).
  apply list_elem_of_fmap. exists d'. split; [reflexivity|].
  apply list_elem_of_In in Hin. apply filter_In in Hin as [Hin _].
  apply list_elem_of_In. exact Hin.
Qed.

(** Two consecutive windows of a list without repeated keys share no key. *)
Lemma windows_disjoint {A} (l : list (Doc A)) (n : nat) d1 d2 :
  NoDup l.*1 -> d1 ∈ take n l -> d2 ∈ take n (drop n l) -> d1.1 <> d2.1.
Proof.
  intros Hnd H1 H2 E.
  rewrite <- (take_drop n l), fmap_app in Hnd.
  apply NoDup_app in Hnd as (_ & Hdis & _).
  apply (Hdis d1.1).
  - apply list_elem_of_fmap. eauto.
  - rewrite E. apply list_elem_of_fmap. exists d2. split; [reflexivity|].
    eapply elem_of_sublist; [exact H2|apply sublist_take].
Qed.

(** [Math.ceil(a / b)] on integers, for a positive [b]. *)
Lemma ceil_divZ a b :
  1 <= b ->
  exists k, Js.ceil (Js.divZ a b) = Js.ofZ k /\ (k - 1) * b < a <= k * b.
Proof.
  intros Hb. unfold Js.divZ. destruct (Z.eqb_spec b 0) as [->|_]; [lia|].
  simpl. unfold Js.ofZ. eexists. split; [reflexivity|].
  destruct b as [|pb|pb]; try lia.
  unfold Qceiling, Qfloor, Qdiv, Qmult, Qinv, Qopp, inject_Z. simpl.
  rewrite Z.mul_1_r, Pos.mul_1_l.
  pose proof (Z.div_mod (- a) (Z.pos pb) ltac:(lia)) as Hdm.
  pose proof (Z.mod_pos_bound (- a) (Z.pos pb) ltac:(lia)) as Hmod.
  nia.
Qed.

Lemma ltb_ofZ a b : Js.ltb (Js.ofZ a) (Js.ofZ b) = true <-> a < b.
Proof.
  unfold Js.ltb, Js.ofZ. rewrite negb_true_iff, <- not_true_iff_false,
    Qle_bool_iff, <- Zle_Qle. lia.
Qed.

Lemma limitDocs_take {A} n (l : list A) :
  1 <= n -> limitDocs n l = take (Z.to_nat n) l.
Proof.
  intros H. unfold limitDocs. destruct (Z.eqb_spec n 0); [lia|].
  rewrite Z.abs_eq by lia. reflexivity.
Qed.

(** What [getTransactions] returns for page [p] of a request with limit [L]:
    a window of the sorted matches, and the pagination block. *)
Lemma getTransactions_page st userId rq L p :
  1 <= L -> 1 <= p -> default 10 (rq_limit rq) = L ->
  exists sorted pg pages,
    NoDup sorted.*1
    /\ sorted ≡ₚ find (matches regexTest (buildQuery userId (listOptions rq)))
                      (transactions st)
    /\ (forall q, 1 <= q ->
          exists pgq,
            getTransactions regexTest st userId (withPage (Some q) rq)
            = Ok (take (Z.to_nat L) (drop (Z.to_nat ((q - 1) * L)) sorted), pgq))
    /\ getTransactions regexTest st userId (withPage (Some p) rq)
       = Ok (take (Z.to_nat L) (drop (Z.to_nat ((p - 1) * L)) sorted), pg)
    /\ currentPage pg = p
    /\ totalPages pg = Js.ofZ pages
    /\ (pages - 1) * L < totalTransactions pg <= pages * L
    /\ hasNext pg = Js.ltb (Js.ofZ p) (Js.ofZ pages)
    /\ hasPrev pg = (1 <? p).
Proof.
  intros HL Hp Hlim. destruct rq. cbn [rq_limit] in Hlim.
  set (rq := fun page => mkListQuery page rq_limit0 rq_type0 rq_category0
                           rq_startDate0 rq_endDate0 rq_minAmount0
                           rq_maxAmount0 rq_paymentMethod0 rq_tags0
                           rq_search0 rq_sortBy0 rq_sortOrder0).
  set (sort := (default "date"%string rq_sortBy0,
                if String.eqb (default "desc"%string rq_sortOrder0) "desc"
                then -1 else 1)).
  set (sorted := sortDocs sort
                   (find (matches regexTest
                            (buildQuery userId (listOptions (rq None))))
                         (transactions st))).
  set (total := countDocuments (matches regexTest (countQuery userId (rq None)))
                  (transactions st)).
  destruct (ceil_divZ total L HL) as (pages & Hceil & Hbounds).
  assert (forall q, 1 <= q ->
            getTransactions regexTest st userId (rq (Some q))
            = Ok (take (Z.to_nat L) (drop (Z.to_nat ((q - 1) * L)) sorted),
                  {| currentPage := q; totalPages := Js.ofZ pages;
                     totalTransactions := total;
                     hasNext := Js.ltb (Js.ofZ q) (Js.ofZ pages);
                     hasPrev := 1 <? q |})) as Hget.
  { intros q Hq. unfold getTransactions, getUserTransactions, execFind. simpl.
    rewrite Hlim.
    destruct (Z.ltb_spec ((q - 1) * L) 0) as [Hneg|_]; [nia|]. simpl.
    rewrite limitDocs_take by exact HL.
    change (countQuery userId (rq (Some q))) with (countQuery userId (rq None)).
    change (buildQuery userId (listOptions (rq (Some q))))
      with (buildQuery userId (listOptions (rq None))).
    fold total. rewrite Hceil. reflexivity. }
  exists sorted, {| currentPage := p; totalPages := Js.ofZ pages;
                    totalTransactions := total;
                    hasNext := Js.ltb (Js.ofZ p) (Js.ofZ pages);
                    hasPrev := 1 <? p |}, pages.
  split.
  { unfold sorted. rewrite sortDocs_perm. apply find_ids_NoDup. }
  split.
  { unfold sorted. apply sortDocs_perm. }
  split.
  { intros q Hq. eexists. apply (Hget q Hq). }
  split; [exact (Hget p Hp)|].
  simpl. auto.
Qed.

(** C5: for a limit [L >= 1], given or the default, every page [q >= 1] is
    the window of [L] transactions after the first [(q - 1) * L] of one
    list, a permutation of the matches; page 2 shares no transaction with page 1; and on
    every page [p >= 1] the block has [totalPages] the least integer with
    [totalTransactions <= totalPages * L], [hasNext] exactly when
    [currentPage < totalPages] and [hasPrev] exactly when [currentPage > 1].
    The handler returns on each of these requests. *)
Theorem pagination_is_consistent st userId rq L p :
  1 <= L -> 1 <= p -> default 10 (rq_limit rq) = L ->
  exists sorted page1 pg1 page2 pg2 pageP pg pages,
    sorted ≡ₚ find (matches regexTest (buildQuery userId (listOptions rq)))
                   (transactions st)
    /\ (forall q, 1 <= q ->
       exists pgq,
         getTransactions regexTest st userId (withPage (Some q) rq)
         = Ok (take (Z.to_nat L) (drop (Z.to_nat ((q - 1) * L)) sorted), pgq))
    /\ getTransactions regexTest st userId (withPage (Some 1) rq) = Ok (page1, pg1)
    /\ getTransactions regexTest st userId (withPage (Some 2) rq) = Ok (page2, pg2)
    /\ (forall d1 d2, d1 ∈ page1 -> d2 ∈ page2 -> d1.1 <> d2.1)
    /\ getTransactions regexTest st userId (withPage (Some p) rq) = Ok (pageP, pg)
    /\ currentPage pg = p
    /\ totalPages pg = Js.ofZ pages
    /\ (pages - 1) * L < totalTransactions pg <= pages * L
    /\ (hasNext pg = true <-> currentPage pg < pages)
    /\ (hasPrev pg = true <-> 1 < currentPage pg).
Proof.
  intros HL Hp Hlim.
  destruct (getTransactions_page st userId rq L p HL Hp Hlim)
    as (sorted & pg & pages & Hnd & Hperm & Hall & Hget & Hcur & Htot & Hb
        & Hn & Hv).
  destruct (Hall 1 ltac:(lia)) as [pg1 H1].
  destruct (Hall 2 ltac:(lia)) as [pg2 H2].
  exists sorted,
         (take (Z.to_nat L) (drop (Z.to_nat ((1 - 1) * L)) sorted)), pg1,
         (take (Z.to_nat L) (drop (Z.to_nat ((2 - 1) * L)) sorted)), pg2,
         (take (Z.to_nat L) (drop (Z.to_nat ((p - 1) * L)) sorted)), pg, pages.
  split; [exact Hperm|]. split; [exact Hall|].
  split; [exact H1|]. split; [exact H2|]. split.
  { intros d1 d2. replace ((1 - 1) * L) with 0 by lia.
    replace ((2 - 1) * L) with L by lia. simpl.
    apply windows_disjoint. exact Hnd. }
  split; [exact Hget|]. split; [exact Hcur|]. split; [exact Htot|].
  split; [exact Hb|]. rewrite Hn, Hv, Hcur. split.
  - apply ltb_ofZ.
  - lia.
Qed.

End Pagination.

(** The two pages of the sample store at one transaction a page. *)
Example pages_of_sample :
  [TransactionController.getTransactions Sample.literalTest Sample.store
     "u1" (withPage (Some 1) Sample.onePerPage);
   TransactionController.getTransactions Sample.literalTest Sample.store
     "u1" (withPage (Some 2) Sample.onePerPage)]
  = [Ok ([("t2"%string, Sample.pay)],
         {| TransactionController.currentPage := 1;
            TransactionController.totalPages := Js.Fin 2;
            TransactionController.totalTransactions := 2;
            TransactionController.hasNext := true;
            TransactionController.hasPrev := false |});
     Ok ([("t1"%string, Sample.lunch)],
         {| TransactionController.currentPage := 2;
            TransactionController.totalPages := Js.Fin 2;
            TransactionController.totalTransactions := 2;
            TransactionController.hasNext := false;
            TransactionController.hasPrev := true |})].
Proof. vm_compute. reflexivity. Qed.

(** C5, witness: the sample store at one transaction a page, page 2. *)
Lemma pagination_is_consistent_witness :
  exists sorted page1 pg1 page2 pg2 pageP pg pages,
    sorted ≡ₚ find (TransactionModel.matches Sample.literalTest
                      (TransactionModel.buildQuery "u1"
                         (TransactionController.listOptions Sample.onePerPage)))
                   (transactions Sample.store)
    /\ (forall q, 1 <= q ->
       exists pgq,
         TransactionController.getTransactions Sample.literalTest Sample.store
           "u1" (withPage (Some q) Sample.onePerPage)
         = Ok (take (Z.to_nat 1) (drop (Z.to_nat ((q - 1) * 1)) sorted), pgq))
    /\ TransactionController.getTransactions Sample.literalTest Sample.store "u1"
      (withPage (Some 1) Sample.onePerPage) = Ok (page1, pg1)
    /\ TransactionController.getTransactions Sample.literalTest Sample.store "u1"
         (withPage (Some 2) Sample.onePerPage) = Ok (page2, pg2)
    /\ (forall d1 d2, d1 ∈ page1 -> d2 ∈ page2 -> d1.1 <> d2.1)
    /\ TransactionController.getTransactions Sample.literalTest Sample.store "u1"
         (withPage (Some 2) Sample.onePerPage) = Ok (pageP, pg)
    /\ TransactionController.currentPage pg = 2
    /\ TransactionController.totalPages pg = Js.ofZ pages
    /\ (pages - 1) * 1 < TransactionController.totalTransactions pg <= pages * 1
    /\ (TransactionController.hasNext pg = true
        <-> TransactionController.currentPage pg < pages)
    /\ (TransactionController.hasPrev pg = true
        <-> 1 < TransactionController.currentPage pg).
Proof.
  apply (pagination_is_consistent Sample.literalTest Sample.store "u1"
           Sample.onePerPage 1 2).
  - lia.
  - lia.
  - reflexivity.
Defined.

(** ** Statistics *)

Section Statistics.

Import Aggregation TransactionController.

Lemma groupByType_nil : groupByType [] = [].
Proof. reflexivity. Qed.

(** C6: the statistics have [netIncome = totalIncome - totalExpenses], for
    every store, owner and date range; when no transaction of the owner is in
    the range, the three are [0]. *)
Theorem net_income_is_income_minus_expenses st userId o :
  let stats := TransactionController.getTransactionStats st userId o in
  st_netIncome stats = (st_totalIncome stats - st_totalExpenses stats)%Q
  /\ (find (matchStage userId o) (transactions st) = [] ->
      st_totalIncome stats = 0%Q /\ st_totalExpenses stats = 0%Q
      /\ st_netIncome stats = 0%Q /\ st_totalTransactions stats = 0).
Proof.
  unfold TransactionController.getTransactionStats,
    Aggregation.getTransactionStats. split.
  - destruct (groupAll _) as [|statData rest]; [reflexivity|].
    unfold statsOf.
    destruct (foldl eachStat (0%Q, 0%Q) (ov_stats statData)); reflexivity.
  - intros ->. rewrite groupByType_nil. simpl. auto.
Qed.

End Statistics.

(** C6, witness: the sample store, whose owner earned 500 and spent 50, and
    an owner without transactions. *)
Lemma net_income_is_income_minus_expenses_witness :
  TransactionController.getTransactionStats Sample.store "u1"
    (Aggregation.mkStatOptions None None)
  = {| TransactionController.st_totalTransactions := 2;
       TransactionController.st_totalIncome := 500 # 1;
       TransactionController.st_totalExpenses := 50 # 1;
       TransactionController.st_netIncome := 450 # 1;
       TransactionController.st_avgTransactionAmount := 550 # 2 |}
  /\ TransactionController.st_netIncome
       (TransactionController.getTransactionStats Sample.store "u9"
          (Aggregation.mkStatOptions None None)) = 0%Q.
Proof.
  split; [vm_compute; reflexivity|].
  apply (net_income_is_income_minus_expenses Sample.store "u9"
           (Aggregation.mkStatOptions None None)).
  vm_compute. reflexivity.
Defined.

(** ** The totals of the statistics *)

Section Totals.

Import Aggregation TransactionController.

Abbreviation keys groups := (map (fun g : string * Q * Z => g.1.1) groups).

Lemma totalOf_snoc type docs d :
  totalOf type (docs ++ [d])
  = if String.eqb (t_type d.2) type
    then (totalOf type docs + t_amount d.2)%Q
    else totalOf type docs.
Proof.
  unfold totalOf. rewrite List.filter_app. cbn [List.filter].
  destruct (String.eqb (t_type d.2) type).
  - rewrite foldl_app. reflexivity.
  - rewrite app_nil_r. reflexivity.
Qed.

Lemma totalOf_none type docs :
  (forall d, In d docs -> t_type d.2 <> type) -> totalOf type docs = 0%Q.
Proof.
  intros H. unfold totalOf.
  replace (List.filter _ docs) with (@nil (Doc Transaction)); [reflexivity|].
  symmetry. induction docs as [|d docs IH]; [reflexivity|]. cbn [List.filter].
  destruct (String.eqb_spec (t_type d.2) type) as [E|_].
  - destruct (H d (or_introl eq_refl) E).
  - apply IH. intros d' Hin. apply H. right. exact Hin.
Qed.

Lemma accumulate_keys type amount groups :
  keys (accumulate type amount groups)
  = if existsb (fun k => String.eqb k type) (keys groups)
    then keys groups else keys groups ++ [type].
Proof.
  induction groups as [|[[k sum] count] rest IH]; [reflexivity|].
  cbn [accumulate map existsb fst].
  destruct (String.eqb k type); [reflexivity|].
  cbn [map fst orb]. rewrite IH.
  destruct (existsb _ (keys rest)); reflexivity.
Qed.

Lemma existsb_key type (ks : list string) :
  existsb (fun k => String.eqb k type) ks = true <-> In type ks.
Proof.
  rewrite existsb_exists. split.
  - intros (k & Hin & E). apply String.eqb_eq in E. subst. exact Hin.
  - intros Hin. exists type. split; [exact Hin|apply String.eqb_refl].
Qed.

Lemma accumulate_NoDup type amount groups :
  NoDup (keys groups) -> NoDup (keys (accumulate type amount groups)).
Proof.
  intros H. rewrite accumulate_keys.
  destruct (existsb _ (keys groups)) eqn:E; [exact H|].
  apply NoDup_app. split; [exact H|]. split; [|apply NoDup_singleton].
  intros k Hk Hin. apply list_elem_of_In in Hk.
  apply list_elem_of_singleton in Hin as ->.
  apply existsb_key in Hk. congruence.
Qed.

(** Where a group of the new list comes from. *)
Lemma accumulate_In type amount groups k sum count :
  NoDup (keys groups) ->
  In (k, sum, count) (accumulate type amount groups) ->
  (k <> type /\ In (k, sum, count) groups)
  \/ (k = type
      /\ ((exists sum0 count0,
              In (type, sum0, count0) groups
              /\ sum = (sum0 + amount)%Q /\ count = count0 + 1)
          \/ (~ In type (keys groups)
              /\ sum = (0 + amount)%Q /\ count = 1))).
Proof.
  induction groups as [|[[k0 sum0] count0] rest IH]; cbn [accumulate].
  - intros _ [E|[]]. injection E as <- <- <-. right. split; [reflexivity|].
    right. split; [intros []|auto].
  - intros Hnd. inversion Hnd as [|? ? Hnot Hrest]; subst.
    destruct (String.eqb_spec k0 type) as [->|Hne].
    + intros [E|Hin].
      * injection E as <- <- <-. right. split; [reflexivity|]. left.
        exists sum0, count0. split; [left; reflexivity|auto].
      * left. split; [|right; exact Hin].
        intros ->. apply Hnot. apply list_elem_of_In.
        apply (in_map (fun g : string * Q * Z => g.1.1)) in Hin. exact Hin.
    + intros [E|Hin].
      * injection E as <- <- <-. left. split; [exact Hne|left; reflexivity].
      * destruct (IH Hrest Hin) as [[Hk Hg]|[-> [(s1 & c1 & Hg & Hs & Hc)|(Hno & Hs & Hc)]]].
        -- left. split; [exact Hk|right; exact Hg].
        -- right. split; [reflexivity|]. left. exists s1, c1.
           split; [right; exact Hg|auto].
        -- right. split; [reflexivity|]. right. split; [|auto].
           cbn [map fst]. intros [E|Hin']; [exact (Hne E)|exact (Hno Hin')].
Qed.

(** The running groups after the documents [docs]: one group a type, with
    the sum of the amounts of that type. *)
Lemma groups_invariant docs :
  let groups := foldl addDoc [] docs in
  NoDup (keys groups)
  /\ (forall k sum count, In (k, sum, count) groups -> sum = totalOf k docs)
  /\ (forall d, In d docs -> In (t_type d.2) (keys groups)).
Proof.
  induction docs as [|d docs IH] using rev_ind.
  - cbn. split; [constructor|]. split; [intros ? ? ? []|intros ? []].
  - cbn zeta in *. rewrite foldl_app. cbn [foldl]. unfold addDoc at 1 3 5.
    destruct IH as (Hnd & Hsum & Hkeys).
    set (groups := foldl addDoc [] docs) in *.
    split; [apply accumulate_NoDup; exact Hnd|]. split.
    + intros k sum count Hin. rewrite totalOf_snoc.
      apply (accumulate_In _ _ _ _ _ _ Hnd) in Hin
        as [[Hk Hg]|[-> [(s0 & c0 & Hg & -> & _)|(Hno & -> & _)]]].
      * destruct (String.eqb_spec (t_type d.2) k); [congruence|].
        exact (Hsum _ _ _ Hg).
      * rewrite String.eqb_refl, (Hsum _ _ _ Hg). reflexivity.
      * rewrite String.eqb_refl, totalOf_none; [reflexivity|].
        intros d' Hd' E. apply Hno. rewrite <- E. exact (Hkeys _ Hd').
    + intros d' Hin. rewrite accumulate_keys.
      apply in_app_or in Hin as [Hin|[<-|[]]].
      * specialize (Hkeys _ Hin).
        destruct (existsb _ (keys groups)); [exact Hkeys|].
        apply in_or_app. left. exact Hkeys.
      * destruct (existsb _ (keys groups)) eqn:E.
        -- apply existsb_key. exact E.
        -- apply in_or_app. right. left. reflexivity.
Qed.

Lemma eachStat_other acc groups type :
  (type = "income"%string \/ type = "expense"%string) ->
  ~ In type (keys groups) ->
  (if String.eqb type "income"
   then (foldl eachStat acc (map finishGroup groups)).1
   else (foldl eachStat acc (map finishGroup groups)).2)
  = if String.eqb type "income" then acc.1 else acc.2.
Proof.
  intros Htype. revert acc.
  induction groups as [|[[k sum] count] rest IH]; intros acc Hno;
    [reflexivity|].
  cbn [map foldl]. rewrite IH by (intros Hin; apply Hno; right; exact Hin).
  assert (k <> type) as Hk by (intros ->; apply Hno; left; reflexivity).
  unfold eachStat. cbn [finishGroup ts_type ts_totalAmount].
  destruct Htype as [-> | ->]; cbn [String.eqb Ascii.eqb Bool.eqb].
  - destruct (String.eqb_spec k "income"); [congruence|].
    destruct (String.eqb k "expense"); reflexivity.
  - destruct (String.eqb_spec k "income"); [reflexivity|].
    destruct (String.eqb_spec k "expense"); [congruence|reflexivity].
Qed.

Lemma eachStat_group acc groups type sum count :
  (type = "income"%string \/ type = "expense"%string) ->
  NoDup (keys groups) ->
  In (type, sum, count) groups ->
  (if String.eqb type "income"
   then (foldl eachStat acc (map finishGroup groups)).1
   else (foldl eachStat acc (map finishGroup groups)).2)
  = orZero sum.
Proof.
  intros Htype. revert acc.
  induction groups as [|[[k s] c] rest IH]; intros acc Hnd Hin; [destruct Hin|].
  apply NoDup_cons in Hnd as [Hnot Hrest]. cbn [map foldl].
  destruct Hin as [E|Hin]; [|exact (IH _ Hrest Hin)].
  injection E as -> -> ->.
  rewrite eachStat_other; [|exact Htype|].
  - unfold eachStat. cbn [finishGroup ts_type ts_totalAmount].
    destruct Htype as [-> | ->]; reflexivity.
  - intros Hin. apply Hnot, list_elem_of_In. exact Hin.
Qed.

Lemma orZero_eq x : (orZero x == x)%Q.
Proof.
  unfold orZero. destruct (Qeq_bool x 0) eqn:E; [|reflexivity].
  apply Qeq_bool_iff in E. symmetry. exact E.
Qed.

Abbreviation counted groups :=
  (foldr (fun (g : string * Q * Z) (n : Z) => g.2 + n) 0 groups).

Lemma count_foldl n0 groups :
  foldl (fun n g => n + ts_count g) n0 (map finishGroup groups)
  = n0 + counted groups.
Proof.
  revert n0. induction groups as [|[[k s] c] rest IH]; intros n0; cbn.
  - lia.
  - rewrite IH. cbn. lia.
Qed.

Lemma count_accumulate type amount groups :
  counted (accumulate type amount groups) = counted groups + 1.
Proof.
  induction groups as [|[[k s] c] rest IH]; cbn; [reflexivity|].
  destruct (String.eqb k type); cbn; [lia|]. rewrite IH. lia.
Qed.

Lemma count_groups (docs : list (Doc Transaction)) :
  counted (foldl addDoc [] docs) = Z.of_nat (length docs).
Proof.
  induction docs as [|d docs IH] using rev_ind; [reflexivity|].
  rewrite foldl_app. cbn [foldl]. unfold addDoc at 1.
  rewrite count_accumulate, IH, length_app.
  cbn [length]. lia.
Qed.

(** X3: the totals of the statistics are the sums over the owner's transactions
    in the date range: the income is the sum of the amounts of type income,
    the expenses of type expense, and the count is the number of
    transactions. *)
Theorem stats_totals_are_sums st userId o :
  let docs := find (matchStage userId o) (transactions st) in
  let stats := TransactionController.getTransactionStats st userId o in
  (st_totalIncome stats == totalOf "income" docs)%Q
  /\ (st_totalExpenses stats == totalOf "expense" docs)%Q
  /\ st_totalTransactions stats = Z.of_nat (length docs).
Proof.
  cbn zeta. unfold TransactionController.getTransactionStats,
    Aggregation.getTransactionStats, groupByType.
  set (docs := find (matchStage userId o) (transactions st)).
  pose proof (groups_invariant docs) as (Hnd & Hsum & Hkeys).
  pose proof (count_groups docs) as Hcount.
  set (groups := foldl addDoc [] docs) in *.
  assert (forall type,
             type = "income"%string \/ type = "expense"%string ->
             ((if String.eqb type "income"
               then (foldl eachStat (0%Q, 0%Q) (map finishGroup groups)).1
               else (foldl eachStat (0%Q, 0%Q) (map finishGroup groups)).2)
              == totalOf type docs)%Q) as Htotal.
  { intros type Htype.
    destruct (in_dec String.string_dec type (keys groups)) as [Hin|Hno].
    - apply in_map_iff in Hin as ([[k sum] count] & E & Hin). cbn in E. subst k.
      rewrite (eachStat_group _ _ _ _ _ Htype Hnd Hin), <- (Hsum _ _ _ Hin).
      apply orZero_eq.
    - rewrite (eachStat_other _ _ _ Htype Hno), totalOf_none.
      + destruct (String.eqb type "income"); reflexivity.
      + intros d Hd E. apply Hno. rewrite <- E. exact (Hkeys _ Hd). }
  pose proof (Htotal "income"%string (or_introl eq_refl)) as Hincome.
  pose proof (Htotal "expense"%string (or_intror eq_refl)) as Hexpense.
  cbn [String.eqb Ascii.eqb Bool.eqb] in Hincome, Hexpense.
  destruct groups as [|g rest] eqn:Hgroups.
  - cbn in Hcount. destruct docs; [|discriminate]. cbn. repeat split; reflexivity.
  - cbn [map groupAll statsOf ov_stats ov_totalTransactions].
    rewrite <- Hgroups in *.
    destruct (foldl eachStat (0%Q, 0%Q) (map finishGroup groups))
      as [totalIncome totalExpenses] eqn:Hfold.
    rewrite Hgroups in Hfold. cbn [map] in Hfold. rewrite Hfold.
    cbn [st_totalIncome st_totalExpenses st_totalTransactions].
    split; [exact Hincome|]. split; [exact Hexpense|].
    rewrite <- Hcount, <- (Z.add_0_l (counted groups)), <- count_foldl.
    rewrite Hgroups. reflexivity.
Qed.

End Totals.

(** ** The PDF report *)

Section Report.

Import TransactionModel TransactionController.

Variable regexTest : string -> string -> bool.

Lemma sortDocs_nil sort : sortDocs sort [] = [].
Proof. reflexivity. Qed.

(** The first row of the table is written whatever follows. *)
Lemma tableRows_first_cell cats d rest index yPosition :
  exists y, Text (DateCell (t_date d.2)) col1X (Some y)
            ∈ (tableRows cats (d :: rest) index yPosition).1.
Proof.
  exists (if 700 <? yPosition then 50 + 25 else yPosition).
  cbn [tableRows].
  destruct (findById (t_category d.2) cats) as [category|].
  - destruct (tableRows cats rest (S index) _) as [more outcome].
    cbn [fst]. rewrite !elem_of_app. left. left. right.
    right. left.
  - cbn [fst]. rewrite elem_of_app. right. right. left.
Qed.

Lemma writeReport_has_row cats user rq now tableTop d rest :
  exists y, Text (DateCell (t_date d.2)) col1X (Some y)
            ∈ (writeReport cats user rq now tableTop (d :: rest)).1.
Proof.
  destruct (tableRows_first_cell cats d rest 0 (tableTop + 25)) as [y Hy].
  exists y. unfold writeReport.
  destruct (tableRows cats (d :: rest) 0 (tableTop + 25)) as [body outcome].
  cbn [fst] in Hy.
  destruct outcome; cbn [fst]; rewrite !elem_of_app; auto.
Qed.

Lemma getUserTransactions_export coll userId rq :
  getUserTransactions regexTest coll userId (exportOptions rq)
  = Ok (limitDocs 1000
          (sortDocs ("date"%string, -1)
             (find (matches regexTest (buildQuery userId (exportOptions rq)))
                   coll))).
Proof. reflexivity. Qed.

(** C7: when no transaction of the owner matches the export filter, the
    handler throws the 404 "No transactions found" error and has written
    nothing, neither a header of the response nor a line of the document;
    and whatever it writes otherwise has a row of the table in it: there
    is no document of headers only. *)
Theorem export_is_never_headers_only st user rq now tableTop :
  (find (matches regexTest (buildQuery (u_id user) (exportOptions rq)))
        (transactions st) = [] ->
   exportTransactionsPDF regexTest st user rq now tableTop
   = ([], Throw (AppError "No transactions found for the specified criteria"
                          404)))
  /\ (forall out outcome,
         exportTransactionsPDF regexTest st user rq now tableTop
         = (out, outcome) ->
         out <> [] ->
         exists date y, Text (DateCell date) col1X (Some y) ∈ out).
Proof.
  unfold exportTransactionsPDF. rewrite getUserTransactions_export.
  split.
  - intros ->. rewrite sortDocs_nil. reflexivity.
  - intros out outcome.
    destruct (@limitDocs (Doc Transaction) 1000 _) as [|d rest];
      cbn [length Nat.eqb].
    + intros E. injection E as <- _. congruence.
    + intros E _.
      destruct (writeReport_has_row (categories st) user rq now tableTop d rest)
        as [y Hy].
      apply (f_equal fst) in E. cbn [fst] in E. subst out.
      exists (t_date d.2), y. exact Hy.
Qed.

End Report.

(** C7, witness: an account without transactions exports nothing. *)
Lemma export_is_never_headers_only_witness :
  TransactionController.exportTransactionsPDF Sample.literalTest Sample.store
    (TransactionController.mkUser "u9" "Nobody" "nobody@example.org")
    (TransactionController.mkExportQuery None None None None) 5000 300
  = ([], Throw (AppError "No transactions found for the specified criteria"
                         404)).
Proof.
  apply (export_is_never_headers_only Sample.literalTest Sample.store
           (TransactionController.mkUser "u9" "Nobody" "nobody@example.org")
           (TransactionController.mkExportQuery None None None None) 5000 300).
  vm_compute. reflexivity.
Defined.

(** ** Creating and updating transactions *)

Section Writes.

Import TransactionModel TransactionController.

(** What a successful [incrementUsage] leaves: the category under [id] with
    one more use, every other category as it was. *)
Lemma incrementUsage_Ok cats id this now cats' :
  CategoryModel.incrementUsage cats id this now = Ok cats' ->
  cats' = <[id := {| c_name := c_name this;
                     c_type := c_type this;
                     c_userId := c_userId this;
                     c_isActive := c_isActive this;
                     c_isDefault := c_isDefault this;
                     c_usageCount := c_usageCount this + 1;
                     c_lastUsed := Some now;
                     c_parentCategory := c_parentCategory this |}]> cats.
Proof.
  unfold CategoryModel.incrementUsage. cbn [c_usageCount].
  destruct (throwIf _ _); cbn [bind]; [|discriminate].
  destruct (CategoryModel.preSave _ _); cbn [bind]; [|discriminate].
  intros E. injection E as <-. reflexivity.
Qed.

(** What a successful hook of a modified transaction has checked and done. *)
Lemma preSave_Ok cats now this cats' :
  preSave cats now true this = Ok cats' ->
  exists category category',
    cats !! t_category this = Some category
    /\ (c_type category = "both"%string \/ c_type category = t_type this)
    /\ cats' = <[t_category this := category']> cats
    /\ c_type category' = c_type category
    /\ c_isDefault category' = c_isDefault category
    /\ c_usageCount category' = c_usageCount category + 1.
Proof.
  unfold preSave, findById.
  destruct (cats !! t_category this) as [category|] eqn:Hc; [|discriminate].
  destruct (String.eqb_spec (c_type category) "both") as [Hb|Hb];
    destruct (String.eqb_spec (c_type category) (t_type this)) as [Ht|Ht];
    cbn [negb andb throwIf bind]; try discriminate;
    intros E; apply incrementUsage_Ok in E; subst cats';
    eexists _, _; (split; [reflexivity|]); (split; [auto|]);
    (split; [reflexivity|]); cbn; auto.
Qed.

(** What a successful [Transaction.create] has done to the store. *)
Lemma create_Ok st now newId userId d st' id t :
  create st now newId userId d = Ok (st', (id, t)) ->
  id = newId
  /\ d_category d = Some (t_category t)
  /\ transactions st !! id = None
  /\ transactions st' = <[id := t]> (transactions st)
  /\ exists category category',
      categories st !! t_category t = Some category
      /\ (c_type category = "both"%string \/ c_type category = t_type t)
      /\ categories st' = <[t_category t := category']> (categories st)
      /\ c_type category' = c_type category
      /\ c_isDefault category' = c_isDefault category
      /\ c_usageCount category' = c_usageCount category + 1.
Proof.
  unfold create.
  destruct (validateNew now userId d) as [this|] eqn:Hv; cbn [bind];
    [|discriminate].
  destruct (preSave (categories st) now true this) as [cats|] eqn:Hp;
    cbn [bind]; [|discriminate].
  destruct (transactions st !! newId) eqn:Hfresh; cbn [defined throwIf bind];
    [discriminate|].
  intros E. injection E as <- <- <-. cbn [categories transactions].
  split; [reflexivity|]. split.
  { revert Hv. unfold validateNew, requiredStr, required, whenTruthy.
    destruct (d_title d) as [title|]; cbn [Js.truthy_opt bind];
      [destruct (Js.truthy_str title)|]; cbn [bind]; try discriminate.
    destruct (d_amount d); cbn [bind]; [|discriminate].
    destruct (d_type d) as [type|]; cbn [Js.truthy_opt bind];
      [destruct (Js.truthy_str type)|]; cbn [bind]; try discriminate.
    destruct (d_category d) as [category|]; cbn [Js.truthy_opt bind];
      [destruct (Js.truthy_str category)|]; cbn [bind]; try discriminate.
    destruct (d_date d); cbn [bind]; [|discriminate].
    destruct (validatePaths now d); cbn [bind]; [|discriminate].
    intros E. injection E as <-. reflexivity. }
  split; [exact Hfresh|]. split; [reflexivity|].
  exact (preSave_Ok _ _ _ _ Hp).
Qed.

Lemma createTransaction_create st now newId userId body r :
  createTransaction st now newId userId body = Ok r ->
  create st now newId userId body = Ok r.
Proof.
  unfold createTransaction.
  destruct (findCategory st (d_category body)); [|discriminate].
  destruct (foreignCategory userId c); cbn [throwIf bind]; [discriminate|].
  auto.
Qed.

Lemma createTransactionFromOCR_create st now newId userId data r :
  OcrController.createTransactionFromOCR st now newId userId data = Ok r ->
  exists d, data = Some d /\ create st now newId userId d = Ok r.
Proof.
  unfold OcrController.createTransactionFromOCR.
  destruct data as [d|]; [|discriminate].
  destruct (_ || _); cbn [throwIf bind]; [discriminate|]. eauto.
Qed.


(** Creation keeps every transaction's type fit for its category. *)
Lemma create_typeCompatible st now newId userId d st' r :
  typeCompatible st ->
  create st now newId userId d = Ok (st', r) ->
  typeCompatible st'.
Proof.
  intros Hinv Hc. destruct r as [id t].
  apply create_Ok in Hc
    as (_ & _ & Hfresh & Htx & c & c' & Hl & Hfit & Hcats & Hty & _ & _).
  intros id0 t0 c0. rewrite Htx, Hcats. intros H0 Hc0.
  assert (exists c1, categories st !! t_category t0 = Some c1
                     /\ c_type c0 = c_type c1) as (c1 & Hc1 & E).
  { destruct (decide (t_category t = t_category t0)) as [Heq|Hne].
    - rewrite Heq, lookup_insert_eq in Hc0. injection Hc0 as <-.
      exists c. rewrite <- Heq. auto.
    - rewrite lookup_insert_ne in Hc0 by exact Hne. eauto. }
  rewrite E.
  destruct (decide (id = id0)) as [<-|Hne].
  - rewrite lookup_insert_eq in H0. injection H0 as <-.
    rewrite Hl in Hc1. injection Hc1 as <-. destruct Hfit; auto.
  - rewrite lookup_insert_ne in H0 by exact Hne.
    exact (Hinv _ _ _ H0 Hc1).
Qed.

End Writes.


(** X2: creation keeps every transaction's type fit for its category, from
    the form and from a receipt: the hook of [save] checks the new transaction,
    and [incrementUsage] leaves the type of the category. *)
Theorem creation_keeps_type_compatibility st now newId userId body st' r :
  typeCompatible st ->
  TransactionController.createTransaction st now newId userId body = Ok (st', r)
  \/ OcrController.createTransactionFromOCR st now newId userId (Some body)
     = Ok (st', r) ->
  typeCompatible st'.
Proof.
  intros Hinv [H|H].
  - apply createTransaction_create in H.
    exact (create_typeCompatible _ _ _ _ _ _ _ Hinv H).
  - apply createTransactionFromOCR_create in H as (d & E & H).
    injection E as <-. exact (create_typeCompatible _ _ _ _ _ _ _ Hinv H).
Qed.

(** In the two sample stores every transaction fits its category. *)
Lemma sample_stores_compatible :
  typeCompatible Sample.store /\ typeCompatible Sample.hobbyStore.
Proof.
  split.
  - intros id t c Ht Hc. unfold Sample.store in Ht. cbn [transactions] in Ht.
    apply lookup_insert_Some in Ht as [[<- <-]|[_ Ht]].
    { vm_compute in Hc. injection Hc as <-. right. reflexivity. }
    apply lookup_insert_Some in Ht as [[<- <-]|[_ Ht]].
    { vm_compute in Hc. injection Hc as <-. right. reflexivity. }
    rewrite lookup_empty in Ht. discriminate.
  - intros id t c Ht Hc. unfold Sample.hobbyStore in Ht.
    cbn [transactions] in Ht.
    apply lookup_insert_Some in Ht as [[<- <-]|[_ Ht]].
    { vm_compute in Hc. injection Hc as <-. right. reflexivity. }
    unfold Sample.store in Ht. cbn [transactions] in Ht.
    apply lookup_insert_Some in Ht as [[<- <-]|[_ Ht]].
    { vm_compute in Hc. injection Hc as <-. right. reflexivity. }
    apply lookup_insert_Some in Ht as [[<- <-]|[_ Ht]].
    { vm_compute in Hc. injection Hc as <-. right. reflexivity. }
    rewrite lookup_empty in Ht. discriminate.
Qed.

(** X2, witness: the book bought in the sample store leaves it compatible. *)
Lemma creation_keeps_type_compatibility_witness :
  typeCompatible Sample.afterBook.
Proof.
  apply (creation_keeps_type_compatibility Sample.store 5000 "t9" "u1"
           Sample.book Sample.afterBook ("t9"%string, Sample.bookSaved)).
  - exact (proj1 sample_stores_compatible).
  - left. vm_compute. reflexivity.
Defined.

(** C2, at two failing inputs. In the sample store every transaction fits
    its category. [updateTransaction] accepts the body that turns the lunch,
    filed under the expense category "Shopping", into an income: the update
    goes through [findByIdAndUpdate], which runs no [save] hook, and the
    stored transaction no longer fits. [updateCategory] accepts the body
    that turns the owner's "Hobbies" into an income category while an
    expense is filed under it. *)
Theorem updates_break_type_compatibility :
  typeCompatible Sample.store
  /\ typeCompatible Sample.hobbyStore
  /\ (exists st' t c,
         TransactionController.updateTransaction Sample.store 5000 "u1" "t1"
           Sample.lunchAsIncome = Ok (st', Some ("t1"%string, t))
         /\ transactions st' !! "t1"%string = Some t
         /\ categories st' !! t_category t = Some c
         /\ c_type c = "expense"%string /\ t_type t = "income"%string
         /\ ~ typeCompatible st')
  /\ (exists st' t c,
         CategoryController.updateCategory Sample.hobbyStore "u1" "c20"
           Sample.hobbiesAsIncome = Ok (st', ("c20"%string, c))
         /\ transactions st' !! "t3"%string = Some t
         /\ categories st' !! t_category t = Some c
         /\ c_type c = "income"%string /\ t_type t = "expense"%string
         /\ ~ typeCompatible st').
Proof.
  split; [exact (proj1 sample_stores_compatible)|].
  split; [exact (proj2 sample_stores_compatible)|]. split.
  - eexists _, _, _. split; [vm_compute; reflexivity|].
    split; [vm_compute; reflexivity|]. split; [vm_compute; reflexivity|].
    split; [reflexivity|]. split; [reflexivity|].
    intros H.
    destruct (H "t1"%string _ _ eq_refl eq_refl) as [E|E]; discriminate E.
  - eexists _, _, _. split; [vm_compute; reflexivity|].
    split; [vm_compute; reflexivity|]. split; [vm_compute; reflexivity|].
    split; [reflexivity|]. split; [reflexivity|].
    intros H.
    destruct (H "t3"%string _ _ eq_refl eq_refl) as [E|E]; discriminate E.
Qed.

(** ** Deleting categories *)

Section Deletes.

Import CategoryController.

Lemma ownedBy_true userId owner :
  ownedBy userId owner = true <-> owner = Some userId.
Proof.
  destruct owner as [o|]; simpl; [|split; discriminate].
  rewrite String.eqb_eq. split; congruence.
Qed.

(** C10: the two delete handlers remove no default category, whoever calls
    them and with whatever ids. The one category [deleteCategory] removes is
    owned by the caller and not a default; every category
    [bulkDeleteCategories] removes is one of the ids, owned by the caller and
    not a default; every category with [isDefault = true] is in the
    directory they return, as it was. A request they refuse returns no
    store. *)
Theorem deletes_keep_default_categories st userId :
  (forall id st',
      deleteCategory st userId id = Ok st' ->
      (exists category,
          categories st !! id = Some category
          /\ c_userId category = Some userId
          /\ c_isDefault category = false
          /\ categories st' = delete id (categories st))
      /\ forall cid c,
          categories st !! cid = Some c -> c_isDefault c = true ->
          categories st' !! cid = Some c)
  /\ (forall categoryIds st' deletedCount,
         bulkDeleteCategories st userId categoryIds = Ok (st', deletedCount) ->
         (forall cid c,
             categories st !! cid = Some c -> categories st' !! cid = None ->
             c_userId c = Some userId /\ c_isDefault c = false
             /\ exists ids, categoryIds = Some ids /\ In cid ids)
         /\ forall cid c,
             categories st !! cid = Some c -> c_isDefault c = true ->
             categories st' !! cid = Some c).
Proof.
  split.
  - intros id st'. unfold deleteCategory, findById.
    destruct (categories st !! id) as [category|] eqn:Hid; [|discriminate].
    destruct (negb (ownedBy userId (c_userId category)) || c_isDefault category)
      eqn:Hguard; cbn [throwIf bind]; [discriminate|].
    apply orb_false_iff in Hguard as [Hown Hdef].
    apply negb_false_iff, ownedBy_true in Hown.
    destruct (0 <? countDocuments _ (transactions st)); cbn [throwIf bind];
      [discriminate|].
    destruct (0 <? countDocuments _ (categories st)); cbn [throwIf bind];
      [discriminate|].
    intros E. injection E as <-. cbn [categories]. split; [eauto|].
    intros cid c Hc Hc_def.
    rewrite lookup_delete_ne; [exact Hc|].
    intros <-. rewrite Hc in Hid. injection Hid as <-. congruence.
  - intros categoryIds st' deletedCount. unfold bulkDeleteCategories.
    destruct categoryIds as [[|id ids]|]; try discriminate.
    destruct (negb _); cbn [throwIf bind]; [discriminate|].
    destruct (0 <? _); cbn [throwIf bind]; [discriminate|].
    unfold deleteMany. intros E. injection E as <- _. cbn [categories].
    split.
    + intros cid c Hc Hgone.
      destruct (ownCustomIn userId (id :: ids) (cid, c)) eqn:F.
      * unfold ownCustomIn in F. cbn [fst snd] in F.
        apply andb_true_iff in F as [F Hdef].
        apply andb_true_iff in F as [Hin Hown].
        apply ownedBy_true in Hown. apply negb_true_iff in Hdef.
        split; [exact Hown|]. split; [exact Hdef|].
        exists (id :: ids). split; [reflexivity|].
        apply existsb_exists in Hin as (x & Hx & E).
        apply String.eqb_eq in E. subst x. exact Hx.
      * assert (base.filter (fun d : Doc Category =>
                               ownCustomIn userId (id :: ids) d = false)
                  (categories st) !! cid = Some c) as Hkept
          by (apply map_lookup_filter_Some; auto).
        rewrite Hkept in Hgone. discriminate.
    + intros cid c Hc Hdef.
      apply map_lookup_filter_Some. split; [exact Hc|].
      unfold ownCustomIn. cbn [fst snd]. rewrite Hdef, andb_false_r.
      reflexivity.
Qed.

End Deletes.

(** C10, witness: the owner of "Hobbies" deletes it from the sample store,
    alone and in bulk; "Other Expense" stays. *)
Lemma deletes_keep_default_categories_witness :
  CategoryController.deleteCategory Sample.store "u1" "c20"
  = Ok {| categories := delete "c20"%string Sample.directory;
          transactions := transactions Sample.store |}
  /\ delete "c20"%string Sample.directory !! "c14"%string
     = Some Sample.otherExpense.
Proof.
  assert (CategoryController.deleteCategory Sample.store "u1" "c20"
          = Ok {| categories := delete "c20"%string Sample.directory;
                  transactions := transactions Sample.store |}) as E
    by (vm_compute; reflexivity).
  split; [exact E|].
  apply (proj2 (proj1 (deletes_keep_default_categories Sample.store "u1")
                  "c20"%string _ E) "c14"%string Sample.otherExpense).
  - vm_compute. reflexivity.
  - reflexivity.
Defined.

(** The same deletion in bulk, and what the handlers refuse. *)
Example delete_hobbies :
  CategoryController.bulkDeleteCategories Sample.store "u1"
    (Some ["c20"%string])
  = Ok ({| categories := delete "c20"%string Sample.directory;
           transactions := transactions Sample.store |}, 1)
  /\ CategoryController.deleteCategory Sample.store "u1" "c14"
     = Throw (AppError "You can only delete your own custom categories" 403)
  /\ CategoryController.bulkDeleteCategories Sample.store "u1"
       (Some ["c14"%string])
     = Throw (AppError "Some categories not found or cannot be deleted" 400)
  /\ CategoryController.deleteCategory Sample.hobbyStore "u1" "c20"
     = Throw (AppError
                "Cannot delete category. It is being used in 1 transaction(s)"
                400).
Proof. vm_compute. auto. Qed.

(** ** Further properties of the handlers *)

Section Further.

Import TransactionModel TransactionController.

Variable regexTest : string -> string -> bool.

Lemma nonZeroDouble_truthy n :
  nonZeroDouble n = true -> Js.truthy_num n = true.
Proof.
  destruct n as [| | |q]; cbn [nonZeroDouble Js.truthy_num];
    [discriminate|reflexivity|reflexivity|].
  intros H. apply negb_true_iff, not_true_is_false. intros Z.
  apply Qeq_bool_iff in Z.
  assert (0 < 1 # 2 ^ 1074)%Q as P by reflexivity.
  apply orb_true_iff in H as [H|H]; apply Qle_bool_iff in H; rewrite Z in H.
  - exact (Qlt_not_le _ _ P H).
  - apply Qopp_le_compat in H. rewrite Qopp_involutive in H.
    exact (Qlt_not_le _ _ P H).
Qed.

(** X1: where every amount bound that the request gives reads as a number of
    magnitude at least 2^-1074 (not as [NaN], and not as [0], be it after
    rounding to a double), the count of [getTransactions] is the length of
    the list [getUserTransactions] returns for the same request without a
    limit. *)
Theorem count_is_length_without_zero_bounds st userId rq :
  (forall s, rq_minAmount rq = Some s -> Js.truthy_str s = true ->
             nonZeroDouble (Js.parseFloat s) = true) ->
  (forall s, rq_maxAmount rq = Some s -> Js.truthy_str s = true ->
             nonZeroDouble (Js.parseFloat s) = true) ->
  exists found,
    getUserTransactions regexTest (transactions st) userId
      (unlimited (listOptions rq)) = Ok found
    /\ countDocuments (matches regexTest (countQuery userId rq))
         (transactions st)
       = Z.of_nat (length found).
Proof.
  intros Hlo Hhi.
  rewrite (countQuery_buildQuery userId rq
             (fun s E T => nonZeroDouble_truthy _ (Hlo s E T))
             (fun s E T => nonZeroDouble_truthy _ (Hhi s E T))).
  unfold getUserTransactions, execFind, countDocuments.
  assert (buildQuery userId (unlimited (listOptions rq))
          = buildQuery userId (listOptions rq)) as ->
    by (destruct rq; reflexivity).
  assert (o_limit (unlimited (listOptions rq)) = Some 0) as ->
    by (destruct rq; reflexivity).
  change (default 10 (Some 0)) with 0. rewrite Z.mul_0_r.
  change (0 <? 0) with false. cbn [throwIf bind].
  eexists. split; [reflexivity|].
  unfold limitDocs. change (0 =? 0) with true. cbv iota.
  change (Z.to_nat 0) with 0%nat.
  rewrite drop_0, (Permutation_length (sortDocs_perm _ _)). reflexivity.
Qed.

(** X4: a transaction that was created has an amount of at least 0.01, a type
    that is income or expense, and a date that is not after the time of the
    request. *)
Theorem created_transaction_is_valid st now newId userId body st' id t :
  createTransaction st now newId userId body = Ok (st', (id, t)) ->
  (1 # 100 <= t_amount t)%Q
  /\ (t_type t = "income"%string \/ t_type t = "expense"%string)
  /\ t_date t <= now
  /\ t_userId t = userId.
Proof.
  intros H. apply createTransaction_create in H. unfold create in H.
  destruct (validateNew now userId body) as [this|] eqn:Hv; cbn [bind] in H;
    [|discriminate].
  destruct (preSave _ _ _ _); cbn [bind] in H; [|discriminate].
  destruct (throwIf _ _); cbn [bind] in H; [|discriminate].
  injection H as _ _ <-.
  revert Hv.
  unfold validateNew, validatePaths, requiredStr, required, whenTruthy.
  destruct (d_title body) as [title|]; cbn [Js.truthy_opt bind];
    [destruct (Js.truthy_str title)|]; cbn [bind]; try discriminate.
  destruct (d_amount body) as [amount|]; cbn [bind]; [|discriminate].
  destruct (d_type body) as [type|]; cbn [Js.truthy_opt bind];
    [destruct (Js.truthy_str type)|]; cbn [bind]; try discriminate.
  destruct (d_category body) as [category|]; cbn [Js.truthy_opt bind];
    [destruct (Js.truthy_str category)|]; cbn [bind]; try discriminate.
  destruct (d_date body) as [date|]; cbn [bind]; [|discriminate].
  cbn [holds].
  destruct (maxlength 100 title); cbn [negb throwIf bind]; [|discriminate].
  destruct (holds (maxlength 500) _); cbn [negb throwIf bind]; [|discriminate].
  destruct (Qle_bool (1 # 100) amount) eqn:Hamount; cbn [negb throwIf bind];
    [|discriminate].
  destruct (isIn type ["income"%string; "expense"%string]) eqn:Htype;
    cbn [negb throwIf bind]; [|discriminate].
  destruct (Z.leb_spec date now) as [Hdate|_]; cbn [negb throwIf bind];
    [|discriminate].
  destruct (throwIf _ _); cbn [bind]; [|discriminate].
  destruct (throwIf _ _); cbn [bind]; [|discriminate].
  destruct (throwIf _ _); cbn [bind]; [|discriminate].
  intros E. injection E as <-. cbn [t_amount t_type t_date t_userId].
  split; [apply Qle_bool_iff; exact Hamount|]. split; [|auto].
  unfold isIn in Htype. cbn [existsb] in Htype.
  destruct (String.eqb_spec type "income"); [auto|].
  destruct (String.eqb_spec type "expense"); [auto|discriminate].
Qed.

End Further.

Section FurtherDeletes.

Import CategoryController.

(** X5: a category of the caller that a transaction references is not deleted:
    [deleteCategory] throws a 400 error that reports how many transactions
    use it, and the same holds for the subcategories it has. *)
Theorem delete_of_used_category_fails st userId (id : ObjectId) category :
  categories st !! id = Some category ->
  c_userId category = Some userId ->
  c_isDefault category = false ->
  0 < countDocuments (fun t : Doc Transaction => String.eqb (t_category t.2) id)
        (transactions st) ->
  deleteCategory st userId id
  = Throw (AppError
             ("Cannot delete category. It is being used in "
              ++ pretty (countDocuments
                           (fun t : Doc Transaction =>
                              String.eqb (t_category t.2) id)
                           (transactions st))
              ++ " transaction(s)")
             400).
Proof.
  intros Hc Hown Hdef Hused. unfold deleteCategory, findById.
  rewrite Hc, Hown, Hdef. cbn [ownedBy]. rewrite String.eqb_refl.
  cbn [negb orb throwIf bind].
  destruct (Z.ltb_spec 0 (countDocuments
                            (fun t : Doc Transaction =>
                               String.eqb (t_category t.2) id)
                            (transactions st))); [reflexivity|lia].
Qed.

End FurtherDeletes.

(** X1, witness: the sample store, with an upper bound of 100. *)
Lemma count_is_length_without_zero_bounds_witness :
  exists found,
    TransactionModel.getUserTransactions Sample.literalTest
      (transactions Sample.store) "u1"
      (unlimited (TransactionController.listOptions
                    (withMaxAmountText (Some "100"%string) Sample.noFilter)))
    = Ok found
    /\ countDocuments
         (TransactionModel.matches Sample.literalTest
            (TransactionController.countQuery "u1"
               (withMaxAmountText (Some "100"%string) Sample.noFilter)))
         (transactions Sample.store)
       = Z.of_nat (length found).
Proof.
  apply (count_is_length_without_zero_bounds Sample.literalTest Sample.store
           "u1" (withMaxAmountText (Some "100"%string) Sample.noFilter)).
  - intros s E. discriminate E.
  - intros s E _. injection E as <-. vm_compute. reflexivity.
Defined.

(** X4, witness: the book bought in the sample store. *)
Lemma created_transaction_is_valid_witness :
  (1 # 100 <= t_amount Sample.bookSaved)%Q
  /\ (t_type Sample.bookSaved = "income"%string
      \/ t_type Sample.bookSaved = "expense"%string)
  /\ t_date Sample.bookSaved <= 5000
  /\ t_userId Sample.bookSaved = "u1"%string.
Proof.
  apply (created_transaction_is_valid Sample.store 5000 "t9" "u1" Sample.book
           Sample.afterBook "t9" Sample.bookSaved).
  vm_compute. reflexivity.
Defined.

(** X5, witness: "Hobbies" with the paint filed under it. *)
Lemma delete_of_used_category_fails_witness :
  CategoryController.deleteCategory Sample.hobbyStore "u1" "c20"
  = Throw (AppError
             "Cannot delete category. It is being used in 1 transaction(s)"
             400).
Proof.
  apply (delete_of_used_category_fails Sample.hobbyStore "u1" "c20"
           Sample.hobbies).
  - vm_compute. reflexivity.
  - reflexivity.
  - reflexivity.
  - vm_compute. reflexivity.
Defined.

(** ** Sorting *)

Section Sorting.

Context {A : Type} (le : A -> A -> bool).

Lemma insertBy_perm x l : Cursor.insertBy le x l ≡ₚ x :: l.
Proof.
  induction l as [|y r IH]; cbn; [reflexivity|].
  destruct (le x y); [reflexivity|].
  rewrite IH. apply Permutation_swap.
Qed.

Lemma sortBy_perm l : Cursor.sortBy le l ≡ₚ l.
Proof.
  induction l as [|x r IH]; cbn; [reflexivity|].
  rewrite insertBy_perm. f_equiv. exact IH.
Qed.

Lemma elem_of_sortBy x l : x ∈ Cursor.sortBy le l <-> x ∈ l.
Proof. rewrite sortBy_perm. reflexivity. Qed.

Hypothesis le_total : forall a b, le a b = false -> le b a = true.
Hypothesis le_trans :
  forall a b c, le a b = true -> le b c = true -> le a c = true.

Lemma insertBy_sorted x l :
  sortedBy le l -> sortedBy le (Cursor.insertBy le x l).
Proof.
  induction l as [|y r IH]; cbn.
  - intros _. split; [|exact I]. intros y Hy. inversion Hy.
  - intros [Hy Hr]. destruct (le x y) eqn:E; cbn.
    + split; [|split; assumption].
      intros z Hz. apply elem_of_cons in Hz as [->|Hz]; [exact E|].
      apply (le_trans _ y); [exact E|]. apply Hy, Hz.
    + split; [|apply IH, Hr].
      intros z Hz. rewrite insertBy_perm in Hz.
      apply elem_of_cons in Hz as [->|Hz]; [apply le_total, E|apply Hy, Hz].
Qed.

Lemma sortBy_sorted l : sortedBy le (Cursor.sortBy le l).
Proof.
  induction l as [|x r IH]; cbn; [exact I|]. apply insertBy_sorted, IH.
Qed.

Lemma sortedBy_lookup l i j a b :
  sortedBy le l -> (i < j)%nat -> l !! i = Some a -> l !! j = Some b ->
  le a b = true.
Proof.
  revert i j. induction l as [|x r IH]; intros i j Hs Hij Ha Hb.
  - rewrite lookup_nil in Ha. discriminate.
  - destruct Hs as [Hx Hr]. destruct j as [|j]; [lia|].
    cbn in Hb. destruct i as [|i].
    + cbn in Ha. injection Ha as ->. apply Hx.
      apply list_elem_of_lookup. eauto.
    + cbn in Ha. apply (IH i j); [exact Hr|lia|exact Ha|exact Hb].
Qed.

Lemma sortedBy_take n l : sortedBy le l -> sortedBy le (take n l).
Proof.
  revert n. induction l as [|x r IH]; intros [|n]; cbn; try tauto.
  intros [Hx Hr]. split; [|apply IH, Hr].
  intros y Hy. apply Hx. eapply elem_of_sublist; [exact Hy|].
  apply sublist_take.
Qed.

End Sorting.

(** ** The orders of the category listings *)

Lemma string_compare_refl s : (s ?= s)%string = Eq.
Proof.
  induction s as [|a s IH]; cbn; [reflexivity|].
  unfold Ascii.compare. rewrite N.compare_refl. exact IH.
Qed.

Lemma string_compare_Lt_trans s1 s2 s3 :
  (s1 ?= s2)%string = Lt -> (s2 ?= s3)%string = Lt -> (s1 ?= s3)%string = Lt.
Proof.
  revert s2 s3. induction s1 as [|a s1 IH]; intros [|b s2] [|c s3]; cbn;
    try congruence.
  unfold Ascii.compare.
  destruct (N.compare_spec (N_of_ascii a) (N_of_ascii b)) as [E1|L1|G1];
    destruct (N.compare_spec (N_of_ascii b) (N_of_ascii c)) as [E2|L2|G2];
    try congruence; intros H1 H2.
  - rewrite E1, E2, N.compare_refl. eapply IH; eassumption.
  - rewrite E1. apply N.compare_lt_iff in L2. rewrite L2. reflexivity.
  - rewrite <- E2. apply N.compare_lt_iff in L1. rewrite L1. reflexivity.
  - assert (N_of_ascii a < N_of_ascii c)%N as L by lia.
    apply N.compare_lt_iff in L. rewrite L. reflexivity.
Qed.

Lemma string_leb_total s1 s2 :
  String.leb s1 s2 = false -> String.leb s2 s1 = true.
Proof.
  unfold String.leb. rewrite (String.compare_antisym s1 s2).
  destruct (s2 ?= s1)%string; cbn; congruence.
Qed.

Lemma string_leb_trans s1 s2 s3 :
  String.leb s1 s2 = true -> String.leb s2 s3 = true ->
  String.leb s1 s3 = true.
Proof.
  unfold String.leb.
  destruct (s1 ?= s2)%string eqn:E1; try discriminate;
    destruct (s2 ?= s3)%string eqn:E2; try discriminate; intros _ _.
  - apply String.compare_eq_iff in E1, E2. subst.
    rewrite string_compare_refl. reflexivity.
  - apply String.compare_eq_iff in E1. subst. rewrite E2. reflexivity.
  - apply String.compare_eq_iff in E2. subst. rewrite E1. reflexivity.
  - rewrite (string_compare_Lt_trans _ _ _ E1 E2). reflexivity.
Qed.

Lemma byUsageThenName_spec a b :
  CategoryQueries.byUsageThenName a b = true <->
  c_usageCount b.2 < c_usageCount a.2 \/
  (c_usageCount a.2 = c_usageCount b.2 /\
   String.leb (c_name a.2) (c_name b.2) = true).
Proof.
  unfold CategoryQueries.byUsageThenName, String.leb.
  destruct (Z.compare_spec (c_usageCount a.2) (c_usageCount b.2)) as [E|L|G].
  - rewrite E.
    destruct (c_name a.2 ?= c_name b.2)%string; split; intros H;
      try discriminate; try (right; split; reflexivity); try reflexivity;
      destruct H as [H|[_ H]]; try lia; discriminate.
  - split; [discriminate|]. intros [H|[H _]]; lia.
  - split; [intros _; left; lia|reflexivity].
Qed.

Lemma byUsageThenName_total a b :
  CategoryQueries.byUsageThenName a b = false ->
  CategoryQueries.byUsageThenName b a = true.
Proof.
  intros H. apply byUsageThenName_spec.
  destruct (Z.lt_trichotomy (c_usageCount a.2) (c_usageCount b.2))
    as [L|[E|G]]; [left; exact L| |].
  - right. split; [congruence|]. apply string_leb_total.
    destruct (String.leb (c_name a.2) (c_name b.2)) eqn:F; [|reflexivity].
    assert (CategoryQueries.byUsageThenName a b = true) as T
      by (apply byUsageThenName_spec; right; split; assumption).
    congruence.
  - assert (CategoryQueries.byUsageThenName a b = true) as T
      by (apply byUsageThenName_spec; left; lia).
    congruence.
Qed.

Lemma byUsageThenName_trans a b c :
  CategoryQueries.byUsageThenName a b = true ->
  CategoryQueries.byUsageThenName b c = true ->
  CategoryQueries.byUsageThenName a c = true.
Proof.
  rewrite !byUsageThenName_spec.
  intros [L1|[E1 N1]] [L2|[E2 N2]]; try (left; lia).
  right. split; [congruence|]. eapply string_leb_trans; eassumption.
Qed.

Lemma byUsage_spec a b :
  CategoryQueries.byUsage a b = true <->
  c_usageCount b.2 <= c_usageCount a.2.
Proof.
  unfold CategoryQueries.byUsage.
  destruct (Z.compare_spec (c_usageCount a.2) (c_usageCount b.2));
    split; intros; try reflexivity; try lia; discriminate.
Qed.

Lemma byUsage_total a b :
  CategoryQueries.byUsage a b = false -> CategoryQueries.byUsage b a = true.
Proof.
  intros H. apply byUsage_spec.
  destruct (Z.le_gt_cases (c_usageCount b.2) (c_usageCount a.2)) as [L|G];
    [|lia].
  apply byUsage_spec in L. congruence.
Qed.

Lemma byUsage_trans a b c :
  CategoryQueries.byUsage a b = true -> CategoryQueries.byUsage b c = true ->
  CategoryQueries.byUsage a c = true.
Proof. rewrite !byUsage_spec. lia. Qed.

(** ** The category listing *)

Lemma ownedBy_iff userId owner :
  ownedBy userId owner = true <-> owner = Some userId.
Proof.
  destruct owner as [o|]; cbn; [|split; discriminate].
  rewrite String.eqb_eq. split; congruence.
Qed.

Lemma visibleTo_iff userId c :
  ownedBy userId (c_userId c) || c_isDefault c = true <-> visibleTo userId c.
Proof.
  unfold visibleTo. rewrite orb_true_iff, ownedBy_iff. reflexivity.
Qed.

Lemma userCategoriesQuery_iff userId type id c :
  CategoryQueries.userCategoriesQuery userId type (id, c) = true <->
  c_isActive c = true /\ visibleTo userId c /\ typeAdmits type c.
Proof.
  unfold CategoryQueries.userCategoriesQuery, typeAdmits. cbn [snd].
  rewrite !andb_true_iff, visibleTo_iff.
  split.
  - intros [[V Act] T]. split; [exact Act|]. split; [exact V|].
    intros t -> Ht Hb.
    destruct t as [|a t]; [congruence|]. cbn [Js.truthy_str andb] in T.
    destruct (String.eqb_spec (String a t) "both"); [congruence|].
    cbn [negb] in T. apply orb_true_iff in T as [T|T];
      apply String.eqb_eq in T; auto.
  - intros (Act & V & T). split; [split; assumption|].
    destruct type as [t|]; [|reflexivity].
    destruct t as [|a t]; [reflexivity|]. cbn [Js.truthy_str andb].
    destruct (String.eqb_spec (String a t) "both") as [E|N]; [reflexivity|].
    cbn [negb]. apply orb_true_iff.
    destruct (T _ eq_refl) as [E|E]; [discriminate|exact N| |];
      rewrite <- String.eqb_eq in E; auto.
Qed.

Lemma listed_iff cats userId type (id : ObjectId) c :
  (id, c) ∈ CategoryQueries.getUserCategories cats userId type <->
  cats !! id = Some c /\ c_isActive c = true /\ visibleTo userId c /\
  typeAdmits type c.
Proof.
  unfold CategoryQueries.getUserCategories.
  rewrite elem_of_sortBy, find_elem, userCategoriesQuery_iff. reflexivity.
Qed.

(** X6. The category listing shows exactly the active categories that the
    user owns or that are defaults, narrowed to the asked type (a category
    of type [both] passes every type filter): nobody else's category and no
    archived one is listed, and none of the others is left out. *)
Theorem category_listing_is_exact cats userId type (id : ObjectId) c :
  (id, c) ∈ CategoryQueries.getUserCategories cats userId type <->
  cats !! id = Some c /\ c_isActive c = true /\ visibleTo userId c /\
  typeAdmits type c.
Proof.
  unfold CategoryQueries.getUserCategories.
  rewrite elem_of_sortBy, find_elem. cbn [snd].
  rewrite userCategoriesQuery_iff. reflexivity.
Qed.

(** X7. The category listing is ordered: a category listed before another
    was used at least as often, and of two that were used equally often the
    one listed first has the smaller or the same name. *)
Theorem category_listing_is_ordered cats userId type i j a b :
  (i < j)%nat ->
  CategoryQueries.getUserCategories cats userId type !! i = Some a ->
  CategoryQueries.getUserCategories cats userId type !! j = Some b ->
  c_usageCount b.2 <= c_usageCount a.2 /\
  (c_usageCount a.2 = c_usageCount b.2 ->
   String.leb (c_name a.2) (c_name b.2) = true).
Proof.
  intros Hij Ha Hb.
  assert (CategoryQueries.byUsageThenName a b = true) as H.
  { eapply (sortedBy_lookup _ _ i j); [|exact Hij|exact Ha|exact Hb].
    apply sortBy_sorted;
      [exact byUsageThenName_total|exact byUsageThenName_trans]. }
  apply byUsageThenName_spec in H as [L|[E N]].
  - split; [lia|]. intros E. lia.
  - split; [lia|]. intros _. exact N.
Qed.

(** ** Seeding the default categories *)

Section Seeding.

Import CategoryQueries.

Lemma indexTaken_false name userId cats :
  indexTaken name userId cats = false <->
  forall id c, cats !! id = Some c ->
    c_name c = name -> c_userId c = userId -> False.
Proof.
  unfold indexTaken.
  destruct (findOne _ cats) as [[id c]|] eqn:E; cbn [defined].
  - split; [discriminate|]. intros H. exfalso.
    apply findOne_Some in E as [Hl F]. cbn [fst snd] in Hl, F.
    apply andb_true_iff in F as [N U].
    apply String.eqb_eq in N. apply bool_decide_eq_true in U.
    exact (H _ _ Hl N U).
  - split; [|reflexivity]. intros _ id c Hl N U.
    pose proof (proj1 (findOne_None _ _) E _ _ Hl) as F. cbn [snd] in F.
    apply andb_false_iff in F as [F|F].
    + apply String.eqb_neq in F. congruence.
    + apply bool_decide_eq_false in F. congruence.
Qed.

Lemma insertOne_Ok id doc cats cats' :
  insertOne id doc cats = Ok cats' ->
  cats !! id = None /\ cats' = <[id := doc]> cats /\
  indexTaken (c_name doc) (c_userId doc) cats = false.
Proof.
  unfold insertOne, bind, throwIf.
  destruct (cats !! id) eqn:L; cbn [defined orb]; [discriminate|].
  destruct (indexTaken _ _ cats); [discriminate|].
  intros [= <-]. auto.
Qed.

Lemma insertOne_fresh id doc cats :
  cats !! id = None ->
  indexTaken (c_name doc) (c_userId doc) cats = false ->
  insertOne id doc cats = Ok (<[id := doc]> cats).
Proof.
  intros L T. unfold insertOne, bind, throwIf. rewrite L, T. reflexivity.
Qed.

Lemma insertMany_keeps docs newId n cats (id : ObjectId) c :
  cats !! id = Some c -> (insertMany docs newId n cats).1 !! id = Some c.
Proof.
  revert n cats. induction docs as [|doc rest IH]; intros n cats L; cbn;
    [exact L|].
  destruct (insertOne (newId n) doc cats) as [cats'|e] eqn:E; [|exact L].
  apply insertOne_Ok in E as (F & -> & _). apply IH.
  rewrite lookup_insert_ne; [exact L|]. congruence.
Qed.

(** The run inserts every document when the generated ids are new and
    distinct and no document collides on the unique index, neither with a
    stored one nor with an earlier one of the run. *)
Lemma insertMany_all docs newId n cats :
  (forall i, (i < length docs)%nat -> cats !! newId (n + i)%nat = None) ->
  (forall i j, (i < length docs)%nat -> (j < length docs)%nat ->
     newId (n + i)%nat = newId (n + j)%nat -> i = j) ->
  (forall d, d ∈ docs -> indexTaken (c_name d) (c_userId d) cats = false) ->
  NoDup ((fun d => (c_name d, c_userId d)) <$> docs) ->
  (insertMany docs newId n cats).2 = Ok tt /\
  (forall i d, docs !! i = Some d ->
     (insertMany docs newId n cats).1 !! newId (n + i)%nat = Some d) /\
  (forall id, (forall i, (i < length docs)%nat -> id <> newId (n + i)%nat) ->
     (insertMany docs newId n cats).1 !! id = cats !! id).
Proof.
  revert n cats. induction docs as [|doc rest IH]; intros n cats Hf Hi Ht Hn.
  - cbn. split; [reflexivity|]. split; [|reflexivity].
    intros i d H. rewrite lookup_nil in H. discriminate.
  - cbn [insertMany].
    rewrite insertOne_fresh.
    2:{ specialize (Hf 0%nat). rewrite Nat.add_0_r in Hf. apply Hf. cbn. lia. }
    2:{ apply Ht. left. }
    cbn [fmap list_fmap] in Hn. apply NoDup_cons in Hn as [Hd Hn].
    destruct (IH (S n) (<[newId n := doc]> cats)) as (R & In & Out).
    + intros i Hl. rewrite lookup_insert_ne.
      * replace (S n + i)%nat with (n + S i)%nat by lia. apply Hf. cbn. lia.
      * intros E. replace n with (n + 0)%nat in E at 1 by lia.
        replace (S n + i)%nat with (n + S i)%nat in E by lia.
        apply Hi in E; cbn; lia.
    + intros i j Hl Hj E.
      replace (S n + i)%nat with (n + S i)%nat in E by lia.
      replace (S n + j)%nat with (n + S j)%nat in E by lia.
      apply Hi in E; cbn; lia.
    + intros d Hin. apply indexTaken_false. intros id c L N U.
      destruct (decide (id = newId n)) as [->|Ne].
      * rewrite lookup_insert_eq in L. injection L as <-.
        apply Hd. apply list_elem_of_fmap. exists d.
        split; [|exact Hin]. congruence.
      * rewrite lookup_insert_ne in L by congruence.
        assert (indexTaken (c_name d) (c_userId d) cats = false) as F
          by (apply Ht; right; exact Hin).
        exact (proj1 (indexTaken_false _ _ _) F _ _ L N U).
    + exact Hn.
    + split; [exact R|]. split.
      * intros [|i] d L; cbn in L.
        -- injection L as <-. rewrite Nat.add_0_r.
           apply insertMany_keeps. apply lookup_insert_eq.
        -- replace (n + S i)%nat with (S n + i)%nat by lia. apply In, L.
      * intros id Hid. rewrite Out.
        -- apply lookup_insert_ne. specialize (Hid 0%nat).
           rewrite Nat.add_0_r in Hid. intros E. apply Hid; [cbn; lia|].
           congruence.
        -- intros i Hl. replace (S n + i)%nat with (n + S i)%nat by lia.
           apply Hid. cbn. lia.
Qed.

Lemma countDocuments_zero {A} (filter : Doc A -> bool)
  (coll : gmap ObjectId A) :
  countDocuments filter coll = 0 <->
  forall id a, coll !! id = Some a -> filter (id, a) = false.
Proof.
  unfold countDocuments. rewrite <- find_nil.
  destruct (find filter coll); cbn; split; intros; try reflexivity;
    try discriminate; lia.
Qed.

Lemma defaultCategories_index_NoDup :
  NoDup ((fun d => (c_name d, c_userId d)) <$> defaultCategories).
Proof.
  apply (proj1 (bool_decide_spec (NoDup
     ((fun d => (c_name d, c_userId d)) <$> defaultCategories)))).
  vm_compute. reflexivity.
Qed.

Lemma defaultCategories_seeded d :
  d ∈ defaultCategories ->
  c_userId d = None /\ c_isDefault d = true /\ c_isActive d = true /\
  c_parentCategory d = None.
Proof.
  unfold defaultCategories. rewrite !elem_of_cons.
  intros H. repeat destruct H as [->|H]; auto. inversion H.
Qed.

(** X8. Seeding the default categories never removes or changes a stored
    category, whatever ids it generates and whether it inserts or not. *)
Theorem seeding_keeps_stored_categories cats newId (id : ObjectId) c :
  cats !! id = Some c ->
  createDefaultCategories cats newId !! id = Some c.
Proof.
  intros L. unfold createDefaultCategories.
  destruct (countDocuments _ cats =? 0); [|exact L].
  apply insertMany_keeps, L.
Qed.

(** What seeding leaves in a collection that holds no default and no
    category without an owner, when the generated ids are new. *)
Lemma seeded_lookup cats newId :
  (forall id c, cats !! id = Some c -> c_isDefault c = false) ->
  (forall id c, cats !! id = Some c -> is_Some (c_userId c)) ->
  (forall i, (i < 14)%nat -> cats !! newId i = None) ->
  (forall i j, (i < 14)%nat -> (j < 14)%nat -> newId i = newId j -> i = j) ->
  (forall i d, defaultCategories !! i = Some d ->
     createDefaultCategories cats newId !! newId i = Some d) /\
  (forall id, (forall i, (i < 14)%nat -> id <> newId i) ->
     createDefaultCategories cats newId !! id = cats !! id).
Proof.
  intros Hd Ho Hf Hi. unfold createDefaultCategories.
  replace (countDocuments _ cats =? 0) with true.
  2:{ symmetry. apply Z.eqb_eq, countDocuments_zero.
      intros id c L. cbn. eauto. }
  destruct (insertMany_all defaultCategories newId 0 cats) as (_ & In & Out).
  - exact Hf.
  - exact Hi.
  - intros d Hin. apply indexTaken_false. intros id c L _ U.
    destruct (Ho _ _ L) as [o Eo].
    destruct (defaultCategories_seeded _ Hin) as (N & _). congruence.
  - exact defaultCategories_index_NoDup.
  - split; [exact In|exact Out].
Qed.

(** X9. In a collection without default categories and without ownerless
    ones, seeding with new ids stores each of the fourteen defaults under
    its id, as an active default without owner, and stores nothing else;
    a second seeding then changes nothing. *)
Theorem seeding_installs_the_defaults cats newId newId' :
  (forall id c, cats !! id = Some c -> c_isDefault c = false) ->
  (forall id c, cats !! id = Some c -> is_Some (c_userId c)) ->
  (forall i, (i < 14)%nat -> cats !! newId i = None) ->
  (forall i j, (i < 14)%nat -> (j < 14)%nat -> newId i = newId j -> i = j) ->
  (forall i d, defaultCategories !! i = Some d ->
     createDefaultCategories cats newId !! newId i = Some d /\
     c_userId d = None /\ c_isDefault d = true /\ c_isActive d = true) /\
  (forall id, (forall i, (i < 14)%nat -> id <> newId i) ->
     createDefaultCategories cats newId !! id = cats !! id) /\
  createDefaultCategories (createDefaultCategories cats newId) newId'
  = createDefaultCategories cats newId.
Proof.
  intros Hd Ho Hf Hi.
  destruct (seeded_lookup cats newId Hd Ho Hf Hi) as [In Out].
  split; [|split; [exact Out|]].
  - intros i d L. split; [apply In, L|].
    destruct (defaultCategories_seeded d) as (U & D & Act & _);
      [apply list_elem_of_lookup; eauto|auto].
  - unfold createDefaultCategories at 1.
    destruct (countDocuments _ (createDefaultCategories cats newId) =? 0)
      eqn:E; [|reflexivity].
    exfalso. apply Z.eqb_eq in E.
    pose proof (proj1 (countDocuments_zero _ _) E (newId 0%nat)
                  (seed "Salary" "income") (In 0%nat _ eq_refl)) as F.
    discriminate.
Qed.

(** X10. After such a seeding every receipt with a merchant name gets a
    category suggestion, for every user: the answer is never [null]. *)
Theorem suggestion_after_seeding_is_not_null cats newId userId merchantName :
  (forall id c, cats !! id = Some c -> c_isDefault c = false) ->
  (forall id c, cats !! id = Some c -> is_Some (c_userId c)) ->
  (forall i, (i < 14)%nat -> cats !! newId i = None) ->
  (forall i j, (i < 14)%nat -> (j < 14)%nat -> newId i = newId j -> i = j) ->
  merchantName <> EmptyString ->
  exists category,
    OcrController.suggestCategoryFromMerchant
      (createDefaultCategories cats newId) userId (Some merchantName)
    = Some category.
Proof.
  intros Hd Ho Hf Hi Hm.
  destruct (seeded_lookup cats newId Hd Ho Hf Hi) as [In _].
  unfold OcrController.suggestCategoryFromMerchant.
  destruct merchantName as [|a m]; [congruence|].
  cbn [Js.truthy_opt Js.truthy_str negb].
  destruct (OcrController.tryEntries _ _ _ _) as [d|]; [eauto|].
  apply (findOne_is_Some _ _ (newId 13%nat) (seed "Other Expense" "expense")).
  - apply In. reflexivity.
  - reflexivity.
Qed.

End Seeding.

(** ** Creating, archiving and reading categories *)

Section Categories.

Import CategoryQueries CategoryHandlers.

Lemma throwIf_Ok c e u : throwIf c e = Ok u -> c = false.
Proof. destruct c; [discriminate|reflexivity]. Qed.

Lemma bind_Ok {A B} (r : result A) (k : A -> result B) b :
  bind r k = Ok b -> exists a, r = Ok a /\ k a = Ok b.
Proof. destruct r as [a|e]; [eauto|discriminate]. Qed.

Lemma foreignCategory_false userId c :
  TransactionController.foreignCategory userId c = false ->
  c_userId c = None \/ visibleTo userId c.
Proof.
  unfold TransactionController.foreignCategory, visibleTo.
  destruct (c_userId c) as [o|]; [|auto]. cbn.
  destruct (String.eqb_spec o userId) as [->|N]; [auto|].
  destruct (c_isDefault c); [auto|]. cbn. discriminate.
Qed.

(** What a successful [createCategory] went through. *)
Lemma createCategory_Ok st newId userId body st' d :
  createCategory st newId userId body = Ok (st', d) ->
  d = (newId, newCategory (categoryData userId body)) /\
  categories st !! newId = None /\
  categories st' = <[newId := d.2]> (categories st) /\
  transactions st' = transactions st /\
  findOne (nameInUse userId (nc_name body)) (categories st) = None /\
  validateNew d.2 = Ok tt /\
  CategoryModel.preSave (categories st) d.2 = Ok tt.
Proof.
  unfold createCategory. intros H.
  apply bind_Ok in H as ([] & _ & H).
  apply bind_Ok in H as ([] & N & H). apply throwIf_Ok in N.
  apply bind_Ok in H as ([cats category] & C & H).
  injection H as <- <-.
  unfold create in C.
  apply bind_Ok in C as ([] & V & C).
  apply bind_Ok in C as ([] & P & C).
  apply bind_Ok in C as (cats' & I & C).
  injection C as <- <-.
  apply insertOne_Ok in I as (F & -> & _).
  cbn [snd categories transactions].
  destruct (findOne _ (categories st)); [discriminate|].
  auto 10.
Qed.

(** X11. A category that [createCategory] stores belongs to the caller,
    whatever [userId] the body carries; it is stored under an id that was
    free, and no stored category and no transaction is changed. *)
Theorem created_category_is_the_callers st newId userId body st' d :
  createCategory st newId userId body = Ok (st', d) ->
  d.1 = newId /\ c_userId d.2 = Some userId /\
  categories st !! newId = None /\
  categories st' !! newId = Some d.2 /\
  (forall id c, categories st !! id = Some c ->
     categories st' !! id = Some c) /\
  transactions st' = transactions st.
Proof.
  intros H. apply createCategory_Ok in H as (-> & F & E & T & _).
  cbn [fst snd] in *. rewrite E.
  split; [reflexivity|]. split; [reflexivity|]. split; [exact F|].
  split; [apply lookup_insert_eq|]. split; [|exact T].
  intros id c L. rewrite lookup_insert_ne; [exact L|]. congruence.
Qed.

(** X12. If no two categories the caller sees share a name, that is still
    so after the caller created one under a name without surrounding white
    space (as [validateCategory] leaves it). *)
Theorem creation_keeps_names_distinct st newId userId body st' d :
  createCategory st newId userId body = Ok (st', d) ->
  trim (nc_name body) = nc_name body ->
  namesDistinctFor userId (categories st) ->
  namesDistinctFor userId (categories st').
Proof.
  intros H Ht Hn.
  apply createCategory_Ok in H as (-> & F & E & _ & N & _).
  cbn [snd] in E. rewrite E. clear E.
  assert (forall id c, categories st !! id = Some c -> visibleTo userId c ->
            c_name c = nc_name body -> False) as Free.
  { intros id c L V Nm.
    pose proof (proj1 (findOne_None _ _) N _ _ L) as Q.
    unfold nameInUse in Q. cbn [snd] in Q.
    rewrite (proj2 (visibleTo_iff userId c) V), andb_true_r in Q.
    apply String.eqb_neq in Q. congruence. }
  intros id1 id2 c1 c2 L1 L2 V1 V2 Nm.
  destruct (decide (id1 = newId)) as [->|N1];
    destruct (decide (id2 = newId)) as [->|N2]; [reflexivity| | |].
  - rewrite lookup_insert_eq in L1. injection L1 as <-.
    rewrite lookup_insert_ne in L2 by congruence.
    exfalso. apply (Free _ _ L2 V2). rewrite <- Nm. cbn. exact Ht.
  - rewrite lookup_insert_eq in L2. injection L2 as <-.
    rewrite lookup_insert_ne in L1 by congruence.
    exfalso. apply (Free _ _ L1 V1). rewrite Nm. cbn. exact Ht.
  - rewrite lookup_insert_ne in L1, L2 by congruence.
    exact (Hn _ _ _ _ L1 L2 V1 V2 Nm).
Qed.

Lemma preSave_parent cats this p :
  CategoryModel.preSave cats this = Ok tt ->
  c_parentCategory this = Some p ->
  exists pc, cats !! p = Some pc /\ c_parentCategory pc = None.
Proof.
  unfold CategoryModel.preSave. intros H E. rewrite E in H.
  unfold findById in H.
  destruct (cats !! p) as [pc|]; [|discriminate].
  apply bind_Ok in H as ([] & D & _). apply throwIf_Ok in D.
  exists pc. split; [reflexivity|].
  destruct (c_parentCategory pc); [discriminate|reflexivity].
Qed.

(** X13. [createCategory] keeps subcategories one level deep: if every
    parent is stored and has no parent itself, that holds after a
    creation too. *)
Theorem creation_keeps_nesting st newId userId body st' d :
  createCategory st newId userId body = Ok (st', d) ->
  wellNested (categories st) ->
  wellNested (categories st').
Proof.
  intros H Hw.
  apply createCategory_Ok in H as (-> & F & E & _ & _ & _ & P).
  cbn [snd] in E, P. rewrite E. clear E.
  assert (forall p pc, categories st !! p = Some pc ->
            <[newId := newCategory (categoryData userId body)]>
              (categories st) !! p = Some pc) as Keep.
  { intros p pc L. rewrite lookup_insert_ne; [exact L|]. congruence. }
  intros id c p L Hp.
  destruct (decide (id = newId)) as [->|N].
  - rewrite lookup_insert_eq in L. injection L as <-.
    destruct (preSave_parent _ _ _ P Hp) as (pc & Lp & Np). eauto.
  - rewrite lookup_insert_ne in L by congruence.
    destruct (Hw _ _ _ L Hp) as (pc & Lp & Np). eauto.
Qed.

(** What a successful [deleteCategory] went through. *)
Lemma deleteCategory_Ok st userId id st' :
  CategoryController.deleteCategory st userId id = Ok st' ->
  categories st' = delete id (categories st) /\
  transactions st' = transactions st /\
  (forall t tx, transactions st !! t = Some tx -> t_category tx <> id) /\
  (forall k c, categories st !! k = Some c -> c_parentCategory c <> Some id).
Proof.
  unfold CategoryController.deleteCategory, findById.
  destruct (categories st !! id) as [category|]; [|discriminate].
  intros H.
  apply bind_Ok in H as ([] & _ & H).
  apply bind_Ok in H as ([] & T & H). apply throwIf_Ok in T.
  apply bind_Ok in H as ([] & S & H). apply throwIf_Ok in S.
  injection H as <-. cbn [categories transactions].
  split; [reflexivity|]. split; [reflexivity|].
  apply Z.ltb_ge in T, S.
  assert (forall {A} (f : Doc A -> bool) (coll : gmap ObjectId A),
            countDocuments f coll <= 0 -> countDocuments f coll = 0) as Z0.
  { intros A f coll. unfold countDocuments. lia. }
  apply Z0 in T, S.
  split.
  - intros t tx L E.
    pose proof (proj1 (countDocuments_zero _ _) T _ _ L) as Q.
    cbn [snd] in Q. apply String.eqb_neq in Q. congruence.
  - intros k c L E.
    pose proof (proj1 (countDocuments_zero _ _) S _ _ L) as Q.
    cbn [snd] in Q. rewrite E in Q. apply String.eqb_neq in Q. congruence.
Qed.

(** X14. [deleteCategory] keeps subcategories one level deep, and leaves no
    subcategory without its parent: a category that has subcategories is
    not deleted. *)
Theorem deletion_keeps_nesting st userId (id : ObjectId) st' :
  CategoryController.deleteCategory st userId id = Ok st' ->
  wellNested (categories st) ->
  wellNested (categories st').
Proof.
  intros H Hw. apply deleteCategory_Ok in H as (E & _ & _ & Sub).
  rewrite E. intros k c p L Hp.
  apply lookup_delete_Some in L as [Nk L].
  destruct (Hw _ _ _ L Hp) as (pc & Lp & Np).
  exists pc. split; [|exact Np].
  rewrite lookup_delete_ne; [exact Lp|].
  intros <-. exact (Sub _ _ L Hp).
Qed.

(** What a successful [archiveCategory] or [restoreCategory] did. *)
Lemma setCategoryActive_Ok active refusal st updatedAt now userId id
  st' updatedAt' d :
  setCategoryActive active refusal st updatedAt now userId id
  = Ok (st', updatedAt', d) ->
  exists c,
    categories st !! id = Some c /\ c_userId c = Some userId /\
    d = (id, setActive active c) /\
    updatedAt' = <[id := now]> updatedAt /\
    st' = {| categories := <[id := setActive active c]> (categories st);
             transactions := transactions st |}.
Proof.
  unfold setCategoryActive, findById.
  destruct (categories st !! id) as [c|]; [|discriminate].
  intros H. apply bind_Ok in H as ([] & O & H). apply throwIf_Ok in O.
  apply negb_false_iff, ownedBy_iff in O.
  injection H as <- <- <-. eauto 10.
Qed.

(** X15. Restoring undoes archiving, the time stamp apart: after a user
    archived an active category of theirs, [restoreCategory] succeeds and
    gives back every category, with the fields of the record, and every
    transaction as before. Of the [updatedAt]s only that of the category
    differs from before the archiving: it is the time of the restoring. *)
Theorem restore_undoes_archive st updatedAt archivedAt restoredAt userId
  (id : ObjectId) st1 updatedAt1 d c :
  archiveCategory st updatedAt archivedAt userId id
  = Ok (st1, updatedAt1, d) ->
  categories st !! id = Some c ->
  c_isActive c = true ->
  restoreCategory st1 updatedAt1 restoredAt userId id
  = Ok (st, <[id := restoredAt]> updatedAt, (id, c)).
Proof.
  intros H L Act.
  apply setCategoryActive_Ok in H as (c' & L' & O & -> & -> & ->).
  rewrite L in L'. injection L' as <-.
  unfold restoreCategory, setCategoryActive, findById.
  cbn [categories transactions]. rewrite lookup_insert_eq.
  cbn [setActive c_userId]. rewrite (proj2 (ownedBy_iff _ _) O).
  cbn [negb throwIf bind].
  assert (setActive true (setActive false c) = c) as ->
    by (clear L O; destruct c; cbn in Act |- *; rewrite Act; reflexivity).
  rewrite insert_insert_eq, (insert_id _ _ _ L).
  unfold UpdatedAt in *. rewrite insert_insert_eq.
  destruct st; reflexivity.
Qed.

Lemma suggest_Some cats userId merchantName d :
  OcrController.suggestCategoryFromMerchant cats userId merchantName = Some d ->
  cats !! d.1 = Some d.2 /\ c_isActive d.2 = true /\ visibleTo userId d.2.
Proof.
  unfold OcrController.suggestCategoryFromMerchant.
  destruct (negb _); [discriminate|].
  rewrite tryEntries_spec.
  destruct (List.find _ OcrController.categoryPatterns) as [entry|].
  - destruct (findOne (OcrController.activeByName userId entry.1) cats)
      as [d'|] eqn:E.
    + intros [= ->]. apply findOne_Some in E as [L F].
      unfold OcrController.activeByName in F.
      apply andb_true_iff in F as [F Act]. apply andb_true_iff in F as [_ V].
      apply visibleTo_iff in V. auto.
    + intros E'. apply findOne_Some in E' as [L F].
      unfold OcrController.otherExpense in F.
      apply andb_true_iff in F as [F Act]. apply andb_true_iff in F as [_ D].
      unfold visibleTo. auto.
  - intros E'. apply findOne_Some in E' as [L F].
    unfold OcrController.otherExpense in F.
    apply andb_true_iff in F as [F Act]. apply andb_true_iff in F as [_ D].
    unfold visibleTo. auto.
Qed.

(** X16. An archived category is hidden: no user's category listing shows
    it and it is suggested for no receipt, until it is restored. *)
Theorem archived_category_is_hidden st updatedAt now userId (id : ObjectId)
  st1 updatedAt1 d :
  archiveCategory st updatedAt now userId id = Ok (st1, updatedAt1, d) ->
  (forall user type listed,
     listed ∈ getCategories st1 user type -> String.eqb listed.1 id = false) /\
  (forall user merchantName suggested,
     OcrController.suggestCategoryFromMerchant (categories st1) user
       merchantName = Some suggested ->
     String.eqb suggested.1 id = false).
Proof.
  intros H. apply setCategoryActive_Ok in H as (c & L & O & -> & _ & ->).
  cbn [categories].
  assert (forall k x, <[id := setActive false c]> (categories st) !! k = Some x ->
            c_isActive x = true -> String.eqb k id = false) as Hid.
  { intros k x Lk Act. apply String.eqb_neq. intros ->.
    rewrite lookup_insert_eq in Lk. injection Lk as <-. discriminate. }
  split.
  - intros user type [k x] Hin. unfold getCategories in Hin.
    cbn [categories] in Hin.
    apply listed_iff in Hin as (Lk & Act & _).
    exact (Hid _ _ Lk Act).
  - intros user m [k x] S. apply suggest_Some in S as (Lk & Act & _).
    exact (Hid _ _ Lk Act).
Qed.

End Categories.

(** ** Listings, suggestions and single categories together *)

Section CategoryViews.

Import CategoryQueries CategoryHandlers.

(** X17. A suggested category is always one the user's own category listing
    shows: it is stored, active, and the user's own or a default. *)
Theorem suggestion_is_a_listed_category st userId merchantName suggested :
  OcrController.suggestCategoryFromMerchant (categories st) userId
    merchantName = Some suggested ->
  suggested ∈ getCategories st userId None.
Proof.
  intros H. destruct suggested as [id c].
  apply suggest_Some in H as (L & Act & V).
  apply listed_iff.
  split; [exact L|]. split; [exact Act|]. split; [exact V|].
  intros t E. discriminate.
Qed.

(** X18. Every category of a user's listing can be fetched by that user
    with [getCategory], which answers with the listed document. *)
Theorem listed_category_can_be_fetched st userId type listed :
  listed ∈ getCategories st userId type ->
  getCategory st userId listed.1 = Ok listed.
Proof.
  destruct listed as [id c]. intros H.
  apply listed_iff in H as (L & _ & V & _).
  unfold getCategory, findById. cbn [fst]. rewrite L.
  replace (TransactionController.foreignCategory userId c) with false;
    [reflexivity|].
  symmetry. unfold TransactionController.foreignCategory.
  apply visibleTo_iff, orb_true_iff in V as [O|D].
  - rewrite O. cbn. rewrite andb_false_r. reflexivity.
  - rewrite D. apply andb_false_r.
Qed.

Lemma sortedBy_app {A} (le : A -> A -> bool) l1 l2 a b :
  sortedBy le (l1 ++ l2) -> a ∈ l1 -> b ∈ l2 -> le a b = true.
Proof.
  induction l1 as [|x r IH]; cbn; intros Hs Ha Hb; [inversion Ha|].
  destruct Hs as [Hx Hr].
  apply elem_of_cons in Ha as [->|Ha]; [|exact (IH Hr Ha Hb)].
  apply Hx. apply elem_of_app. right. exact Hb.
Qed.

(** X19. The most used categories of the statistics are at most ten, each
    an active category the user sees, in the order of their use; a category
    the user sees that is left out was used no more than any listed one. *)
Theorem most_used_categories_are_the_top_ten st userId :
  (length (mostUsedCategories st userId) <= 10)%nat /\
  (forall d, d ∈ mostUsedCategories st userId ->
     categories st !! d.1 = Some d.2 /\ c_isActive d.2 = true /\
     visibleTo userId d.2) /\
  (forall i j a b, (i < j)%nat ->
     mostUsedCategories st userId !! i = Some a ->
     mostUsedCategories st userId !! j = Some b ->
     c_usageCount b.2 <= c_usageCount a.2) /\
  (forall (id : ObjectId) c d,
     categories st !! id = Some c -> c_isActive c = true ->
     visibleTo userId c ->
     d ∈ mostUsedCategories st userId ->
     (id, c) ∈ mostUsedCategories st userId \/
     c_usageCount c <= c_usageCount d.2).
Proof.
  unfold mostUsedCategories.
  set (l := Cursor.sortBy byUsage (find (userCategoriesQuery userId None)
                              (categories st))).
  assert (sortedBy byUsage l) as Hs
    by (apply sortBy_sorted; [exact byUsage_total|exact byUsage_trans]).
  assert (forall id c, (id, c) ∈ l <->
            categories st !! id = Some c /\ c_isActive c = true /\
            visibleTo userId c) as Hl.
  { intros id c. unfold l.
    rewrite elem_of_sortBy, find_elem, userCategoriesQuery_iff.
    unfold typeAdmits. split; [tauto|]. intros (L & Act & V).
    split; [exact L|]. split; [exact Act|]. split; [exact V|]. discriminate. }
  split; [rewrite length_take; lia|]. split; [|split].
  - intros [id c] Hin. apply Hl.
    eapply elem_of_sublist; [exact Hin|apply sublist_take].
  - intros i j a b Hij Ha Hb. apply byUsage_spec.
    eapply (sortedBy_lookup _ _ i j); [|exact Hij|exact Ha|exact Hb].
    apply sortedBy_take, Hs.
  - intros id c d L Act V Hd.
    assert ((id, c) ∈ l) as Hin by (apply Hl; auto).
    rewrite <- (take_drop 10 l) in Hin. apply elem_of_app in Hin as [T|D];
      [left; exact T|right].
    change (c_usageCount (id, c).2 <= c_usageCount d.2).
    apply byUsage_spec. apply (sortedBy_app byUsage (take 10 l) (drop 10 l));
      [rewrite take_drop; exact Hs|exact Hd|exact D].
Qed.

(** X20. [createCategory] keeps an [isDefault] of the body. A category
    created with [isDefault: true] is stored as a default: while active it
    is in every user's listing, and from then on seeding the default
    categories inserts nothing. *)
Theorem created_default_is_shared_and_blocks_seeding
  st newId userId body st' d :
  createCategory st newId userId body = Ok (st', d) ->
  nc_isDefault body = Some true ->
  c_isDefault d.2 = true /\
  (c_isActive d.2 = true -> forall user, d ∈ getCategories st' user None) /\
  (forall newIds, initializeDefaultCategories st' newIds = st').
Proof.
  intros H F.
  apply createCategory_Ok in H as (-> & _ & E & _).
  cbn [snd] in E |- *.
  assert (c_isDefault (newCategory (categoryData userId body)) = true) as D
    by (cbn; rewrite F; reflexivity).
  assert (categories st' !! newId
          = Some (newCategory (categoryData userId body))) as L
    by (rewrite E; apply lookup_insert_eq).
  split; [exact D|]. split.
  - intros Act user. apply listed_iff.
    split; [exact L|]. split; [exact Act|]. split; [right; exact D|].
    intros t Ht. discriminate.
  - intros newIds. unfold initializeDefaultCategories, createDefaultCategories.
    destruct (countDocuments _ (categories st') =? 0) eqn:Z;
      [|destruct st'; reflexivity].
    exfalso. apply Z.eqb_eq in Z.
    pose proof (proj1 (countDocuments_zero _ _) Z _ _ L) as Q.
    cbn [snd] in Q. congruence.
Qed.

End CategoryViews.

(** ** The category properties on the sample data *)

Ltac stored H :=
  first [ rewrite lookup_empty in H; discriminate
        | apply lookup_insert_Some in H as [[<- <-]|[_ H]]; [|stored H] ].

Lemma sample_directory_nested_and_named :
  wellNested Sample.directory /\ namesDistinctFor "u1" Sample.directory.
Proof.
  split.
  - intros id c p L Hp. unfold Sample.directory in L.
    stored L; discriminate.
  - intros id1 id2 c1 c2 L1 L2 _ _ N. unfold Sample.directory in L1, L2.
    stored L1; stored L2; first [reflexivity|discriminate].
Qed.

Lemma own_directory_is_unseeded :
  (forall id c, Cases.ownDirectory !! id = Some c -> c_isDefault c = false) /\
  (forall id c, Cases.ownDirectory !! id = Some c -> is_Some (c_userId c)) /\
  (forall i, (i < 14)%nat -> Cases.ownDirectory !! Cases.newIds i = None) /\
  (forall i j, (i < 14)%nat -> (j < 14)%nat ->
     Cases.newIds i = Cases.newIds j -> i = j).
Proof.
  split; [|split; [|split]].
  - intros id c L. unfold Cases.ownDirectory in L. stored L. reflexivity.
  - intros id c L. unfold Cases.ownDirectory in L. stored L. cbn. eauto.
  - intros i _. unfold Cases.ownDirectory.
    rewrite lookup_insert_ne by discriminate. apply lookup_empty.
  - intros i j _ _ E. unfold Cases.newIds in E. cbn in E.
    injection E as E. exact (pretty_nat_inj _ _ E).
Qed.

(** X7, witness: after the book was bought, "Shopping" has been used once
    and leads the listing of "u1". *)
Lemma category_listing_is_ordered_witness :
  CategoryQueries.getUserCategories (categories Sample.afterBook) "u1" None
    !! 1%nat = Some ("c20"%string, Sample.hobbies)
  /\ c_usageCount Sample.hobbies <= 1.
Proof.
  assert (CategoryQueries.getUserCategories (categories Sample.afterBook)
            "u1" None !! 1%nat = Some ("c20"%string, Sample.hobbies)) as E
    by (vm_compute; reflexivity).
  split; [exact E|].
  refine (proj1 (category_listing_is_ordered (categories Sample.afterBook)
                   "u1" None 0 1
                   ("c07"%string,
                    {| c_name := "Shopping"; c_type := "expense";
                       c_userId := None; c_isActive := true;
                       c_isDefault := true; c_usageCount := 1;
                       c_lastUsed := Some 5000; c_parentCategory := None |})
                   _ _ _ E)); [lia|].
  vm_compute. reflexivity.
Defined.

(** X8, witness: seeding the sample directory keeps "Hobbies". *)
Lemma seeding_keeps_stored_categories_witness :
  CategoryQueries.createDefaultCategories Sample.directory Cases.newIds
    !! "c20"%string = Some Sample.hobbies.
Proof.
  apply seeding_keeps_stored_categories. vm_compute. reflexivity.
Defined.

(** X9, witness: seeding a collection that holds only "Hobbies" stores
    "Other Expense" under the fourteenth id. *)
Lemma seeding_installs_the_defaults_witness :
  CategoryQueries.createDefaultCategories Cases.ownDirectory Cases.newIds
    !! Cases.newIds 13 = Some (CategoryQueries.seed "Other Expense" "expense").
Proof.
  destruct own_directory_is_unseeded as (H1 & H2 & H3 & H4).
  exact (proj1 (proj1 (seeding_installs_the_defaults Cases.ownDirectory
                         Cases.newIds Cases.newIds H1 H2 H3 H4)
                  13%nat _ eq_refl)).
Defined.

(** X10, witness: after that seeding "Swiggy" gets a suggestion. *)
Lemma suggestion_after_seeding_is_not_null_witness :
  exists category,
    OcrController.suggestCategoryFromMerchant
      (CategoryQueries.createDefaultCategories Cases.ownDirectory Cases.newIds)
      "u2" (Some "Swiggy"%string)
    = Some category.
Proof.
  destruct own_directory_is_unseeded as (H1 & H2 & H3 & H4).
  apply suggestion_after_seeding_is_not_null; try assumption. discriminate.
Defined.

Lemma create_books :
  CategoryHandlers.createCategory Sample.store "c30" "u1" Cases.books
  = Ok (Cases.afterBooks, ("c30"%string, Cases.booksSaved)).
Proof. vm_compute. reflexivity. Qed.

(** X11, witness: "u1" creates "Books" with a body that names "u2" as the
    owner. *)
Lemma created_category_is_the_callers_witness :
  c_userId Cases.booksSaved = Some "u1"%string
  /\ categories Cases.afterBooks !! "c30"%string = Some Cases.booksSaved.
Proof.
  pose proof (created_category_is_the_callers _ _ _ _ _ _ create_books)
    as (_ & O & _ & L & _).
  split; [exact O|exact L].
Defined.

(** X12, witness: the names "u1" sees stay distinct after "Books". *)
Lemma creation_keeps_names_distinct_witness :
  namesDistinctFor "u1" (categories Cases.afterBooks).
Proof.
  apply (creation_keeps_names_distinct _ _ _ _ _ _ create_books).
  - reflexivity.
  - exact (proj2 sample_directory_nested_and_named).
Defined.

(** X13, witness: "Books" under "Shopping" keeps the nesting. *)
Lemma creation_keeps_nesting_witness :
  wellNested (categories Cases.afterBooks).
Proof.
  apply (creation_keeps_nesting _ _ _ _ _ _ create_books).
  exact (proj1 sample_directory_nested_and_named).
Defined.

(** X14, witness: deleting "Hobbies" keeps the nesting. *)
Lemma deletion_keeps_nesting_witness :
  wellNested (delete "c20"%string Sample.directory).
Proof.
  refine (deletion_keeps_nesting Sample.store "u1" "c20"
            {| categories := delete "c20"%string Sample.directory;
               transactions := transactions Sample.store |} _ _).
  - vm_compute. reflexivity.
  - exact (proj1 sample_directory_nested_and_named).
Defined.

Lemma archive_hobbies :
  CategoryHandlers.archiveCategory Sample.store Cases.stamps 6000 "u1" "c20"
  = Ok (Cases.afterArchive, <["c20"%string := 6000]> Cases.stamps,
        ("c20"%string, Cases.hobbiesArchived)).
Proof. vm_compute. reflexivity. Qed.

(** X15, witness: "Hobbies", last updated at 100, archived at 6000 and
    restored at 7000. *)
Lemma restore_undoes_archive_witness :
  CategoryHandlers.restoreCategory Cases.afterArchive
    (<["c20"%string := 6000]> Cases.stamps) 7000 "u1" "c20"
  = Ok (Sample.store, <["c20"%string := 7000]> Cases.stamps,
        ("c20"%string, Sample.hobbies)).
Proof.
  apply (restore_undoes_archive _ _ _ _ _ _ _ _ _ _ archive_hobbies).
  - vm_compute. reflexivity.
  - reflexivity.
Defined.

(** X16, witness: with "Hobbies" archived, the listing of "u1" still has
    "Shopping", which is another category. *)
Lemma archived_category_is_hidden_witness :
  String.eqb "c07" "c20" = false.
Proof.
  apply (proj1 (archived_category_is_hidden _ _ _ _ _ _ _ _ archive_hobbies)
           "u1"%string None ("c07"%string, Sample.shopping)).
  apply listed_iff.
  split; [vm_compute; reflexivity|]. split; [reflexivity|].
  split; [right; reflexivity|]. intros t E. discriminate.
Defined.

(** X17, witness: "Walmart" suggests "Shopping", which "u1" has listed. *)
Lemma suggestion_is_a_listed_category_witness :
  ("c07"%string, Sample.shopping)
  ∈ CategoryHandlers.getCategories Sample.store "u1" None.
Proof.
  apply (suggestion_is_a_listed_category Sample.store "u1"
           (Some "Walmart"%string)).
  vm_compute. reflexivity.
Defined.

(** X18, witness: "u1" fetches the listed "Hobbies". *)
Lemma listed_category_can_be_fetched_witness :
  CategoryHandlers.getCategory Sample.store "u1" "c20"
  = Ok ("c20"%string, Sample.hobbies).
Proof.
  apply (listed_category_can_be_fetched Sample.store "u1" (Some "expense"%string)
           ("c20"%string, Sample.hobbies)).
  apply listed_iff.
  split; [vm_compute; reflexivity|]. split; [reflexivity|].
  split; [left; reflexivity|]. intros t E _ _. injection E as <-.
  left. reflexivity.
Defined.

(** X20, witness: "u1" creates "Books" as a default; "u2" has it listed and
    a seeding leaves the store as it is. *)
Lemma created_default_is_shared_and_blocks_seeding_witness :
  ("c30"%string, Cases.sharedBooksSaved)
  ∈ CategoryHandlers.getCategories Cases.afterSharedBooks "u2" None
  /\ CategoryHandlers.initializeDefaultCategories Cases.afterSharedBooks
       Cases.newIds = Cases.afterSharedBooks.
Proof.
  assert (CategoryHandlers.createCategory Sample.store "c30" "u1"
            Cases.sharedBooks
          = Ok (Cases.afterSharedBooks, ("c30"%string, Cases.sharedBooksSaved)))
    as E by (vm_compute; reflexivity).
  destruct (created_default_is_shared_and_blocks_seeding _ _ _ _ _ _ E
              eq_refl) as (_ & Shared & Blocked).
  split; [exact (Shared eq_refl "u2"%string)|exact (Blocked Cases.newIds)].
Defined.

(** ** Reading and deleting transactions *)

Section Transactions.

Import TransactionModel TransactionController TransactionHandlers.

Lemma findOwn_Some st userId id t :
  findOwn st userId id = Some t <->
  transactions st !! id = Some t /\ t_userId t = userId.
Proof.
  unfold findOwn. destruct (transactions st !! id) as [t'|].
  - destruct (String.eqb_spec (t_userId t') userId) as [E|N]; split.
    + intros [= ->]. auto.
    + intros [[= ->] _]. reflexivity.
    + discriminate.
    + intros [[= ->] E]. contradiction.
  - split; [discriminate|]. intros [H _]. discriminate.
Qed.

Lemma validateNew_owner now userId d t :
  validateNew now userId d = Ok t -> t_userId t = userId.
Proof.
  unfold validateNew. intros H.
  apply bind_Ok in H as (? & _ & H). apply bind_Ok in H as (? & _ & H).
  apply bind_Ok in H as (? & _ & H). apply bind_Ok in H as (? & _ & H).
  apply bind_Ok in H as (? & _ & H). apply bind_Ok in H as (? & _ & H).
  injection H as <-. reflexivity.
Qed.

Lemma create_owner st now newId userId d st' id t :
  create st now newId userId d = Ok (st', (id, t)) -> t_userId t = userId.
Proof.
  unfold create. intros H.
  apply bind_Ok in H as (this & V & H). apply bind_Ok in H as (? & _ & H).
  apply bind_Ok in H as (? & _ & H). injection H as _ _ <-.
  exact (validateNew_owner _ _ _ _ V).
Qed.

(** X21. A created transaction can be fetched with [getTransaction] by the
    user who created it, and by nobody else: every other user is answered
    404, as for a transaction that does not exist. *)
Theorem created_transaction_is_private st now newId userId body st' d :
  createTransaction st now newId userId body = Ok (st', d) ->
  getTransaction st' userId d.1 = Ok d /\
  (forall other, String.eqb other userId = false ->
     getTransaction st' other d.1
     = Throw (AppError "Transaction not found" 404)).
Proof.
  intros H. destruct d as [id t]. apply createTransaction_create in H.
  pose proof (create_owner _ _ _ _ _ _ _ _ H) as O.
  apply create_Ok in H as (-> & _ & _ & E & _).
  unfold getTransaction, findOwn. cbn [fst]. rewrite E, lookup_insert_eq, O.
  split.
  - rewrite String.eqb_refl. reflexivity.
  - intros other N. rewrite String.eqb_sym, N. reflexivity.
Qed.

(** X22. [deleteTransaction] deletes only a transaction of the caller.
    Afterwards that transaction cannot be fetched any more; every other
    transaction and every category is as before, the use count of the
    category it was filed under included. *)
Theorem deleted_transaction_is_gone st userId (id : ObjectId) st' :
  deleteTransaction st userId id = Ok st' ->
  (exists t, transactions st !! id = Some t /\ t_userId t = userId) /\
  getTransaction st' userId id = Throw (AppError "Transaction not found" 404) /\
  (forall k : ObjectId, k <> id ->
     transactions st' !! k = transactions st !! k) /\
  categories st' = categories st.
Proof.
  unfold deleteTransaction.
  destruct (findOwn st userId id) as [t|] eqn:F; [|discriminate].
  intros [= <-]. apply findOwn_Some in F.
  split; [eauto|]. cbn [categories transactions]. split; [|split].
  - unfold getTransaction, findOwn. cbn [transactions].
    rewrite lookup_delete_eq. reflexivity.
  - intros k N. apply lookup_delete_ne. congruence.
  - reflexivity.
Qed.

Lemma List_filter_stdpp {A} (f : A -> bool) (l : list A) :
  List.filter f l = filter (fun x => f x = true) l.
Proof.
  induction l as [|x l IH]; [reflexivity|]. cbn [List.filter].
  rewrite filter_cons. destruct (f x) eqn:E.
  - rewrite decide_True by reflexivity. f_equal. exact IH.
  - rewrite decide_False by discriminate. exact IH.
Qed.

(** The number of matching documents, as the size of a sub-collection. *)
Lemma countDocuments_size {A} (f : Doc A -> bool) (coll : gmap ObjectId A) :
  countDocuments f coll
  = Z.of_nat (size (filter (fun d : Doc A => f d = true) coll)).
Proof.
  unfold countDocuments, find. f_equal.
  rewrite List_filter_stdpp.
  rewrite (map_filter_alt (fun d : Doc A => f d = true) coll).
  rewrite map_size_list_to_map; [reflexivity|].
  apply (sublist_NoDup _ ((map_to_list coll).*1));
    [apply NoDup_fst_map_to_list|].
  apply fmap_sublist, sublist_filter.
Qed.

Lemma size_filter_split {A} (f : Doc A -> bool) (coll : gmap ObjectId A) :
  size coll
  = (size (filter (fun d : Doc A => f d = true) coll)
     + size (filter (fun d : Doc A => f d = false) coll))%nat.
Proof.
  rewrite <- map_size_disj_union.
  - f_equal. apply map_eq. intros k.
    destruct (coll !! k) as [a|] eqn:L.
    + destruct (f (k, a)) eqn:F.
      * symmetry. apply lookup_union_Some_l, map_lookup_filter_Some. auto.
      * symmetry. rewrite lookup_union_r.
        -- apply map_lookup_filter_Some. auto.
        -- apply map_lookup_filter_None. right. intros a' L' F'.
           rewrite L in L'. injection L' as <-. congruence.
    + symmetry. apply lookup_union_None.
      split; apply map_lookup_filter_None; left; exact L.
  - apply map_disjoint_spec. intros k a b La Lb.
    apply map_lookup_filter_Some in La as [La Fa].
    apply map_lookup_filter_Some in Lb as [Lb Fb].
    rewrite La in Lb. injection Lb as <-. congruence.
Qed.

(** X23. [bulkDeleteTransactions] removes exactly the transactions that are
    named in the request and belong to the caller: a transaction of another
    user stays even when its id is named. [deletedCount] is the number of
    transactions removed, and the categories are untouched. *)
Theorem bulk_delete_removes_own_listed st userId ids st' deletedCount :
  bulkDeleteTransactions st userId (Some ids) = Ok (st', deletedCount) ->
  (forall (id : ObjectId) t,
     transactions st' !! id = Some t <->
     transactions st !! id = Some t /\ ~ (id ∈ ids /\ t_userId t = userId)) /\
  deletedCount
  = Z.of_nat (size (transactions st)) - Z.of_nat (size (transactions st')) /\
  categories st' = categories st.
Proof.
  unfold bulkDeleteTransactions, deleteMany.
  destruct ids as [|i ids]; [discriminate|]. intros [= <- <-].
  cbn [categories transactions]. split; [|split; [|reflexivity]].
  - intros id t. rewrite map_lookup_filter_Some. cbn [fst snd].
    unfold ownIn. cbn [fst snd].
    assert (existsb (String.eqb id) (i :: ids) = true <-> id ∈ i :: ids) as Hin.
    { rewrite existsb_exists. split.
      - intros (x & Hx & E). apply String.eqb_eq in E. subst.
        apply list_elem_of_In, Hx.
      - intros Hx. exists id. split; [apply list_elem_of_In, Hx|].
        apply String.eqb_refl. }
    split; intros [L F]; (split; [exact L|]).
    + intros [I O]. apply Hin in I. rewrite I in F.
      rewrite <- String.eqb_eq in O. rewrite O in F. discriminate.
    + apply andb_false_iff.
      destruct (existsb (String.eqb id) (i :: ids)) eqn:I; [|auto].
      right. apply String.eqb_neq. intros O. apply F.
      split; [apply Hin; reflexivity|exact O].
  - rewrite countDocuments_size.
    rewrite (size_filter_split (ownIn userId (i :: ids)) (transactions st)).
    lia.
Qed.

(** X24. A transaction that [createTransaction] stores is filed under a
    category that exists and that is not another user's private one: it
    is the caller's own, a default, or has no owner. *)
Theorem created_transaction_uses_visible_category
  st now newId userId body st' d :
  createTransaction st now newId userId body = Ok (st', d) ->
  exists category,
    categories st !! t_category d.2 = Some category /\
    (c_userId category = None \/ visibleTo userId category).
Proof.
  intros H. pose proof H as C. destruct d as [id t].
  apply createTransaction_create, create_Ok in C as (_ & Dc & _).
  unfold createTransaction, findCategory in H. rewrite Dc in H.
  unfold findById in H. cbn [snd].
  destruct (categories st !! t_category t) as [category|]; [|discriminate].
  apply bind_Ok in H as ([] & F & _). apply throwIf_Ok in F.
  exists category. split; [reflexivity|].
  exact (foreignCategory_false _ _ F).
Qed.

End Transactions.

(** ** What a transaction listing holds, and in which order *)

Section Listing.

Import TransactionModel.

Variable regexTest : string -> string -> bool.

Lemma range_lo {A} (truthy : A -> bool) (ge le : A -> A -> bool) x lo hi v :
  holds (inRange ge le x) (rangeOf truthy lo hi) = true ->
  lo = Some v -> truthy v = true -> ge x v = true.
Proof.
  intros H -> T. unfold rangeOf, whenTruthy in H. cbn [Js.truthy_opt] in H.
  rewrite T in H. cbn [orb holds] in H. unfold inRange in H. cbn in H.
  destruct (if Js.truthy_opt truthy hi then hi else None);
    apply andb_true_iff in H as [H _]; exact H.
Qed.

Lemma range_hi {A} (truthy : A -> bool) (ge le : A -> A -> bool) x lo hi v :
  holds (inRange ge le x) (rangeOf truthy lo hi) = true ->
  hi = Some v -> truthy v = true -> le x v = true.
Proof.
  intros H -> T. unfold rangeOf, whenTruthy in H. cbn [Js.truthy_opt] in H.
  rewrite T, orb_true_r in H. cbn [holds] in H. unfold inRange in H. cbn in H.
  destruct (if Js.truthy_opt truthy lo then lo else None);
    [apply andb_true_iff in H as [_ H]|]; exact H.
Qed.

Lemma holds_whenTruthy_str (test : string -> bool) v s :
  holds test (whenTruthy Js.truthy_str v) = true ->
  v = Some s -> s <> EmptyString -> test s = true.
Proof.
  intros H -> N. destruct s as [|a s]; [congruence|]. exact H.
Qed.

Lemma limitDocs_sublist {A} n (l : list A) : limitDocs n l `sublist_of` l.
Proof.
  unfold limitDocs. destruct (n =? 0); [reflexivity|apply sublist_take].
Qed.

Lemma getUserTransactions_Ok coll userId o l :
  getUserTransactions regexTest coll userId o = Ok l ->
  exists skip,
    l = limitDocs (default 10 (o_limit o))
          (drop skip
             (sortDocs (default "date"%string (o_sortBy o),
                        if String.eqb (default "desc"%string (o_sortOrder o))
                             "desc"
                        then -1 else 1)
                (find (matches regexTest (buildQuery userId o)) coll))).
Proof.
  unfold getUserTransactions, execFind. intros H.
  apply bind_Ok in H as ([] & _ & H). injection H as <-. eauto.
Qed.

(** X25. Every transaction in the list that [getUserTransactions] returns
    is stored, belongs to the user asked for, and meets the filters of
    the request: the type and the category when they are given and not
    empty, the two dates inclusively, and the two amount bounds inclusively
    when they are numbers other than 0. *)
Theorem listed_transactions_match_the_request coll userId o l d :
  getUserTransactions regexTest coll userId o = Ok l ->
  d ∈ l ->
  coll !! d.1 = Some d.2 /\ t_userId d.2 = userId /\
  (forall type, o_type o = Some type -> type <> EmptyString ->
     t_type d.2 = type) /\
  (forall category, o_category o = Some category ->
     category <> EmptyString -> t_category d.2 = category) /\
  (forall startDate, o_startDate o = Some startDate ->
     startDate <= t_date d.2) /\
  (forall endDate, o_endDate o = Some endDate -> t_date d.2 <= endDate) /\
  (forall q, o_minAmount o = Some (Js.Fin q) -> Qeq_bool q 0 = false ->
     (q <= t_amount d.2)%Q) /\
  (forall q, o_maxAmount o = Some (Js.Fin q) -> Qeq_bool q 0 = false ->
     (t_amount d.2 <= q)%Q).
Proof.
  intros H Hin. apply getUserTransactions_Ok in H as (skip & ->).
  assert (d ∈ find (matches regexTest (buildQuery userId o)) coll) as Hf.
  { eapply elem_of_sublist in Hin; [|apply limitDocs_sublist].
    eapply elem_of_sublist in Hin; [|apply sublist_drop].
    rewrite sortDocs_perm in Hin. exact Hin. }
  destruct d as [id t]. apply find_elem in Hf as [L M]. cbn [fst snd].
  unfold matches in M. cbn [snd buildQuery q_userId q_type q_category
    q_paymentMethod q_date q_amount q_tags q_or] in M.
  repeat (apply andb_true_iff in M as [M ?]).
  split; [exact L|]. split; [apply String.eqb_eq; exact M|].
  split; [|split; [|split; [|split; [|split]]]].
  - intros type E N. apply String.eqb_eq.
    eapply (holds_whenTruthy_str (String.eqb (t_type t))); eassumption.
  - intros category E N. apply String.eqb_eq.
    eapply (holds_whenTruthy_str (String.eqb (t_category t))); eassumption.
  - intros s E. apply Z.geb_le.
    eapply (range_lo truthy_date Z.geb Z.leb); [eassumption|exact E|reflexivity].
  - intros e E. apply Z.leb_le.
    eapply (range_hi truthy_date Z.geb Z.leb); [eassumption|exact E|reflexivity].
  - intros q E N.
    assert (Js.geb (Js.Fin (t_amount t)) (Js.Fin q) = true) as G.
    { eapply (range_lo Js.truthy_num Js.geb Js.leb); [eassumption|exact E|].
      cbn. rewrite N. reflexivity. }
    apply Qle_bool_iff. exact G.
  - intros q E N.
    assert (Js.leb (Js.Fin (t_amount t)) (Js.Fin q) = true) as G.
    { eapply (range_hi Js.truthy_num Js.geb Js.leb); [eassumption|exact E|].
      cbn. rewrite N. reflexivity. }
    apply Qle_bool_iff. exact G.
Qed.

(** The two orders of a sort field. *)
Lemma compareField_antisym field a b :
  compareField field b a = CompOpp (compareField field a b).
Proof.
  unfold compareField.
  destruct (String.eqb field "date"); [apply Z.compare_antisym|].
  destruct (String.eqb field "amount");
    [symmetry; apply Qcompare_antisym|].
  destruct (String.eqb field "title"); [apply String.compare_antisym|].
  destruct (String.eqb field "category"); [apply String.compare_antisym|].
  reflexivity.
Qed.

Lemma string_compare_le_trans s1 s2 s3 :
  (s1 ?= s2)%string <> Gt -> (s2 ?= s3)%string <> Gt ->
  (s1 ?= s3)%string <> Gt.
Proof.
  intros H1 H2.
  assert (String.leb s1 s3 = true) as H.
  { apply (string_leb_trans s1 s2 s3); unfold String.leb.
    - destruct (s1 ?= s2)%string; congruence.
    - destruct (s2 ?= s3)%string; congruence. }
  unfold String.leb in H. destruct (s1 ?= s3)%string; congruence.
Qed.

Lemma compareField_le_trans field a b c :
  compareField field a b <> Gt -> compareField field b c <> Gt ->
  compareField field a c <> Gt.
Proof.
  unfold compareField.
  destruct (String.eqb field "date").
  { rewrite !Z.compare_le_iff. lia. }
  destruct (String.eqb field "amount").
  { rewrite <- !Qle_alt. apply Qle_trans. }
  destruct (String.eqb field "title"); [apply string_compare_le_trans|].
  destruct (String.eqb field "category"); [apply string_compare_le_trans|].
  congruence.
Qed.

Lemma inOrder_spec field (desc : bool) a b :
  inOrder (field, if desc then -1 else 1) a b = true <->
  compareField field a b <> (if desc then Lt else Gt).
Proof.
  unfold inOrder. cbn [fst snd].
  destruct (compareField field a b), desc; cbn; split; congruence.
Qed.

Lemma inOrder_total field (desc : bool) a b :
  inOrder (field, if desc then -1 else 1) a b = false ->
  inOrder (field, if desc then -1 else 1) b a = true.
Proof.
  unfold inOrder. cbn [fst snd]. rewrite (compareField_antisym field a b).
  destruct (compareField field a b), desc; cbn; congruence.
Qed.

Lemma inOrder_trans field (desc : bool) a b c :
  inOrder (field, if desc then -1 else 1) a b = true ->
  inOrder (field, if desc then -1 else 1) b c = true ->
  inOrder (field, if desc then -1 else 1) a c = true.
Proof.
  rewrite !inOrder_spec. destruct desc.
  - intros H1 H2.
    assert (compareField field c a <> Gt) as H.
    { apply (compareField_le_trans field c b a).
      - rewrite compareField_antisym.
        destruct (compareField field b c); cbn; congruence.
      - rewrite compareField_antisym.
        destruct (compareField field a b); cbn; congruence. }
    rewrite compareField_antisym in H.
    destruct (compareField field a c); cbn in H; congruence.
  - apply compareField_le_trans.
Qed.

Lemma sortDocs_sortBy sort l :
  sortDocs sort l = Cursor.sortBy (inOrder sort) l.
Proof.
  unfold sortDocs, Cursor.sortBy. induction l as [|x l IH]; [reflexivity|].
  cbn [foldr]. rewrite IH. generalize (foldr (Cursor.insertBy (inOrder sort)) [] l).
  intros r. induction r as [|y r IHr]; [reflexivity|].
  cbn. rewrite IHr. reflexivity.
Qed.

Lemma sortedBy_drop {A} (le : A -> A -> bool) n l :
  sortedBy le l -> sortedBy le (drop n l).
Proof.
  revert n. induction l as [|x r IH]; intros [|n]; cbn; try tauto.
  intros [_ Hr]. apply IH, Hr.
Qed.

(** X26. The list that [getUserTransactions] returns is in the order asked
    for: of two listed transactions the earlier one does not come after the
    later one in that order. Without [sortBy] and [sortOrder] the newest
    transaction is first. *)
Theorem transaction_listing_is_ordered coll userId o l i j a b :
  getUserTransactions regexTest coll userId o = Ok l ->
  (i < j)%nat -> l !! i = Some a -> l !! j = Some b ->
  inOrder (default "date"%string (o_sortBy o),
           if String.eqb (default "desc"%string (o_sortOrder o)) "desc"
           then -1 else 1) a b = true /\
  (o_sortBy o = None -> o_sortOrder o = None -> t_date b.2 <= t_date a.2).
Proof.
  intros H Hij Ha Hb. apply getUserTransactions_Ok in H as (skip & ->).
  set (field := default "date"%string (o_sortBy o)) in *.
  set (desc := String.eqb (default "desc"%string (o_sortOrder o)) "desc") in *.
  assert (inOrder (field, if desc then -1 else 1) a b = true) as R.
  { eapply (sortedBy_lookup _ _ i j); [|exact Hij|exact Ha|exact Hb].
    unfold limitDocs. rewrite sortDocs_sortBy.
    destruct (_ =? 0); [|apply sortedBy_take]; apply sortedBy_drop;
      apply sortBy_sorted;
      first [exact (inOrder_total field desc)|exact (inOrder_trans field desc)]. }
  split; [exact R|].
  intros Ef Eo. apply inOrder_spec in R.
  unfold field, desc in R. rewrite Ef, Eo in R. cbn in R.
  unfold compareField in R. cbn in R.
  destruct (Z.compare_spec (t_date a.2) (t_date b.2)); try lia. congruence.
Qed.

End Listing.

(** ** Spending by category *)

Section SpendingByCategory.

Import Spending.

Abbreviation groupKeys groups :=
  (map (fun g : ObjectId * string * Q * Z => g.1.1.1) groups).

Lemma filedUnder_snoc category docs d :
  filedUnder category (docs ++ [d])
  = if String.eqb (t_category d.2) category
    then filedUnder category docs ++ [d]
    else filedUnder category docs.
Proof.
  unfold filedUnder. rewrite List.filter_app. cbn [List.filter].
  destruct (String.eqb (t_category d.2) category);
    [reflexivity|apply app_nil_r].
Qed.

Lemma filedUnder_none category docs :
  (forall d, d ∈ docs -> t_category d.2 <> category) ->
  filedUnder category docs = [].
Proof.
  intros H. induction docs as [|d docs IH]; [reflexivity|].
  unfold filedUnder in *. cbn [List.filter].
  destruct (String.eqb_spec (t_category d.2) category) as [E|_].
  - destruct (H d); [left|exact E].
  - apply IH. intros d' Hin. apply H. right. exact Hin.
Qed.

Lemma totalUnder_snoc category docs d :
  totalUnder category (docs ++ [d])
  = if String.eqb (t_category d.2) category
    then (totalUnder category docs + t_amount d.2)%Q
    else totalUnder category docs.
Proof.
  unfold totalUnder. rewrite filedUnder_snoc.
  destruct (String.eqb (t_category d.2) category); [|reflexivity].
  rewrite foldl_app. reflexivity.
Qed.

Lemma accumulate_groupKeys category name amount groups :
  groupKeys (accumulate category name amount groups)
  = if existsb (fun k => String.eqb k category) (groupKeys groups)
    then groupKeys groups else groupKeys groups ++ [category].
Proof.
  induction groups as [|[[[k n] sum] count] rest IH]; [reflexivity|].
  cbn [accumulate map existsb fst].
  destruct (String.eqb k category); [reflexivity|].
  cbn [map fst orb]. rewrite IH.
  destruct (existsb _ _); reflexivity.
Qed.

Lemma existsb_groupKey category (ks : list ObjectId) :
  existsb (fun k => String.eqb k category) ks = true <-> category ∈ ks.
Proof.
  rewrite existsb_exists, list_elem_of_In. split.
  - intros (k & Hin & E). apply String.eqb_eq in E. subst. exact Hin.
  - intros Hin. exists category. split; [exact Hin|apply String.eqb_refl].
Qed.

(** Where a group of the new list comes from. *)
Lemma accumulate_elem category name amount groups k n sum count :
  NoDup (groupKeys groups) ->
  (k, n, sum, count) ∈ accumulate category name amount groups ->
  (k <> category /\ (k, n, sum, count) ∈ groups)
  \/ (k = category
      /\ ((exists sum0 count0,
              (category, n, sum0, count0) ∈ groups
              /\ sum = (sum0 + amount)%Q /\ count = count0 + 1)
          \/ ((category ∉ groupKeys groups)
              /\ n = name /\ sum = (0 + amount)%Q /\ count = 1))).
Proof.
  induction groups as [|[[[k0 n0] sum0] count0] rest IH]; cbn [accumulate].
  - intros _ Hin. apply list_elem_of_singleton in Hin. injection Hin as -> -> -> ->.
    right. split; [reflexivity|]. right.
    split; [intros Hin; inversion Hin|auto].
  - intros Hnd. cbn [map fst] in Hnd. apply NoDup_cons in Hnd as [Hnot Hrest].
    destruct (String.eqb_spec k0 category) as [->|Hne]; intros Hin;
      apply elem_of_cons in Hin as [E|Hin].
    + injection E as -> -> -> ->. right. split; [reflexivity|]. left.
      exists sum0, count0. split; [left|auto].
    + left. split; [|right; exact Hin].
      intros ->. apply Hnot.
      apply (list_elem_of_fmap_2 (fun g : ObjectId * string * Q * Z => g.1.1.1))
        in Hin. exact Hin.
    + injection E as -> -> -> ->. left. split; [exact Hne|left].
    + destruct (IH Hrest Hin)
        as [[Hk Hg]|[-> [(s1 & c1 & Hg & Hs & Hc)|(Hno & Hn & Hs & Hc)]]].
      * left. split; [exact Hk|right; exact Hg].
      * right. split; [reflexivity|]. left. exists s1, c1.
        split; [right; exact Hg|auto].
      * right. split; [reflexivity|]. right. split; [|auto].
        cbn [map fst]. intros Hin'. apply elem_of_cons in Hin' as [E|Hin'];
          [exact (Hne (eq_sym E))|exact (Hno Hin')].
Qed.

(** The running groups after the joined documents [rows]: one group a
    category, with the name of a row of that category, the sum and the
    number of its transactions. *)
Lemma category_groups_invariant (rows : list (Doc Transaction * Category)) :
  let groups := foldl addRow [] rows in
  NoDup (groupKeys groups)
  /\ (forall k n sum count, (k, n, sum, count) ∈ groups ->
        sum = totalUnder k rows.*1
        /\ count = Z.of_nat (length (filedUnder k rows.*1))
        /\ exists r, r ∈ rows /\ t_category r.1.2 = k /\ n = c_name r.2)
  /\ (forall r, r ∈ rows -> t_category r.1.2 ∈ groupKeys groups).
Proof.
  induction rows as [|r rows IH] using rev_ind.
  - cbn. split; [constructor|].
    split; [intros ? ? ? ? H; inversion H|intros ? H; inversion H].
  - cbn zeta in *. rewrite foldl_app. cbn [foldl]. unfold addRow at 1 3 5.
    destruct IH as (Hnd & Hsum & Hkeys).
    set (groups := foldl addRow [] rows) in *.
    assert (NoDup (groupKeys (accumulate (t_category r.1.2) (c_name r.2)
                                (t_amount r.1.2) groups))) as Hnd'.
    { rewrite accumulate_groupKeys.
      destruct (existsb _ _) eqn:E; [exact Hnd|].
      apply NoDup_app. split; [exact Hnd|]. split; [|apply NoDup_singleton].
      intros k Hk Hin. apply list_elem_of_singleton in Hin as ->.
      apply existsb_groupKey in Hk. congruence. }
    split; [exact Hnd'|]. split.
    + intros k n sum count Hin.
      rewrite fmap_app. cbn [fmap list_fmap].
      rewrite totalUnder_snoc, filedUnder_snoc.
      apply (accumulate_elem _ _ _ _ _ _ _ _ Hnd) in Hin
        as [[Hk Hg]|[-> [(s0 & c0 & Hg & -> & ->)|(Hno & -> & -> & ->)]]].
      * destruct (String.eqb_spec (t_category r.1.2) k); [congruence|].
        destruct (Hsum _ _ _ _ Hg) as (S & C & r' & Hr' & K & N).
        split; [exact S|]. split; [exact C|].
        exists r'. split; [apply elem_of_app; left; exact Hr'|auto].
      * rewrite String.eqb_refl.
        destruct (Hsum _ _ _ _ Hg) as (S & C & r' & Hr' & K & N).
        split; [rewrite S; reflexivity|]. split.
        { rewrite length_app, C. cbn. lia. }
        exists r'. split; [apply elem_of_app; left; exact Hr'|auto].
      * rewrite String.eqb_refl.
        assert (filedUnder (t_category r.1.2) rows.*1 = []) as F.
        { apply filedUnder_none. intros d Hd E. apply Hno.
          apply list_elem_of_fmap in Hd as (r' & -> & Hr').
          rewrite <- E. exact (Hkeys _ Hr'). }
        unfold totalUnder. rewrite F. cbn.
        split; [reflexivity|]. split; [reflexivity|].
        exists r. split; [apply elem_of_app; right; left|auto].
    + intros r' Hin. rewrite accumulate_groupKeys.
      apply elem_of_app in Hin as [Hin|Hin].
      * specialize (Hkeys _ Hin).
        destruct (existsb _ _); [exact Hkeys|].
        apply elem_of_app. left. exact Hkeys.
      * apply list_elem_of_singleton in Hin as ->.
        destruct (existsb _ _) eqn:E.
        -- apply existsb_groupKey, E.
        -- apply elem_of_app. right. left.
Qed.

(** The join keeps a transaction exactly when its category is stored. *)
Lemma joined_elem cats docs r :
  r ∈ flat_map (lookupCategory cats) docs <->
  r.1 ∈ docs /\ cats !! t_category r.1.2 = Some r.2.
Proof.
  rewrite list_elem_of_In, in_flat_map. split.
  - intros (d & Hd & Hr). unfold lookupCategory in Hr.
    destruct (cats !! t_category d.2) as [c|] eqn:L; [|destruct Hr].
    destruct Hr as [<-|[]]. cbn. split; [apply list_elem_of_In, Hd|exact L].
  - intros [Hd L]. exists r.1. split; [apply list_elem_of_In, Hd|].
    unfold lookupCategory. rewrite L. left. destruct r; reflexivity.
Qed.

Lemma joined_filedUnder cats docs k c :
  cats !! k = Some c ->
  filedUnder k (flat_map (lookupCategory cats) docs).*1 = filedUnder k docs.
Proof.
  intros L. induction docs as [|d docs IH]; [reflexivity|].
  cbn [flat_map]. rewrite fmap_app. unfold filedUnder in *.
  rewrite List.filter_app, IH. cbn [List.filter]. unfold lookupCategory.
  destruct (String.eqb_spec (t_category d.2) k) as [E|N].
  - rewrite E, L. cbn. rewrite E, String.eqb_refl. reflexivity.
  - destruct (cats !! t_category d.2); cbn; [|reflexivity].
    destruct (String.eqb_spec (t_category d.2) k); [contradiction|reflexivity].
Qed.

Lemma byTotal_total a b : byTotal a b = false -> byTotal b a = true.
Proof.
  unfold byTotal. intros H. apply Qle_bool_iff.
  destruct (Qlt_le_dec (cs_totalAmount a) (cs_totalAmount b)) as [L|G].
  - apply Qlt_le_weak, L.
  - apply Qle_bool_iff in G. congruence.
Qed.

Lemma byTotal_trans a b c :
  byTotal a b = true -> byTotal b c = true -> byTotal a c = true.
Proof.
  unfold byTotal. rewrite !Qle_bool_iff. intros H1 H2.
  eapply Qle_trans; eassumption.
Qed.

(** X27. [getSpendingByCategory] gives one row for each stored category
    under which the user has a transaction of the asked type in the date
    range, and no other row. A row carries the name of its category, the sum
    of the amounts of those transactions and their number; transactions
    whose category is not stored are left out. The rows are in the order of
    their totals, the largest first. *)
Theorem spending_by_category_is_exact cats coll userId o :
  let docs := find (matchStage userId o) coll in
  let rows := getSpendingByCategory cats coll userId o in
  NoDup (cs_id <$> rows) /\
  (forall row, row ∈ rows ->
     exists c,
       cats !! cs_id row = Some c /\ cs_categoryName row = c_name c /\
       cs_totalAmount row = totalUnder (cs_id row) docs /\
       cs_count row = Z.of_nat (length (filedUnder (cs_id row) docs)) /\
       0 < cs_count row) /\
  (forall d c, d ∈ docs -> cats !! t_category d.2 = Some c ->
     exists row, row ∈ rows /\ cs_id row = t_category d.2) /\
  (forall i j a b, (i < j)%nat -> rows !! i = Some a -> rows !! j = Some b ->
     (cs_totalAmount b <= cs_totalAmount a)%Q).
Proof.
  intros docs rows. unfold getSpendingByCategory in rows. fold docs in rows.
  set (joined := flat_map (lookupCategory cats) docs) in *.
  destruct (category_groups_invariant joined) as (Hnd & Hsum & Hkeys).
  cbn zeta in Hnd, Hsum, Hkeys.
  set (groups := foldl addRow [] joined) in *.
  assert (cs_id <$> map finishGroup groups = groupKeys groups) as Hids.
  { clear. induction groups as [|[[[k n] s] c] rest IH]; [reflexivity|].
    cbn. f_equal. exact IH. }
  assert (forall row, row ∈ rows <->
            exists k n sum count, (k, n, sum, count) ∈ groups /\
              row = mkCategoryStat k n sum count (sum / inject_Z count)%Q)
    as Hrows.
  { intros row. unfold rows. rewrite elem_of_sortBy.
    change (map finishGroup groups) with (finishGroup <$> groups).
    rewrite list_elem_of_fmap. split.
    - intros ([[[k n] s] c] & -> & Hin). exists k, n, s, c. auto.
    - intros (k & n & s & c & Hin & ->). exists (k, n, s, c). auto. }
  split; [|split; [|split]].
  - unfold rows. rewrite sortBy_perm, Hids. exact Hnd.
  - intros row Hrow. apply Hrows in Hrow as (k & n & sum & count & Hin & ->).
    cbn [cs_id cs_categoryName cs_totalAmount cs_count].
    destruct (Hsum _ _ _ _ Hin) as (S & C & r & Hr & K & N).
    apply joined_elem in Hr as [Hd L]. rewrite K in L.
    exists r.2. split; [exact L|]. split; [exact N|].
    unfold totalUnder in *. unfold joined in S, C.
    rewrite (joined_filedUnder cats docs k _ L) in S, C.
    split; [exact S|]. split; [exact C|].
    assert (r.1 ∈ filedUnder k docs) as Hf.
    { unfold filedUnder. apply list_elem_of_In, filter_In.
      split; [apply list_elem_of_In, Hd|]. rewrite K. apply String.eqb_refl. }
    rewrite C. destruct (filedUnder k docs); [inversion Hf|cbn; lia].
  - intros d c Hd L.
    assert ((d, c) ∈ joined) as Hj by (apply joined_elem; auto).
    specialize (Hkeys _ Hj). cbn [fst snd] in Hkeys.
    apply list_elem_of_fmap in Hkeys as ([[[k n] s] cnt] & E & Hin).
    cbn in E. subst k.
    exists (mkCategoryStat (t_category d.2) n s cnt (s / inject_Z cnt)%Q).
    split; [|reflexivity]. apply Hrows. eauto 10.
  - intros i j a b Hij Ha Hb. apply Qle_bool_iff.
    change (byTotal a b = true).
    eapply (sortedBy_lookup _ _ i j); [|exact Hij|exact Ha|exact Hb].
    apply sortBy_sorted; [exact byTotal_total|exact byTotal_trans].
Qed.

End SpendingByCategory.

(** ** The rows of the report *)

Section ReportRows.

Import TransactionModel TransactionController.

Variable regexTest : string -> string -> bool.

Lemma rowHeights_app out1 out2 :
  rowHeights (out1 ++ out2) = rowHeights out1 ++ rowHeights out2.
Proof. apply omap_app. Qed.

Lemma rowHeights_headers y : rowHeights (tableHeaders y) = [].
Proof. reflexivity. Qed.

Lemma tableRows_heights cats rows index yPosition :
  Forall (fun y => y <= 700) (rowHeights (tableRows cats rows index yPosition).1)
  /\ ((tableRows cats rows index yPosition).2 = Ok tt ->
      length (rowHeights (tableRows cats rows index yPosition).1)
      = length rows).
Proof.
  revert index yPosition.
  induction rows as [|transaction rest IH]; intros index yPosition.
  - cbn. split; [constructor|reflexivity].
  - cbn [tableRows].
    set (y := if 700 <? yPosition then 50 + 25 else yPosition).
    assert (y <= 700) as Hy.
    { unfold y. destruct (Z.ltb_spec 700 yPosition); lia. }
    assert (forall more,
              rowHeights
                ((if 700 <? yPosition then AddPage :: tableHeaders 50 else [])
                 ++ [FontSize 9;
                     Text (DateCell (t_date transaction.2)) col1X (Some y);
                     Text (Literal (String.substring 0 15
                                      (t_title transaction.2)))
                       col2X (Some y)] ++ more)
              = y :: rowHeights more) as Hfirst.
    { intros more. rewrite rowHeights_app.
      destruct (700 <? yPosition); reflexivity. }
    destruct (findById (t_category transaction.2) cats) as [category|].
    + destruct (tableRows cats rest (S index) (y + 20)) as [more outcome] eqn:E.
      specialize (IH (S index) (y + 20)). rewrite E in IH.
      cbn [fst snd] in IH |- *. destruct IH as [IHa IHl].
      rewrite <- !app_assoc, Hfirst.
      rewrite !rowHeights_app.
      replace (rowHeights
                 [Text (Literal (String.substring 0 15 (c_name category)))
                    col3X (Some y);
                  Text (Literal (t_type transaction.2)) col4X (Some y);
                  Text (Money (t_amount transaction.2)) col5X (Some y)])
        with (@nil Z) by reflexivity.
      replace (rowHeights
                 (if Nat.even index
                  then [Fill (col1X - 5) (y + 20 - 18) 520 18 "#f5f5f5"]
                  else []))
        with (@nil Z) by (destruct (Nat.even index); reflexivity).
      cbn [app]. split; [constructor; assumption|].
      intros O. cbn [length]. f_equal. apply IHl, O.
    + cbn [fst snd]. split; [|discriminate].
      specialize (Hfirst []). rewrite app_nil_r in Hfirst.
      rewrite Hfirst. constructor; [exact Hy|constructor].
Qed.

(** X28. In the PDF report every row of the table is printed on the page,
    at a height of at most 700: a row that would start lower opens a new
    page. A report that is finished has one row for each transaction of
    the list, which holds at most 1000. *)
Theorem report_rows_stay_on_the_page st user rq now tableTop :
  Forall (fun y => y <= 700)
    (rowHeights (exportTransactionsPDF regexTest st user rq now tableTop).1) /\
  ((exportTransactionsPDF regexTest st user rq now tableTop).2 = Ok tt ->
   exists found,
     getUserTransactions regexTest (transactions st) (u_id user)
       (exportOptions rq) = Ok found /\
     length (rowHeights
               (exportTransactionsPDF regexTest st user rq now tableTop).1)
     = length found /\
     (length found <= 1000)%nat).
Proof.
  unfold exportTransactionsPDF.
  destruct (getUserTransactions regexTest (transactions st) (u_id user)
              (exportOptions rq)) as [found|e] eqn:G.
  2:{ cbn. split; [constructor|discriminate]. }
  destruct (length found =? 0)%nat.
  { cbn. split; [constructor|discriminate]. }
  unfold writeReport.
  destruct (tableRows_heights (categories st) found 0 (tableTop + 25))
    as [Ha Hl].
  destruct (tableRows (categories st) found 0 (tableTop + 25))
    as [body outcome] eqn:E.
  cbn [fst snd] in Ha, Hl.
  assert (forall tail,
            rowHeights
              (([SetContentType "application/pdf"; SetContentDisposition now;
                 Pipe; FontSize 20;
                 Text (Literal "Transaction History Report") 50 (Some 50);
                 FontSize 12; Text (GeneratedFor (u_fullName user)) 50 (Some 80);
                 Text (Email (u_email user)) 50 (Some 95);
                 Text (GeneratedOn now) 50 (Some 110)]
                ++ (if defined (xq_startDate rq) || defined (xq_endDate rq)
                    then [Text (DateRange (xq_startDate rq) (xq_endDate rq))
                            50 (Some 125)]
                    else [])
                ++ [MoveDown 2; FontSize 14; Text (Literal "Summary:") 50 None;
                    FontSize 12; Text (TotalTransactions (length found)) 70 None;
                    Text (TotalIncome (totalOf "income" found)) 70 None;
                    Text (TotalExpenses (totalOf "expense" found)) 70 None;
                    Text (NetIncome (totalOf "income" found
                                     - totalOf "expense" found)%Q) 70 None;
                    MoveDown 2]
                ++ tableHeaders tableTop) ++ tail)
            = rowHeights tail) as Hhead.
  { intros tail. rewrite !rowHeights_app.
    destruct (defined (xq_startDate rq) || defined (xq_endDate rq));
      reflexivity. }
  destruct outcome as [[]|e]; cbn [fst snd].
  - rewrite Hhead, rowHeights_app. cbn [rowHeights omap]. rewrite app_nil_r.
    split; [exact Ha|]. intros _. exists found.
    split; [reflexivity|]. split; [apply Hl; reflexivity|].
    apply getUserTransactions_Ok in G as (skip & ->).
    unfold limitDocs. cbn. rewrite length_take. lia.
  - rewrite Hhead. split; [exact Ha|discriminate].
Qed.

End ReportRows.

(** ** Errors on their way to the client *)

Section Errors.

Import TransactionModel TransactionController ErrorHandler.

Lemma validateNew_category now userId d t :
  validateNew now userId d = Ok t -> d_category d = Some (t_category t).
Proof.
  unfold validateNew. intros H.
  apply bind_Ok in H as (? & _ & H). apply bind_Ok in H as (? & _ & H).
  apply bind_Ok in H as (? & _ & H). apply bind_Ok in H as (category & C & H).
  apply bind_Ok in H as (? & _ & H). apply bind_Ok in H as (? & _ & H).
  injection H as <-. cbn [t_category].
  unfold requiredStr, required, whenTruthy in C.
  destruct (d_category d) as [c|]; cbn in C; [|discriminate].
  destruct (Js.truthy_str c); [|discriminate]. congruence.
Qed.

(** X29. A valid transaction filed under a category the caller may use, but
    of the other type, is refused by the hook of [save] with a plain
    [Error]; [errorHandler] answers it with status 500 and the fixed text
    "Internal server error", not with the message of the hook. *)
Theorem incompatible_category_is_a_server_error
  st now newId userId body t category :
  validateNew now userId body = Ok t ->
  categories st !! t_category t = Some category ->
  foreignCategory userId category = false ->
  String.eqb (c_type category) "both" = false ->
  String.eqb (c_type category) (t_type t) = false ->
  exists message,
    createTransaction st now newId userId body = Throw (Error message) /\
    errorHandler (plainError message)
    = Ok (mkResponse 500 "Internal server error" false).
Proof.
  intros V L F B T.
  exists ("Category " ++ quote ++ c_name category ++ quote
          ++ " cannot be used for " ++ t_type t ++ " transactions")%string.
  split; [|reflexivity].
  unfold createTransaction, findCategory.
  rewrite (validateNew_category _ _ _ _ V). unfold findById. rewrite L, F.
  cbn [throwIf bind]. unfold create. rewrite V. cbn [bind].
  unfold preSave, findById. rewrite L, B, T. reflexivity.
Qed.

End Errors.

(** ** Which requests reach which handler *)

Section Routes.

Import Router.

Variable isMongoId : string -> bool.
Variable passes : Middleware -> bool.

Ltac walk H :=
  cbn -[Js.toLowerCase String.eqb Js.truthy_str] in H;
  repeat (match type of H with
          | context [if ?c then _ else _] => destruct c eqn:?
          end;
          cbn -[Js.toLowerCase String.eqb Js.truthy_str] in H);
  try discriminate.

Lemma empty_segment_is_no_literal (x s : string) :
  Js.truthy_str x = false ->
  String.eqb (Js.toLowerCase x) (Js.toLowerCase s) = true ->
  Js.truthy_str s = false.
Proof.
  destruct x; [|discriminate]. destruct s; [reflexivity|]. discriminate.
Qed.

(** X30. [DELETE /bulk] is registered after [DELETE /:id] in both routers,
    so the request is taken by the single deletion with the id "bulk": no
    request ever reaches [bulkDeleteTransactions] or [bulkDeleteCategories].
    [POST /reprocess/:transactionId] validates a parameter [id] that the
    route does not have, so no request reaches [reprocessReceipt]. *)
Theorem shadowed_handlers_are_never_reached method path :
  isMongoId EmptyString = false ->
  reaches (serve isMongoId passes transactionRoutes method path)
    BulkDeleteTransactions = false /\
  reaches (serve isMongoId passes categoryRoutes method path)
    BulkDeleteCategories = false /\
  reaches (serve isMongoId passes ocrRoutes method path) ReprocessReceipt
  = false.
Proof.
  intros Hid. unfold reaches, serve.
  split; [|split]; apply not_true_is_false; intros H.
  - destruct method, path as [|x [|y [|z w]]]; walk H.
    match goal with
    | T : Js.truthy_str x = false, E : String.eqb _ _ = true |- _ =>
        apply (empty_segment_is_no_literal _ _ T) in E; discriminate
    end.
  - destruct method, path as [|x [|y [|z w]]]; walk H.
    match goal with
    | T : Js.truthy_str x = false, E : String.eqb _ _ = true |- _ =>
        apply (empty_segment_is_no_literal _ _ T) in E; discriminate
    end.
  - destruct method, path as [|x [|y [|z w]]]; walk H.
    all: match goal with
         | E : negb (isMongoId _) = false |- _ =>
             cbn in E; rewrite Hid in E; discriminate
         end.
Qed.

End Routes.

(** ** The transaction and routing properties on the sample data *)

Lemma create_book :
  TransactionController.createTransaction Sample.store 5000 "t9" "u1"
    Sample.book
  = Ok (Sample.afterBook, ("t9"%string, Sample.bookSaved)).
Proof. vm_compute. reflexivity. Qed.

(** X21, witness: the book bought by "u1" is theirs to fetch, not for
    "u2". *)
Lemma created_transaction_is_private_witness :
  TransactionHandlers.getTransaction Sample.afterBook "u1" "t9"
  = Ok ("t9"%string, Sample.bookSaved)
  /\ TransactionHandlers.getTransaction Sample.afterBook "u2" "t9"
     = Throw (AppError "Transaction not found" 404).
Proof.
  pose proof (created_transaction_is_private _ _ _ _ _ _ _ create_book)
    as [Own Other].
  split; [exact Own|]. apply Other. reflexivity.
Defined.

(** X22, witness: "u1" deletes the lunch. *)
Lemma deleted_transaction_is_gone_witness :
  TransactionHandlers.getTransaction Cases.afterLunchDeleted "u1" "t1"
  = Throw (AppError "Transaction not found" 404)
  /\ categories Cases.afterLunchDeleted = categories Sample.store.
Proof.
  assert (TransactionController.deleteTransaction Sample.store "u1" "t1"
          = Ok Cases.afterLunchDeleted) as E by (vm_compute; reflexivity).
  pose proof (deleted_transaction_is_gone _ _ _ _ E) as (_ & Gone & _ & Cats).
  split; [exact Gone|exact Cats].
Defined.

(** X23, witness: "u1" asks to delete the lunch and a transaction that is
    not theirs; one is deleted and the pay stays. *)
Lemma bulk_delete_removes_own_listed_witness :
  transactions Cases.afterLunchDeleted !! "t2"%string = Some Sample.pay
  /\ 1 = Z.of_nat (size (transactions Sample.store))
         - Z.of_nat (size (transactions Cases.afterLunchDeleted)).
Proof.
  assert (TransactionHandlers.bulkDeleteTransactions Sample.store "u1"
            (Some ["t1"%string; "t7"%string])
          = Ok (Cases.afterLunchDeleted, 1)) as E by (vm_compute; reflexivity).
  pose proof (bulk_delete_removes_own_listed _ _ _ _ _ E) as (Kept & Count & _).
  split; [|exact Count].
  apply Kept. split; [vm_compute; reflexivity|].
  intros [Hin _]. apply elem_of_cons in Hin as [Hin|Hin]; [discriminate|].
  apply list_elem_of_singleton in Hin. discriminate.
Defined.

(** X24, witness: the book is filed under the default "Shopping". *)
Lemma created_transaction_uses_visible_category_witness :
  exists category,
    categories Sample.store !! t_category Sample.bookSaved = Some category /\
    (c_userId category = None \/ visibleTo "u1" category).
Proof.
  exact (created_transaction_uses_visible_category _ _ _ _ _ _ _ create_book).
Defined.

Lemma list_since1500 :
  TransactionModel.getUserTransactions Sample.literalTest
    (transactions Sample.store) "u1" Cases.since1500
  = Ok [("t2"%string, Sample.pay)].
Proof. vm_compute. reflexivity. Qed.

(** X25, witness: the listing since 1500 holds the pay, dated 2000. *)
Lemma listed_transactions_match_the_request_witness :
  t_userId Sample.pay = "u1"%string /\ 1500 <= t_date Sample.pay.
Proof.
  pose proof (listed_transactions_match_the_request Sample.literalTest
                _ _ _ _ ("t2"%string, Sample.pay) list_since1500)
    as H.
  destruct H as (_ & Owner & _ & _ & Since & _); [left|].
  split; [exact Owner|]. apply Since. reflexivity.
Defined.

(** X26, witness: the pay, the newer one, is listed before the lunch. *)
Lemma transaction_listing_is_ordered_witness :
  t_date Sample.lunch <= t_date Sample.pay.
Proof.
  assert (TransactionModel.getUserTransactions Sample.literalTest
            (transactions Sample.store) "u1" Cases.noOptions
          = Ok [("t2"%string, Sample.pay); ("t1"%string, Sample.lunch)]) as E
    by (vm_compute; reflexivity).
  refine (proj2 (transaction_listing_is_ordered Sample.literalTest
                   _ _ _ _ 0 1 ("t2"%string, Sample.pay)
                   ("t1"%string, Sample.lunch) E _ _ _) _ _);
    first [lia|reflexivity].
Defined.

(** X29, witness: the lunch as an income under "Shopping", an expense
    category. *)
Lemma incompatible_category_is_a_server_error_witness :
  exists message,
    TransactionController.createTransaction Sample.store 5000 "t9" "u1"
      Sample.lunchAsIncome = Throw (Error message) /\
    ErrorHandler.errorHandler (ErrorHandler.plainError message)
    = Ok (ErrorHandler.mkResponse 500 "Internal server error" false).
Proof.
  apply (incompatible_category_is_a_server_error Sample.store 5000 "t9" "u1"
           Sample.lunchAsIncome Cases.lunchIncome Sample.shopping).
  - vm_compute. reflexivity.
  - vm_compute. reflexivity.
  - reflexivity.
  - reflexivity.
  - reflexivity.
Defined.

(** X30, witness: [DELETE /bulk] by a signed-in user, with twenty-four
    hexadecimal digits as the ids. *)
Lemma shadowed_handlers_are_never_reached_witness :
  reaches (Router.serve Cases.isMongoId (fun _ => true)
             Router.transactionRoutes Router.DELETE ["bulk"%string])
    Router.BulkDeleteTransactions = false
  /\ Router.serve Cases.isMongoId (fun _ => true)
       Router.transactionRoutes Router.DELETE ["bulk"%string]
     = Router.Stopped Router.ValidateObjectId.
Proof.
  split; [|vm_compute; reflexivity].
  apply (shadowed_handlers_are_never_reached Cases.isMongoId (fun _ => true)
           Router.DELETE ["bulk"%string]).
  reflexivity.
Defined.
